(** * Relationship lifecycle engine: a shallow embedding of the controllers
    and Mongoose models, with the properties of the lifecycle specification.

    Documents are records, collections are finite maps from [_id] to
    document, a controller is a function from the request and the stores to
    the new stores and the HTTP response.  A rejected promise inside a
    controller's [try] lands in its [catch]: the stores keep every write made
    before the rejection, the error is logged and the response is 500. *)

From stdpp Require Import gmap strings list fin_maps.
From Stdlib Require Import Ascii ZArith Lia.

(** ** Identifiers, strings, schema validators *)

Definition ObjectId := positive.

(** [String.prototype.trim], on the ASCII white space. *)
Fixpoint trimStart (s : string) : string :=
  match s with
  | String c s' => if Ascii.is_space c then trimStart s' else s
  | EmptyString => EmptyString
  end.

Definition trim (s : string) : string :=
  String.rev (trimStart (String.rev (trimStart s))).

(** Mongoose validators of a String path. *)
Definition required (s : string) : bool := negb (String.eqb s "").

Definition maxlength (n : nat) (s : string) : bool := (String.length s <=? n)%nat.

Definition enum (values : list string) (s : string) : bool :=
  existsb (String.eqb s) values.

(** Mongoose validators of a Number path. *)
Definition inRange (lo hi v : Z) : bool := ((lo <=? v) && (v <=? hi))%Z.

(** JavaScript truthiness of an optional string and of an optional number. *)
Definition truthyString (s : option string) : bool :=
  match s with
  | Some v => negb (String.eqb v "")
  | None => false
  end.

Definition truthyNumber (z : option Z) : bool :=
  match z with
  | Some v => negb (v =? 0)%Z
  | None => false
  end.

(** [runValidators: true] on an update: the validators of a path run when
    the update sets the path. *)
Definition updateValid {A} (valid : A → bool) (v : option A) : bool :=
  match v with
  | Some x => valid x
  | None => true
  end.

(** How many keys of an update object one optional field of the body
    contributes. *)
Definition given {A} (v : option A) : nat :=
  match v with
  | Some _ => 1
  | None => 0
  end.

(** The authenticated user of a request ([req.user]). *)
Record User := {
  id : ObjectId;
  firstName : string;
  lastName : string
}.

(** What a controller reads of the request besides its parameters and body:
    the outcome of the route's express-validator chain and the user. *)
Record Req := {
  errors_isEmpty : bool;
  user : User
}.

(** ** models/Relationship.js *)

Module Relationship.

Inductive Status := pending | active | ended | archived | requested_breakup.

#[global] Instance Status_eq_dec : EqDecision Status.
Proof. solve_decision. Defined.

Definition typeEnum : list string :=
  ["acquaintance"; "friend"; "close_friend"; "best_friend"; "romantic_interest";
   "partner"; "engaged"; "married"; "family"; "mentor"; "mentee"].

Record Stats := {
  trustLevel : Z;
  lastInteraction : Z;
  totalActivities : Z;
  milestonesAchieved : Z
}.

Record doc := {
  initiator : ObjectId;
  partner : ObjectId;
  type : string;
  status : Status;
  breakupRequestedBy : option ObjectId;
  latestCertificate : option ObjectId;
  title : string;
  description : string;
  startDate : Z;
  acceptedDate : option Z;
  endDate : option Z;
  stats : Stats
}.

(** [new Relationship({initiator, partner, title, type, description, status})]:
    the [trim] setter of [title] and the schema defaults. *)
Definition new (now : Z) (i p : ObjectId) (ttl ty descr : string) (st : Status) : doc :=
  {| initiator := i; partner := p; type := ty; status := st;
     breakupRequestedBy := None; latestCertificate := None;
     title := trim ttl; description := descr;
     startDate := now; acceptedDate := None; endDate := None;
     stats := {| trustLevel := 50; lastInteraction := now;
                 totalActivities := 0; milestonesAchieved := 0 |} |}.

(** The validators of the paths the controllers write. *)
Definition validTitle (ttl : string) : bool := required ttl && maxlength 100 ttl.

Definition validDescription (descr : string) : bool := maxlength 500 descr.

Definition validType (ty : string) : bool := enum typeEnum ty.

Definition validate (r : doc) : bool :=
  validTitle (title r) && validDescription (description r) && validType (type r).

Definition setStatus (s : Status) (r : doc) : doc :=
  {| initiator := initiator r; partner := partner r; type := type r; status := s;
     breakupRequestedBy := breakupRequestedBy r;
     latestCertificate := latestCertificate r;
     title := title r; description := description r;
     startDate := startDate r; acceptedDate := acceptedDate r;
     endDate := endDate r; stats := stats r |}.

Definition setAcceptedDate (d : option Z) (r : doc) : doc :=
  {| initiator := initiator r; partner := partner r; type := type r;
     status := status r; breakupRequestedBy := breakupRequestedBy r;
     latestCertificate := latestCertificate r;
     title := title r; description := description r;
     startDate := startDate r; acceptedDate := d;
     endDate := endDate r; stats := stats r |}.

Definition setEndDate (d : option Z) (r : doc) : doc :=
  {| initiator := initiator r; partner := partner r; type := type r;
     status := status r; breakupRequestedBy := breakupRequestedBy r;
     latestCertificate := latestCertificate r;
     title := title r; description := description r;
     startDate := startDate r; acceptedDate := acceptedDate r;
     endDate := d; stats := stats r |}.

Definition setBreakupRequestedBy (u : option ObjectId) (r : doc) : doc :=
  {| initiator := initiator r; partner := partner r; type := type r;
     status := status r; breakupRequestedBy := u;
     latestCertificate := latestCertificate r;
     title := title r; description := description r;
     startDate := startDate r; acceptedDate := acceptedDate r;
     endDate := endDate r; stats := stats r |}.

Definition setText (ttl descr ty : string) (r : doc) : doc :=
  {| initiator := initiator r; partner := partner r; type := ty;
     status := status r; breakupRequestedBy := breakupRequestedBy r;
     latestCertificate := latestCertificate r;
     title := ttl; description := descr;
     startDate := startDate r; acceptedDate := acceptedDate r;
     endDate := endDate r; stats := stats r |}.

Definition setStats (s : Stats) (r : doc) : doc :=
  {| initiator := initiator r; partner := partner r; type := type r;
     status := status r; breakupRequestedBy := breakupRequestedBy r;
     latestCertificate := latestCertificate r;
     title := title r; description := description r;
     startDate := startDate r; acceptedDate := acceptedDate r;
     endDate := endDate r; stats := s |}.

(** [$inc: {'stats.milestonesAchieved': n}] *)
Definition incMilestonesAchieved (n : Z) (r : doc) : doc :=
  setStats {| trustLevel := trustLevel (stats r);
              lastInteraction := lastInteraction (stats r);
              totalActivities := totalActivities (stats r);
              milestonesAchieved := (milestonesAchieved (stats r) + n)%Z |} r.

(** [$inc: {'stats.totalActivities': n}] *)
Definition incTotalActivities (n : Z) (r : doc) : doc :=
  setStats {| trustLevel := trustLevel (stats r);
              lastInteraction := lastInteraction (stats r);
              totalActivities := (totalActivities (stats r) + n)%Z;
              milestonesAchieved := milestonesAchieved (stats r) |} r.

(** [$set: {'stats.lastInteraction': d}] *)
Definition setLastInteraction (d : Z) (r : doc) : doc :=
  setStats {| trustLevel := trustLevel (stats r);
              lastInteraction := d;
              totalActivities := totalActivities (stats r);
              milestonesAchieved := milestonesAchieved (stats r) |} r.

(** [{'stats.trustLevel': v}] *)
Definition setTrustLevel (v : Z) (r : doc) : doc :=
  setStats {| trustLevel := v;
              lastInteraction := lastInteraction (stats r);
              totalActivities := totalActivities (stats r);
              milestonesAchieved := milestonesAchieved (stats r) |} r.

(** [relationshipSchema.methods.getPartner] *)
Definition getPartner (r : doc) (userId : ObjectId) : ObjectId :=
  if bool_decide (initiator r = userId) then partner r else initiator r.

(** [relationshipSchema.methods.includesUser] *)
Definition includesUser (r : doc) (userId : ObjectId) : bool :=
  bool_decide (initiator r = userId) || bool_decide (partner r = userId).

(** The filter of [createRelationship]'s [findOne]:
    [$or: [{initiator: a, partner: b}, {initiator: b, partner: a}]]. *)
Definition between (a b : ObjectId) (r : doc) : bool :=
  (bool_decide (initiator r = a) && bool_decide (partner r = b))
  || (bool_decide (initiator r = b) && bool_decide (partner r = a)).

(** The key of the unique index [{initiator: 1, partner: 1}]. *)
Definition sameKey (r1 r2 : doc) : bool :=
  bool_decide (initiator r1 = initiator r2) && bool_decide (partner r1 = partner r2).

End Relationship.

(** ** models/Notification.js: what the controllers hand to the sink *)

Module Notification.

Record Metadata := {
  relationshipId : option ObjectId;
  milestoneId : option ObjectId;
  activityId : option ObjectId;
  termId : option ObjectId;
  certificateId : option ObjectId
}.

Definition noMetadata : Metadata :=
  {| relationshipId := None; milestoneId := None; activityId := None;
     termId := None; certificateId := None |}.

(** An action is its [type] and [label]; its [url] is fixed by them and the
    relationship or term of the metadata. *)
Record doc := {
  recipient : ObjectId;
  sender : ObjectId;
  type : string;
  category : string;
  actionRequired : bool;
  actions : list (string * string);
  metadata : Metadata
}.

End Notification.

(** ** Collections *)

(** [Model.findOne(filter)]: some document that passes the filter. *)
Definition findOne {A} (f : A → bool) (m : gmap ObjectId A) : option (ObjectId * A) :=
  find (λ kv, f kv.2) (map_to_list m).

(** ** models/Term.js *)

Module Term.

Inductive Status := proposed | agreed | rejected | modified | archived.

#[global] Instance Status_eq_dec : EqDecision Status.
Proof. solve_decision. Defined.

Definition categoryEnum : list string :=
  ["communication"; "boundaries"; "expectations"; "goals"; "activities";
   "conflict_resolution"; "commitment"; "other"].

Definition priorityEnum : list string := ["low"; "medium"; "high"; "critical"].

Definition severityEnum : list string := ["minor"; "moderate"; "major"; "severe"].

Record Agreement := {
  agreedUser : ObjectId;
  agreedAt : Z;
  signature : string
}.

Record Violation := {
  reportedBy : ObjectId;
  violationDescription : option string;
  severity : string;
  reportedAt : Z;
  resolved : bool
}.

Record doc := {
  relationship : ObjectId;
  createdBy : ObjectId;
  title : string;
  description : string;
  category : string;
  priority : string;
  status : Status;
  agreedBy : list Agreement;
  expiresAt : option Z;
  violations : list Violation
}.

(** [new Term({relationship, createdBy, title, description, category,
    priority, expiresAt})] *)
Definition new (rel by_ : ObjectId) (ttl descr cat prio : string) (exp : option Z) : doc :=
  {| relationship := rel; createdBy := by_; title := trim ttl;
     description := descr; category := cat; priority := prio;
     status := proposed; agreedBy := []; expiresAt := exp; violations := [] |}.

Definition validTitle (ttl : string) : bool := required ttl && maxlength 100 ttl.

Definition validDescription (descr : string) : bool :=
  required descr && maxlength 1000 descr.

Definition validCategory (cat : string) : bool := enum categoryEnum cat.

Definition validPriority (prio : string) : bool := enum priorityEnum prio.

Definition validViolation (v : Violation) : bool := enum severityEnum (severity v).

Definition validate (t : doc) : bool :=
  validTitle (title t) && validDescription (description t)
  && validCategory (category t) && validPriority (priority t)
  && forallb validViolation (violations t).

Definition setAgreement (s : Status) (l : list Agreement) (t : doc) : doc :=
  {| relationship := relationship t; createdBy := createdBy t; title := title t;
     description := description t; category := category t;
     priority := priority t; status := s; agreedBy := l;
     expiresAt := expiresAt t; violations := violations t |}.

Definition setViolations (l : list Violation) (t : doc) : doc :=
  {| relationship := relationship t; createdBy := createdBy t; title := title t;
     description := description t; category := category t;
     priority := priority t; status := status t; agreedBy := agreedBy t;
     expiresAt := expiresAt t; violations := l |}.

Definition setFields (ttl descr cat prio : string) (exp : option Z) (t : doc) : doc :=
  {| relationship := relationship t; createdBy := createdBy t; title := ttl;
     description := descr; category := cat; priority := prio;
     status := status t; agreedBy := agreedBy t;
     expiresAt := exp; violations := violations t |}.

(** [termSchema.methods.hasUserAgreed] *)
Definition hasUserAgreed (t : doc) (userId : ObjectId) : bool :=
  existsb (λ agreement, bool_decide (agreedUser agreement = userId)) (agreedBy t).

(** The virtual [isFullyAgreed]. *)
Definition isFullyAgreed (t : doc) : bool := (2 <=? length (agreedBy t))%nat.

End Term.

(** ** models/Milestone.js *)

Module Milestone.

Inductive Status := pending | in_progress | completed | failed | archived.

#[global] Instance Status_eq_dec : EqDecision Status.
Proof. solve_decision. Defined.

Definition categoryEnum : list string :=
  ["time_based"; "activity_based"; "trust_based"; "communication"; "commitment";
   "achievement"; "celebration"; "custom"].

Definition typeEnum : list string := ["automatic"; "manual"; "collaborative"].

Definition difficultyEnum : list string := ["easy"; "medium"; "hard"; "expert"].

Definition evidenceEnum : list string := ["photo"; "video"; "document"; "note"; "link"].

Record Participant := {
  participant : ObjectId;
  completedAt : option Z
}.

Record Evidence := {
  evidenceType : option string;
  url : option string;
  evidenceDescription : option string;
  uploadedBy : ObjectId;
  uploadedAt : Z
}.

Record doc := {
  relationship : ObjectId;
  title : string;
  description : string;
  category : string;
  type : string;
  status : Status;
  completedDate : option Z;
  rewardsCertificate : bool;
  participants : list Participant;
  evidence : list Evidence;
  difficulty : string
}.

(** [new Milestone({relationship, title, description, category, type,
    targetDate, criteria, rewards, difficulty})] *)
Definition new (rel : ObjectId) (ttl descr cat ty : string) (cert : bool) (diff : string) : doc :=
  {| relationship := rel; title := trim ttl; description := descr;
     category := cat; type := ty; status := pending; completedDate := None;
     rewardsCertificate := cert; participants := []; evidence := [];
     difficulty := diff |}.

Definition validTitle (ttl : string) : bool := required ttl && maxlength 100 ttl.

Definition validDescription (descr : string) : bool := maxlength 500 descr.

Definition validDifficulty (diff : string) : bool := enum difficultyEnum diff.

Definition validEvidence (e : Evidence) : bool :=
  match evidenceType e with
  | Some ty => enum evidenceEnum ty
  | None => true
  end.

Definition validate (m : doc) : bool :=
  validTitle (title m) && validDescription (description m)
  && enum categoryEnum (category m) && enum typeEnum (type m)
  && validDifficulty (difficulty m)
  && forallb validEvidence (evidence m).

Definition setCompletion (s : Status) (d : option Z) (ps : list Participant) (m : doc) : doc :=
  {| relationship := relationship m; title := title m;
     description := description m; category := category m; type := type m;
     status := s; completedDate := d;
     rewardsCertificate := rewardsCertificate m; participants := ps;
     evidence := evidence m; difficulty := difficulty m |}.

Definition setEvidence (es : list Evidence) (m : doc) : doc :=
  {| relationship := relationship m; title := title m;
     description := description m; category := category m; type := type m;
     status := status m; completedDate := completedDate m;
     rewardsCertificate := rewardsCertificate m; participants := participants m;
     evidence := es; difficulty := difficulty m |}.

Definition setFields (ttl descr : string) (cert : bool) (diff : string) (m : doc) : doc :=
  {| relationship := relationship m; title := ttl; description := descr;
     category := category m; type := type m;
     status := status m; completedDate := completedDate m;
     rewardsCertificate := cert; participants := participants m;
     evidence := evidence m; difficulty := diff |}.

(** [milestoneSchema.methods.complete] *)
Definition complete (now : Z) (userId : ObjectId) (m : doc) : doc :=
  let existingParticipant :=
    find (λ p, bool_decide (participant p = userId)) (participants m) in
  setCompletion completed (Some now)
    (match existingParticipant with
     | Some _ => participants m
     | None => participants m ++ [{| participant := userId; completedAt := Some now |}]
     end) m.

End Milestone.

(** ** models/Activity.js *)

Module Activity.

Definition typeEnum : list string :=
  ["conversation"; "date"; "gift"; "achievement"; "conflict"; "resolution";
   "milestone"; "memory"; "goal"; "other"].

Definition categoryEnum : list string :=
  ["communication"; "quality_time"; "physical_touch"; "acts_of_service"; "gifts";
   "words_of_affirmation"; "shared_activities"; "personal_growth"].

Definition moodEnum : list string :=
  ["very_positive"; "positive"; "neutral"; "negative"; "very_negative"].

Definition reactionEnum : list string :=
  ["love"; "like"; "laugh"; "wow"; "sad"; "angry"].

Record Reaction := {
  reactionUser : ObjectId;
  reactionType : string;
  reactionAt : Z
}.

Record Comment := {
  commentUser : ObjectId;
  text : string;
  commentAt : Z
}.

(** [req.body.impact] *)
Record Impact := {
  trustChange : option Z;
  relationshipStrength : option Z
}.

Record doc := {
  relationship : ObjectId;
  createdBy : ObjectId;
  title : string;
  description : string;
  type : string;
  category : string;
  mood : string;
  impactTrustChange : Z;
  impactRelationshipStrength : Z;
  participants : list (ObjectId * string);
  reactions : list Reaction;
  comments : list Comment
}.

(** [new Activity({relationship, createdBy, title, ..., impact,
    participants: [{user, role: 'participant'}]})] with the schema defaults. *)
Definition new (rel by_ : ObjectId) (ttl : string) (descr : option string) (ty : string)
    (cat md : option string) (impact : option Impact) : doc :=
  {| relationship := rel; createdBy := by_; title := trim ttl;
     description := default "" descr; type := ty;
     category := default "shared_activities" cat;
     mood := default "neutral" md;
     impactTrustChange := default 0%Z (impact ≫= trustChange);
     impactRelationshipStrength := default 0%Z (impact ≫= relationshipStrength);
     participants := [(by_, "participant")]; reactions := []; comments := [] |}.

Definition validTitle (ttl : string) : bool := required ttl && maxlength 100 ttl.

Definition validDescription (descr : string) : bool := maxlength 1000 descr.

Definition validType (ty : string) : bool := enum typeEnum ty.

Definition validCategory (cat : string) : bool := enum categoryEnum cat.

Definition validMood (md : string) : bool := enum moodEnum md.

Definition validReaction (r : Reaction) : bool := enum reactionEnum (reactionType r).

Definition validComment (c : Comment) : bool :=
  required (text c) && maxlength 500 (text c).

Definition validate (a : doc) : bool :=
  validTitle (title a) && validDescription (description a)
  && validType (type a) && validCategory (category a) && validMood (mood a)
  && inRange (-10) 10 (impactTrustChange a)
  && inRange (-10) 10 (impactRelationshipStrength a)
  && forallb validReaction (reactions a)
  && forallb validComment (comments a).

Definition setReactions (rs : list Reaction) (a : doc) : doc :=
  {| relationship := relationship a; createdBy := createdBy a; title := title a;
     description := description a; type := type a; category := category a;
     mood := mood a; impactTrustChange := impactTrustChange a;
     impactRelationshipStrength := impactRelationshipStrength a;
     participants := participants a; reactions := rs; comments := comments a |}.

Definition setComments (cs : list Comment) (a : doc) : doc :=
  {| relationship := relationship a; createdBy := createdBy a; title := title a;
     description := description a; type := type a; category := category a;
     mood := mood a; impactTrustChange := impactTrustChange a;
     impactRelationshipStrength := impactRelationshipStrength a;
     participants := participants a; reactions := reactions a; comments := cs |}.

Definition setFields (ttl descr ty cat md : string) (a : doc) : doc :=
  {| relationship := relationship a; createdBy := createdBy a; title := ttl;
     description := descr; type := ty; category := cat;
     mood := md; impactTrustChange := impactTrustChange a;
     impactRelationshipStrength := impactRelationshipStrength a;
     participants := participants a; reactions := reactions a;
     comments := comments a |}.

(** [activitySchema.methods.addReaction] *)
Definition addReaction (now : Z) (userId : ObjectId) (reactionType_ : string) (a : doc) : doc :=
  setReactions
    (filter (λ r, reactionUser r ≠ userId) (reactions a)
     ++ [{| reactionUser := userId; reactionType := reactionType_; reactionAt := now |}]) a.

(** [activitySchema.methods.addComment] *)
Definition addComment (now : Z) (userId : ObjectId) (text_ : string) (a : doc) : doc :=
  setComments
    (comments a ++ [{| commentUser := userId; text := text_; commentAt := now |}]) a.

End Activity.

(** ** models/Certificate.js *)

(** [Number.prototype.toString(36)] of a non-negative integer. *)
Definition digit36 (d : Z) : ascii :=
  default "0"%char (String.list_ascii_of_string "0123456789abcdefghijklmnopqrstuvwxyz" !! Z.to_nat d).

Fixpoint toString36_go (fuel : nat) (n : Z) (acc : string) : string :=
  match fuel with
  | O => acc
  | S fuel' =>
      let acc' := String (digit36 (n mod 36)) acc in
      if (n <? 36)%Z then acc' else toString36_go fuel' (n / 36) acc'
  end.

Definition toString36 (n : Z) : string :=
  toString36_go (S (Z.to_nat (Z.log2 n))) n "".

(** [String.prototype.toUpperCase], on ASCII. *)
Definition upperAscii (c : ascii) : ascii :=
  let n := nat_of_ascii c in
  if ((97 <=? n) && (n <=? 122))%nat then ascii_of_nat (n - 32) else c.

Fixpoint toUpperCase (s : string) : string :=
  match s with
  | String c s' => String (upperAscii c) (toUpperCase s')
  | EmptyString => EmptyString
  end.

Module Certificate.

Definition relatedToEnum : list string :=
  ["relationship"; "milestone"; "user"; "activity"; "term"].

Definition typeEnum : list string :=
  ["milestone"; "anniversary"; "achievement"; "trust"; "communication";
   "commitment"; "growth"; "special"; "relationship"].

Definition levelEnum : list string :=
  ["bronze"; "silver"; "gold"; "platinum"; "diamond"].

Record Recipient := {
  recipient : ObjectId;
  awardedAt : Z
}.

Record doc := {
  relatedTo : option string;
  relatedId : option ObjectId;
  title : string;
  description : string;
  type : string;
  level : string;
  recipients : list Recipient;
  certificateNumber : option string;
  validUntil : option Z;
  isRevoked : bool;
  revokedAt : option Z;
  revokedReason : option string;
  sharedOn : list string;
  sharingShareCount : Z;
  viewCount : Z;
  downloadCount : Z;
  shareCount : Z
}.

(** [new Certificate({...})]: only the paths of the schema are kept (strict
    mode), so [relatedTo] and [relatedId] are set exactly when the caller
    passes those two keys. *)
Definition new (now : Z) (to : option string) (rid : option ObjectId)
    (ttl descr ty lvl : string) (users : list ObjectId) : doc :=
  {| relatedTo := to; relatedId := rid; title := trim ttl; description := descr;
     type := ty; level := lvl;
     recipients := (λ u, {| recipient := u; awardedAt := now |}) <$> users;
     certificateNumber := None; validUntil := None; isRevoked := false;
     revokedAt := None; revokedReason := None; sharedOn := [];
     sharingShareCount := 0; viewCount := 0; downloadCount := 0; shareCount := 0 |}.

(** Path validators: [relatedTo] and [relatedId] are [required: true]. *)
Definition validate (c : doc) : bool :=
  match relatedTo c, relatedId c with
  | Some to, Some _ =>
      enum relatedToEnum to
      && required (title c) && maxlength 100 (title c)
      && maxlength 500 (description c)
      && enum typeEnum (type c) && enum levelEnum (level c)
  | _, _ => false
  end.

Definition setCertificateNumber (n : option string) (c : doc) : doc :=
  {| relatedTo := relatedTo c; relatedId := relatedId c; title := title c;
     description := description c; type := type c; level := level c;
     recipients := recipients c; certificateNumber := n;
     validUntil := validUntil c; isRevoked := isRevoked c;
     revokedAt := revokedAt c; revokedReason := revokedReason c;
     sharedOn := sharedOn c; sharingShareCount := sharingShareCount c;
     viewCount := viewCount c; downloadCount := downloadCount c;
     shareCount := shareCount c |}.

Definition setRevocation (b : bool) (at_ : option Z) (reason : option string) (c : doc) : doc :=
  {| relatedTo := relatedTo c; relatedId := relatedId c; title := title c;
     description := description c; type := type c; level := level c;
     recipients := recipients c; certificateNumber := certificateNumber c;
     validUntil := validUntil c; isRevoked := b;
     revokedAt := at_; revokedReason := reason;
     sharedOn := sharedOn c; sharingShareCount := sharingShareCount c;
     viewCount := viewCount c; downloadCount := downloadCount c;
     shareCount := shareCount c |}.

Definition setCounters (on : list string) (sharing views downloads shares : Z) (c : doc) : doc :=
  {| relatedTo := relatedTo c; relatedId := relatedId c; title := title c;
     description := description c; type := type c; level := level c;
     recipients := recipients c; certificateNumber := certificateNumber c;
     validUntil := validUntil c; isRevoked := isRevoked c;
     revokedAt := revokedAt c; revokedReason := revokedReason c;
     sharedOn := on; sharingShareCount := sharing;
     viewCount := views; downloadCount := downloads; shareCount := shares |}.

(** The number of [certificateSchema.pre('save')]:
    [`CERT-${timestamp}-${random}`.toUpperCase()]. *)
Definition generateNumber (now : Z) (random : string) : string :=
  toUpperCase ("CERT-" +:+ toString36 now +:+ "-" +:+ random).

(** [certificateSchema.pre('save')] *)
Definition preSave (now : Z) (random : string) (c : doc) : doc :=
  if truthyString (certificateNumber c) then c
  else setCertificateNumber (Some (generateNumber now random)) c.

(** The unique index on [metadata.certificateNumber]: is the number of [c]
    taken by a stored certificate other than [self]? *)
Definition numberTaken (self : option ObjectId) (c : doc) (store : gmap ObjectId doc) : bool :=
  bool_decide (map_Exists (λ k d, Some k ≠ self ∧ certificateNumber d = certificateNumber c) store).

Inductive SaveError := ValidationError | DuplicateKey.

(** [certificate.save()] of a new document under [_id = k]: validation, then
    the pre-save hook, then the insert under the unique index. *)
Definition save (now : Z) (random : string) (k : ObjectId) (c : doc)
    (store : gmap ObjectId doc) : SaveError + gmap ObjectId doc :=
  if negb (validate c) then inl ValidationError
  else
    let c' := preSave now random c in
    if numberTaken None c' store then inl DuplicateKey
    else inr (<[k := c']> store).

(** [certificate.save()] of a stored document after a change of counters or
    of the revocation. *)
Definition saveExisting (now : Z) (random : string) (k : ObjectId) (c : doc)
    (store : gmap ObjectId doc) : SaveError + gmap ObjectId doc :=
  let c' := preSave now random c in
  if numberTaken (Some k) c' store then inl DuplicateKey
  else inr (<[k := c']> store).

(** [certificateSchema.methods.isValid] *)
Definition isValid (now : Z) (c : doc) : bool :=
  if isRevoked c then false
  else match validUntil c with
       | Some until => if (until <? now)%Z then false else true
       | None => true
       end.

(** [certificateSchema.methods.revoke] *)
Definition revoke (now : Z) (reason : string) (c : doc) : doc :=
  setRevocation true (Some now) (Some reason) c.

(** [certificateSchema.methods.incrementView], up to its [save]. *)
Definition incrementView (c : doc) : doc :=
  setCounters (sharedOn c) (sharingShareCount c) (viewCount c + 1)%Z
    (downloadCount c) (shareCount c) c.

(** The level [completeMilestone] awards for a difficulty. *)
Definition levelOf (difficulty : string) : string :=
  if String.eqb difficulty "expert" then "platinum"
  else if String.eqb difficulty "hard" then "gold"
  else if String.eqb difficulty "medium" then "silver"
  else "bronze".

End Certificate.

(** ** The stores, the environment of a request, the response *)

Record World := {
  relationships : gmap ObjectId Relationship.doc;
  terms : gmap ObjectId Term.doc;
  milestones : gmap ObjectId Milestone.doc;
  activities : gmap ObjectId Activity.doc;
  certificates : gmap ObjectId Certificate.doc;
  notifications : list Notification.doc;
  logs : list string;
  nextId : ObjectId
}.

(** The world outside the stores, as one request meets it: the clock, the
    random source, the Identity Directory and the Notification Sink. *)
Record Env := {
  now : Z;
  random : string;
  User_findOne : string → option ObjectId;
  sinkUp : Notification.doc → bool
}.

Inductive Payload :=
| NoPayload
| RelationshipBody (k : ObjectId) (r : Relationship.doc)
| TermBody (k : ObjectId) (t : Term.doc)
| MilestoneBody (k : ObjectId) (m : Milestone.doc)
| ActivityBody (k : ObjectId) (a : Activity.doc)
| ReactionsBody (rs : list Activity.Reaction)
| CommentsBody (cs : list Activity.Comment)
| CertificateBody (k : ObjectId) (c : Certificate.doc).

Record Response := {
  code : Z;
  message : string;
  body : Payload
}.

Definition json (c : Z) (msg : string) : Response :=
  {| code := c; message := msg; body := NoPayload |}.

Definition emptyWorld : World :=
  {| relationships := ∅; terms := ∅; milestones := ∅; activities := ∅;
     certificates := ∅; notifications := []; logs := []; nextId := 1%positive |}.

Definition setRelationships (m : gmap ObjectId Relationship.doc) (w : World) : World :=
  {| relationships := m; terms := terms w; milestones := milestones w;
     activities := activities w; certificates := certificates w;
     notifications := notifications w; logs := logs w; nextId := nextId w |}.

Definition setTerms (m : gmap ObjectId Term.doc) (w : World) : World :=
  {| relationships := relationships w; terms := m; milestones := milestones w;
     activities := activities w; certificates := certificates w;
     notifications := notifications w; logs := logs w; nextId := nextId w |}.

Definition setMilestones (m : gmap ObjectId Milestone.doc) (w : World) : World :=
  {| relationships := relationships w; terms := terms w; milestones := m;
     activities := activities w; certificates := certificates w;
     notifications := notifications w; logs := logs w; nextId := nextId w |}.

Definition setActivities (m : gmap ObjectId Activity.doc) (w : World) : World :=
  {| relationships := relationships w; terms := terms w; milestones := milestones w;
     activities := m; certificates := certificates w;
     notifications := notifications w; logs := logs w; nextId := nextId w |}.

Definition setCertificates (m : gmap ObjectId Certificate.doc) (w : World) : World :=
  {| relationships := relationships w; terms := terms w; milestones := milestones w;
     activities := activities w; certificates := m;
     notifications := notifications w; logs := logs w; nextId := nextId w |}.

Definition pushNotification (n : Notification.doc) (w : World) : World :=
  {| relationships := relationships w; terms := terms w; milestones := milestones w;
     activities := activities w; certificates := certificates w;
     notifications := notifications w ++ [n]; logs := logs w; nextId := nextId w |}.

(** [console.error(tag, error)] *)
Definition consoleError (tag : string) (w : World) : World :=
  {| relationships := relationships w; terms := terms w; milestones := milestones w;
     activities := activities w; certificates := certificates w;
     notifications := notifications w; logs := logs w ++ [tag]; nextId := nextId w |}.

(** A new [ObjectId]. *)
Definition newId (w : World) : ObjectId * World :=
  (nextId w,
   {| relationships := relationships w; terms := terms w; milestones := milestones w;
      activities := activities w; certificates := certificates w;
      notifications := notifications w; logs := logs w;
      nextId := Pos.succ (nextId w) |}).

(** The [catch] of a controller. *)
Definition catch (tag msg : string) (w : World) : World * Response :=
  (consoleError tag w, json 500 msg).

(** [Notification.create(n)]: [None] when the promise rejects. *)
Definition Notification_create (env : Env) (n : Notification.doc) (w : World) : option World :=
  if sinkUp env n then Some (pushNotification n w) else None.

(** [Notification.create(n).catch(e => console.error(tag, e))], not awaited. *)
Definition Notification_create_background (env : Env) (tag : string)
    (n : Notification.doc) (w : World) : World :=
  match Notification_create env n w with
  | Some w' => w'
  | None => consoleError tag w
  end.

(** [relationship.save()] of a new document: validation, then the insert
    under the unique index [{initiator: 1, partner: 1}]. *)
Definition Relationship_insert (k : ObjectId) (r : Relationship.doc)
    (store : gmap ObjectId Relationship.doc) : option (gmap ObjectId Relationship.doc) :=
  if negb (Relationship.validate r) then None
  else match findOne (Relationship.sameKey r) store with
       | Some _ => None
       | None => Some (<[k := r]> store)
       end.

(** ** controllers/relationshipController.js *)

Module relationshipController.

Record CreateBody := {
  partnerEmail : string;
  title : string;
  type : option string;
  description : option string
}.

(** The keys of [allowedUpdates] that the embedding tracks. *)
Record UpdateBody := {
  newTitle : option string;
  newDescription : option string;
  newType : option string
}.

Definition notification (recipient sender : ObjectId) (type : string)
    (actionRequired : bool) (actions : list (string * string))
    (relationshipId : ObjectId) : Notification.doc :=
  {| Notification.recipient := recipient; Notification.sender := sender;
     Notification.type := type; Notification.category := "relationship";
     Notification.actionRequired := actionRequired;
     Notification.actions := actions;
     Notification.metadata :=
       {| Notification.relationshipId := Some relationshipId;
          Notification.milestoneId := None; Notification.activityId := None;
          Notification.termId := None; Notification.certificateId := None |} |}.

Definition createRelationship (env : Env) (req : Req) (b : CreateBody)
    (w : World) : World * Response :=
  if negb (errors_isEmpty req) then (w, json 400 "Validation failed") else
  match User_findOne env (partnerEmail b) with
  | None => (w, json 404 "User not found with this email")
  | Some partner =>
  if bool_decide (partner = id (user req)) then
    (w, json 400 "Cannot create relationship with yourself")
  else
  match findOne (Relationship.between (id (user req)) partner) (relationships w) with
  | Some existingRelationship => (w, json 400 "Relationship already exists")
  | None =>
  let '(k, w) := newId w in
  let relationship :=
    Relationship.new (now env) (id (user req)) partner (title b)
      (default "acquaintance" (type b)) (default "" (description b))
      Relationship.pending in
  match Relationship_insert k relationship (relationships w) with
  | None => catch "Create relationship error:" "Server error during relationship creation" w
  | Some store =>
  let w := setRelationships store w in
  match Notification_create env
          (notification partner (id (user req)) "relationship_invite" true
             [("accept", "Accept"); ("decline", "Decline")] k) w with
  | None => catch "Create relationship error:" "Server error during relationship creation" w
  | Some w =>
      (w, {| code := 201; message := "Relationship invitation sent successfully";
             body := RelationshipBody k relationship |})
  end end end end.

Definition updateRelationship (env : Env) (req : Req) (k : ObjectId) (b : UpdateBody)
    (w : World) : World * Response :=
  if negb (errors_isEmpty req) then (w, json 400 "Validation failed") else
  match relationships w !! k with
  | None => (w, json 404 "Relationship not found")
  | Some relationship =>
  if negb (Relationship.includesUser relationship (id (user req))) then
    (w, json 403 "Access denied")
  else if negb (bool_decide (Relationship.status relationship = Relationship.active)) then
    (w, json 400 "Can only update active relationships")
  else
  let updates := (trim <$> newTitle b, newDescription b, newType b) in
  if negb (updateValid Relationship.validTitle updates.1.1
           && updateValid Relationship.validDescription updates.1.2
           && updateValid Relationship.validType updates.2) then
    catch "Update relationship error:" "Server error during relationship update" w
  else
  let updatedRelationship :=
    Relationship.setText
      (default (Relationship.title relationship) updates.1.1)
      (default (Relationship.description relationship) updates.1.2)
      (default (Relationship.type relationship) updates.2) relationship in
  (setRelationships (<[k := updatedRelationship]> (relationships w)) w,
   {| code := 200; message := "Relationship updated successfully";
      body := RelationshipBody k updatedRelationship |})
  end.

Definition acceptRelationship (env : Env) (req : Req) (k : ObjectId)
    (w : World) : World * Response :=
  if negb (errors_isEmpty req) then (w, json 400 "Validation failed") else
  match relationships w !! k with
  | None => (w, json 404 "Relationship not found")
  | Some relationship =>
  if negb (bool_decide (Relationship.partner relationship = id (user req))) then
    (w, json 403 "Only the invited partner can accept this relationship")
  else if negb (bool_decide (Relationship.status relationship = Relationship.pending)) then
    (w, json 400 "Relationship is not pending")
  else
  let relationship :=
    Relationship.setAcceptedDate (Some (now env))
      (Relationship.setStatus Relationship.active relationship) in
  let w := setRelationships (<[k := relationship]> (relationships w)) w in
  match Notification_create env
          (notification (Relationship.initiator relationship) (id (user req))
             "relationship_accepted" false [] k) w with
  | None => catch "Accept relationship error:" "Server error during relationship acceptance" w
  | Some w =>
      (w, {| code := 200; message := "Relationship accepted successfully";
             body := RelationshipBody k relationship |})
  end end.

Definition declineRelationship (env : Env) (req : Req) (k : ObjectId)
    (w : World) : World * Response :=
  if negb (errors_isEmpty req) then (w, json 400 "Validation failed") else
  match relationships w !! k with
  | None => (w, json 404 "Relationship not found")
  | Some relationship =>
  if negb (bool_decide (Relationship.partner relationship = id (user req))) then
    (w, json 403 "Only the invited partner can decline this relationship")
  else if negb (bool_decide (Relationship.status relationship = Relationship.pending)) then
    (w, json 400 "Relationship is not pending")
  else
  let w := setRelationships (delete k (relationships w)) w in
  match Notification_create env
          (notification (Relationship.initiator relationship) (id (user req))
             "relationship_declined" false [] k) w with
  | None => catch "Decline relationship error:" "Server error during relationship decline" w
  | Some w => (w, json 200 "Relationship declined successfully")
  end end.

Definition deleteRelationship (env : Env) (req : Req) (k : ObjectId)
    (w : World) : World * Response :=
  if negb (errors_isEmpty req) then (w, json 400 "Validation failed") else
  match relationships w !! k with
  | None => (w, json 404 "Relationship not found")
  | Some relationship =>
  if negb (Relationship.includesUser relationship (id (user req))) then
    (w, json 403 "Access denied")
  else if bool_decide (Relationship.status relationship = Relationship.active) then
    let relationship :=
      Relationship.setEndDate (Some (now env))
        (Relationship.setStatus Relationship.archived relationship) in
    (setRelationships (<[k := relationship]> (relationships w)) w,
     json 200 "Relationship archived successfully")
  else
    (setRelationships (delete k (relationships w)) w,
     json 200 "Relationship deleted successfully")
  end.

Definition requestBreakup (env : Env) (req : Req) (k : ObjectId)
    (w : World) : World * Response :=
  if negb (errors_isEmpty req) then (w, json 400 "Validation failed") else
  match relationships w !! k with
  | None => (w, json 404 "Relationship not found")
  | Some relationship =>
  if negb (Relationship.includesUser relationship (id (user req))) then
    (w, json 403 "Access denied")
  else if negb (bool_decide (Relationship.status relationship = Relationship.active)) then
    (w, json 400 "Can only request breakup for active relationships")
  else
  let relationship :=
    Relationship.setBreakupRequestedBy (Some (id (user req)))
      (Relationship.setStatus Relationship.requested_breakup relationship) in
  let w := setRelationships (<[k := relationship]> (relationships w)) w in
  let res := {| code := 200; message := "Breakup request sent successfully";
                body := RelationshipBody k relationship |} in
  let partnerId := Relationship.getPartner relationship (id (user req)) in
  (Notification_create_background env "Error creating breakup request notification:"
     (notification partnerId (id (user req)) "breakup_request" true
        [("accept", "Confirm Breakup"); ("decline", "Cancel Request")] k) w,
   res)
  end.

Definition confirmBreakup (env : Env) (req : Req) (k : ObjectId)
    (w : World) : World * Response :=
  if negb (errors_isEmpty req) then (w, json 400 "Validation failed") else
  match relationships w !! k with
  | None => (w, json 404 "Relationship not found")
  | Some relationship =>
  if negb (Relationship.includesUser relationship (id (user req))) then
    (w, json 403 "Access denied")
  else if negb (bool_decide (Relationship.status relationship = Relationship.requested_breakup)) then
    (w, json 400 "Relationship is not in breakup request state")
  else
  match Relationship.breakupRequestedBy relationship with
  | None =>
      (* [undefined.toString()] throws *)
      catch "Confirm breakup error:" "Server error during breakup confirmation" w
  | Some requester =>
  if bool_decide (requester = id (user req)) then
    (w, json 400 "You cannot confirm your own breakup request")
  else
  let relationship :=
    Relationship.setEndDate (Some (now env))
      (Relationship.setStatus Relationship.ended relationship) in
  let w := setRelationships (<[k := relationship]> (relationships w)) w in
  let res := {| code := 200; message := "Breakup confirmed successfully";
                body := RelationshipBody k relationship |} in
  let initiatorId := requester in
  (Notification_create_background env "Error creating breakup confirmed notification:"
     (notification initiatorId (id (user req)) "breakup_confirmed" false [] k) w,
   res)
  end end.

Definition cancelBreakupRequest (env : Env) (req : Req) (k : ObjectId)
    (w : World) : World * Response :=
  if negb (errors_isEmpty req) then (w, json 400 "Validation failed") else
  let userId := id (user req) in
  match relationships w !! k with
  | None => (w, json 404 "Relationship not found")
  | Some relationship =>
  if negb (Relationship.includesUser relationship userId) then
    (w, json 403 "Not authorized to cancel this request")
  else if negb (bool_decide (Relationship.status relationship = Relationship.requested_breakup)) then
    (w, json 400 "No breakup request pending for this relationship")
  else
  match Relationship.breakupRequestedBy relationship with
  | None =>
      catch "Cancel breakup request error:" "Server error during breakup request cancellation" w
  | Some requester =>
  if negb (bool_decide (requester = userId)) then
    (w, json 403 "Only the initiator can cancel the breakup request")
  else
  let relationship :=
    Relationship.setBreakupRequestedBy None
      (Relationship.setStatus Relationship.active relationship) in
  let w := setRelationships (<[k := relationship]> (relationships w)) w in
  let partnerId := Relationship.getPartner relationship userId in
  match Notification_create env
          (notification partnerId userId "breakup_request_canceled" false [] k) w with
  | None =>
      catch "Cancel breakup request error:" "Server error during breakup request cancellation" w
  | Some w =>
      (w, {| code := 200;
             message := "Breakup request canceled successfully. Relationship is now active.";
             body := RelationshipBody k relationship |})
  end end end.

End relationshipController.

(** ** controllers/termController.js *)

Module termController.

Record CreateBody := {
  relationshipId : ObjectId;
  title : string;
  description : string;
  category : string;
  priority : option string;
  expiresAt : option Z
}.

Record UpdateBody := {
  newTitle : option string;
  newDescription : option string;
  newCategory : option string;
  newPriority : option string;
  newExpiresAt : option Z
}.

Definition notification (recipient sender : ObjectId) (type : string)
    (actionRequired : bool) (actions : list (string * string))
    (termId relationshipId : ObjectId) : Notification.doc :=
  {| Notification.recipient := recipient; Notification.sender := sender;
     Notification.type := type; Notification.category := "relationship";
     Notification.actionRequired := actionRequired;
     Notification.actions := actions;
     Notification.metadata :=
       {| Notification.relationshipId := Some relationshipId;
          Notification.milestoneId := None; Notification.activityId := None;
          Notification.termId := Some termId; Notification.certificateId := None |} |}.

Definition createTerm (env : Env) (req : Req) (b : CreateBody)
    (w : World) : World * Response :=
  if negb (errors_isEmpty req) then (w, json 400 "Validation failed") else
  match relationships w !! relationshipId b with
  | None => (w, json 404 "Relationship not found")
  | Some relationship =>
  if negb (Relationship.includesUser relationship (id (user req))) then
    (w, json 403 "Access denied")
  else if negb (bool_decide (Relationship.status relationship = Relationship.active)) then
    (w, json 400 "Can only create terms for active relationships")
  else
  let '(k, w) := newId w in
  let term :=
    Term.new (relationshipId b) (id (user req)) (title b) (description b)
      (category b) (default "medium" (priority b)) (expiresAt b) in
  if negb (Term.validate term) then
    catch "Create term error:" "Server error during term creation" w
  else
  let w := setTerms (<[k := term]> (terms w)) w in
  let partnerId := Relationship.getPartner relationship (id (user req)) in
  match Notification_create env
          (notification partnerId (id (user req)) "term_proposed" true
             [("view", "Review Term")] k (relationshipId b)) w with
  | None => catch "Create term error:" "Server error during term creation" w
  | Some w =>
      (w, {| code := 201; message := "Term created successfully";
             body := TermBody k term |})
  end end.

Definition updateTerm (env : Env) (req : Req) (k : ObjectId) (b : UpdateBody)
    (w : World) : World * Response :=
  if negb (errors_isEmpty req) then (w, json 400 "Validation failed") else
  match terms w !! k with
  | None => (w, json 404 "Term not found")
  | Some term =>
  if negb (bool_decide (Term.createdBy term = id (user req))) then
    (w, json 403 "Only the creator can update this term")
  else if bool_decide (Term.status term = Term.agreed) then
    (w, json 400 "Cannot update agreed terms")
  else
  let ttl := trim <$> newTitle b in
  let keys :=
    given (newTitle b) + given (newDescription b) + given (newCategory b)
    + given (newPriority b) + given (newExpiresAt b) in
  if negb (updateValid Term.validTitle ttl
           && updateValid Term.validDescription (newDescription b)
           && updateValid Term.validCategory (newCategory b)
           && updateValid Term.validPriority (newPriority b)) then
    catch "Update term error:" "Server error during term update" w
  else
  let updatedTerm :=
    Term.setFields
      (default (Term.title term) ttl)
      (default (Term.description term) (newDescription b))
      (default (Term.category term) (newCategory b))
      (default (Term.priority term) (newPriority b))
      (match newExpiresAt b with Some e => Some e | None => Term.expiresAt term end)
      (* reset agreements if term is modified *)
      (if (0 <? keys)%nat then Term.setAgreement Term.modified [] term else term) in
  (setTerms (<[k := updatedTerm]> (terms w)) w,
   {| code := 200; message := "Term updated successfully";
      body := TermBody k updatedTerm |})
  end.

Definition agreeTerm (env : Env) (req : Req) (k : ObjectId) (signature : option string)
    (w : World) : World * Response :=
  if negb (errors_isEmpty req) then (w, json 400 "Validation failed") else
  match terms w !! k with
  | None => (w, json 404 "Term not found")
  | Some term =>
  match relationships w !! Term.relationship term with
  | None =>
      (* [populate] leaves [null]; reading [.initiator] of it throws *)
      catch "Agree term error:" "Server error during term agreement" w
  | Some relationship =>
  if negb (bool_decide (Relationship.initiator relationship = id (user req)))
     && negb (bool_decide (Relationship.partner relationship = id (user req))) then
    (w, json 403 "Access denied")
  else if Term.hasUserAgreed term (id (user req)) then
    (w, json 400 "You have already agreed to this term")
  else
  let agreedBy :=
    Term.agreedBy term
    ++ [{| Term.agreedUser := id (user req); Term.agreedAt := now env;
           Term.signature :=
             if truthyString signature then default "" signature
             else firstName (user req) +:+ " " +:+ lastName (user req) |}] in
  let term :=
    Term.setAgreement
      (if (2 <=? length agreedBy)%nat then Term.agreed else Term.status term)
      agreedBy term in
  let w := setTerms (<[k := term]> (terms w)) w in
  let partnerId :=
    if bool_decide (Relationship.initiator relationship = id (user req))
    then Relationship.partner relationship
    else Relationship.initiator relationship in
  match Notification_create env
          (notification partnerId (id (user req)) "term_agreed" false []
             k (Term.relationship term)) w with
  | None => catch "Agree term error:" "Server error during term agreement" w
  | Some w =>
      (w, {| code := 200; message := "Term agreement recorded successfully";
             body := TermBody k term |})
  end end end.

Definition reportViolation (env : Env) (req : Req) (k : ObjectId)
    (description : option string) (severity : option string)
    (w : World) : World * Response :=
  if negb (errors_isEmpty req) then (w, json 400 "Validation failed") else
  match terms w !! k with
  | None => (w, json 404 "Term not found")
  | Some term =>
  match relationships w !! Term.relationship term with
  | None => catch "Report violation error:" "Server error during violation report" w
  | Some relationship =>
  if negb (bool_decide (Relationship.initiator relationship = id (user req)))
     && negb (bool_decide (Relationship.partner relationship = id (user req))) then
    (w, json 403 "Access denied")
  else
  let violation :=
    {| Term.reportedBy := id (user req); Term.violationDescription := description;
       Term.severity := default "minor" severity; Term.reportedAt := now env;
       Term.resolved := false |} in
  if negb (Term.validViolation violation) then
    catch "Report violation error:" "Server error during violation report" w
  else
  let term := Term.setViolations (Term.violations term ++ [violation]) term in
  let w := setTerms (<[k := term]> (terms w)) w in
  let partnerId :=
    if bool_decide (Relationship.initiator relationship = id (user req))
    then Relationship.partner relationship
    else Relationship.initiator relationship in
  match Notification_create env
          (notification partnerId (id (user req)) "term_violated" true []
             k (Term.relationship term)) w with
  | None => catch "Report violation error:" "Server error during violation report" w
  | Some w => (w, json 200 "Violation reported successfully")
  end end end.

Definition deleteTerm (env : Env) (req : Req) (k : ObjectId)
    (w : World) : World * Response :=
  if negb (errors_isEmpty req) then (w, json 400 "Validation failed") else
  match terms w !! k with
  | None => (w, json 404 "Term not found")
  | Some term =>
  if negb (bool_decide (Term.createdBy term = id (user req))) then
    (w, json 403 "Only the creator can delete this term")
  else if bool_decide (Term.status term = Term.agreed) then
    (w, json 400 "Cannot delete agreed terms")
  else
    (setTerms (delete k (terms w)) w, json 200 "Term deleted successfully")
  end.

End termController.

(** ** controllers/milestoneController.js *)

Module milestoneController.

Record CreateBody := {
  relationshipId : ObjectId;
  title : string;
  description : option string;
  category : string;
  type : option string;
  rewardsCertificate : bool;
  difficulty : option string
}.

Record UpdateBody := {
  newTitle : option string;
  newDescription : option string;
  newRewardsCertificate : option bool;
  newDifficulty : option string
}.

Definition notification (recipient sender : ObjectId) (type category : string)
    (milestoneId : ObjectId) (relationshipId certificateId : option ObjectId)
    : Notification.doc :=
  {| Notification.recipient := recipient; Notification.sender := sender;
     Notification.type := type; Notification.category := category;
     Notification.actionRequired := false; Notification.actions := [];
     Notification.metadata :=
       {| Notification.relationshipId := relationshipId;
          Notification.milestoneId := Some milestoneId;
          Notification.activityId := None; Notification.termId := None;
          Notification.certificateId := certificateId |} |}.

Definition createMilestone (env : Env) (req : Req) (b : CreateBody)
    (w : World) : World * Response :=
  if negb (errors_isEmpty req) then (w, json 400 "Validation failed") else
  match relationships w !! relationshipId b with
  | None => (w, json 404 "Relationship not found")
  | Some relationship =>
  if negb (Relationship.includesUser relationship (id (user req))) then
    (w, json 403 "Access denied")
  else if negb (bool_decide (Relationship.status relationship = Relationship.active)) then
    (w, json 400 "Can only create milestones for active relationships")
  else
  let '(k, w) := newId w in
  let milestone :=
    Milestone.new (relationshipId b) (title b) (default "" (description b))
      (category b) (default "manual" (type b)) (rewardsCertificate b)
      (default "medium" (difficulty b)) in
  if negb (Milestone.validate milestone) then
    catch "Create milestone error:" "Server error during milestone creation" w
  else
  let w := setMilestones (<[k := milestone]> (milestones w)) w in
  let partnerId := Relationship.getPartner relationship (id (user req)) in
  match Notification_create env
          (notification partnerId (id (user req)) "milestone_created" "milestone"
             k (Some (relationshipId b)) None) w with
  | None => catch "Create milestone error:" "Server error during milestone creation" w
  | Some w =>
      (w, {| code := 201; message := "Milestone created successfully";
             body := MilestoneBody k milestone |})
  end end.

Definition updateMilestone (env : Env) (req : Req) (k : ObjectId) (b : UpdateBody)
    (w : World) : World * Response :=
  if negb (errors_isEmpty req) then (w, json 400 "Validation failed") else
  match milestones w !! k with
  | None => (w, json 404 "Milestone not found")
  | Some milestone =>
  match relationships w !! Milestone.relationship milestone with
  | None => catch "Update milestone error:" "Server error during milestone update" w
  | Some relationship =>
  if negb (bool_decide (Relationship.initiator relationship = id (user req)))
     && negb (bool_decide (Relationship.partner relationship = id (user req))) then
    (w, json 403 "Access denied")
  else if bool_decide (Milestone.status milestone = Milestone.completed) then
    (w, json 400 "Cannot update completed milestones")
  else
  let ttl := trim <$> newTitle b in
  if negb (updateValid Milestone.validTitle ttl
           && updateValid Milestone.validDescription (newDescription b)
           && updateValid Milestone.validDifficulty (newDifficulty b)) then
    catch "Update milestone error:" "Server error during milestone update" w
  else
  let updatedMilestone :=
    Milestone.setFields
      (default (Milestone.title milestone) ttl)
      (default (Milestone.description milestone) (newDescription b))
      (default (Milestone.rewardsCertificate milestone) (newRewardsCertificate b))
      (default (Milestone.difficulty milestone) (newDifficulty b)) milestone in
  (setMilestones (<[k := updatedMilestone]> (milestones w)) w,
   {| code := 200; message := "Milestone updated successfully";
      body := MilestoneBody k updatedMilestone |})
  end end.

Definition completeMilestone (env : Env) (req : Req) (k : ObjectId)
    (w : World) : World * Response :=
  if negb (errors_isEmpty req) then (w, json 400 "Validation failed") else
  match milestones w !! k with
  | None => (w, json 404 "Milestone not found")
  | Some milestone =>
  match relationships w !! Milestone.relationship milestone with
  | None => catch "Complete milestone error:" "Server error during milestone completion" w
  | Some relationship =>
  if negb (bool_decide (Relationship.initiator relationship = id (user req)))
     && negb (bool_decide (Relationship.partner relationship = id (user req))) then
    (w, json 403 "Access denied")
  else if bool_decide (Milestone.status milestone = Milestone.completed) then
    (w, json 400 "Milestone is already completed")
  else
  let milestone := Milestone.complete (now env) (id (user req)) milestone in
  let w := setMilestones (<[k := milestone]> (milestones w)) w in
  (* update relationship stats *)
  let w :=
    setRelationships
      (alter (Relationship.incMilestonesAchieved 1) (Milestone.relationship milestone)
         (relationships w)) w in
  let failed := catch "Complete milestone error:" "Server error during milestone completion" in
  (* create certificate if specified in rewards *)
  let afterCertificate :=
    if Milestone.rewardsCertificate milestone then
      let '(ck, w) := newId w in
      (* the keys [relationship] and [milestone] of the literal are not
         paths of the certificate schema *)
      let certificate :=
        Certificate.new (now env) None None
          (Milestone.title milestone +:+ " Achievement")
          ("Awarded for completing the milestone: " +:+ Milestone.title milestone)
          "milestone" (Certificate.levelOf (Milestone.difficulty milestone))
          [Relationship.initiator relationship; Relationship.partner relationship] in
      match Certificate.save (now env) (random env) ck certificate (certificates w) with
      | inl _ => inl w
      | inr store =>
      let w := setCertificates store w in
      match Notification_create env
              (notification (Relationship.initiator relationship) (id (user req))
                 "certificate_earned" "achievement" k None (Some ck)) w with
      | None => inl w
      | Some w =>
      match Notification_create env
              (notification (Relationship.partner relationship) (id (user req))
                 "certificate_earned" "achievement" k None (Some ck)) w with
      | None => inl w
      | Some w => inr w
      end end end
    else inr w in
  match afterCertificate with
  | inl w => failed w
  | inr w =>
  let partnerId :=
    if bool_decide (Relationship.initiator relationship = id (user req))
    then Relationship.partner relationship
    else Relationship.initiator relationship in
  match Notification_create env
          (notification partnerId (id (user req)) "milestone_achieved" "milestone"
             k (Some (Milestone.relationship milestone)) None) w with
  | None => failed w
  | Some w =>
      (w, {| code := 200; message := "Milestone completed successfully";
             body := MilestoneBody k milestone |})
  end end end end.

Definition addEvidence (env : Env) (req : Req) (k : ObjectId)
    (type url description : option string) (w : World) : World * Response :=
  if negb (errors_isEmpty req) then (w, json 400 "Validation failed") else
  match milestones w !! k with
  | None => (w, json 404 "Milestone not found")
  | Some milestone =>
  match relationships w !! Milestone.relationship milestone with
  | None => catch "Add evidence error:" "Server error adding evidence" w
  | Some relationship =>
  if negb (bool_decide (Relationship.initiator relationship = id (user req)))
     && negb (bool_decide (Relationship.partner relationship = id (user req))) then
    (w, json 403 "Access denied")
  else
  let evidence :=
    {| Milestone.evidenceType := type; Milestone.url := url;
       Milestone.evidenceDescription := description;
       Milestone.uploadedBy := id (user req); Milestone.uploadedAt := now env |} in
  if negb (Milestone.validEvidence evidence) then
    catch "Add evidence error:" "Server error adding evidence" w
  else
  let milestone := Milestone.setEvidence (Milestone.evidence milestone ++ [evidence]) milestone in
  (setMilestones (<[k := milestone]> (milestones w)) w,
   {| code := 200; message := "Evidence added successfully";
      body := MilestoneBody k milestone |})
  end end.

Definition deleteMilestone (env : Env) (req : Req) (k : ObjectId)
    (w : World) : World * Response :=
  if negb (errors_isEmpty req) then (w, json 400 "Validation failed") else
  match milestones w !! k with
  | None => (w, json 404 "Milestone not found")
  | Some milestone =>
  match relationships w !! Milestone.relationship milestone with
  | None => catch "Delete milestone error:" "Server error during milestone deletion" w
  | Some relationship =>
  if negb (bool_decide (Relationship.initiator relationship = id (user req)))
     && negb (bool_decide (Relationship.partner relationship = id (user req))) then
    (w, json 403 "Access denied")
  else if bool_decide (Milestone.status milestone = Milestone.completed) then
    (w, json 400 "Cannot delete completed milestones")
  else
    (setMilestones (delete k (milestones w)) w, json 200 "Milestone deleted successfully")
  end end.

End milestoneController.

(** ** controllers/activityController.js *)

Module activityController.

Record CreateBody := {
  relationshipId : ObjectId;
  title : string;
  description : option string;
  type : string;
  category : option string;
  mood : option string;
  impact : option Activity.Impact
}.

Record UpdateBody := {
  newTitle : option string;
  newDescription : option string;
  newType : option string;
  newCategory : option string;
  newMood : option string
}.

(** [Math.max(0, Math.min(100, trustLevel + trustChange))] *)
Definition clampTrust (trustLevel trustChange : Z) : Z :=
  Z.max 0 (Z.min 100 (trustLevel + trustChange)).

Definition createActivity (env : Env) (req : Req) (b : CreateBody)
    (w : World) : World * Response :=
  if negb (errors_isEmpty req) then (w, json 400 "Validation failed") else
  match relationships w !! relationshipId b with
  | None => (w, json 404 "Relationship not found")
  | Some relationship =>
  if negb (Relationship.includesUser relationship (id (user req))) then
    (w, json 403 "Access denied")
  else if negb (bool_decide (Relationship.status relationship = Relationship.active)) then
    (w, json 400 "Can only create activities for active relationships")
  else
  let '(k, w) := newId w in
  let activity :=
    Activity.new (relationshipId b) (id (user req)) (title b) (description b)
      (type b) (category b) (mood b) (impact b) in
  if negb (Activity.validate activity) then
    catch "Create activity error:" "Server error during activity creation" w
  else
  let w := setActivities (<[k := activity]> (activities w)) w in
  (* update relationship stats *)
  let w :=
    setRelationships
      (alter (λ r, Relationship.setLastInteraction (now env)
                     (Relationship.incTotalActivities 1 r))
         (relationshipId b) (relationships w)) w in
  (* apply trust/relationship impact if specified *)
  let w :=
    match impact b with
    | Some impact =>
        if truthyNumber (Activity.trustChange impact)
           || truthyNumber (Activity.relationshipStrength impact) then
          if truthyNumber (Activity.trustChange impact) then
            setRelationships
              (alter (Relationship.setTrustLevel
                        (clampTrust
                           (Relationship.trustLevel (Relationship.stats relationship))
                           (default 0%Z (Activity.trustChange impact))))
                 (relationshipId b) (relationships w)) w
          else w
        else w
    | None => w
    end in
  let partnerId := Relationship.getPartner relationship (id (user req)) in
  match Notification_create env
          {| Notification.recipient := partnerId;
             Notification.sender := id (user req);
             Notification.type := "activity_added";
             Notification.category := "activity";
             Notification.actionRequired := false; Notification.actions := [];
             Notification.metadata :=
               {| Notification.relationshipId := Some (relationshipId b);
                  Notification.milestoneId := None;
                  Notification.activityId := Some k;
                  Notification.termId := None;
                  Notification.certificateId := None |} |} w with
  | None => catch "Create activity error:" "Server error during activity creation" w
  | Some w =>
      (w, {| code := 201; message := "Activity created successfully";
             body := ActivityBody k activity |})
  end end.

Definition updateActivity (env : Env) (req : Req) (k : ObjectId) (b : UpdateBody)
    (w : World) : World * Response :=
  if negb (errors_isEmpty req) then (w, json 400 "Validation failed") else
  match activities w !! k with
  | None => (w, json 404 "Activity not found")
  | Some activity =>
  if negb (bool_decide (Activity.createdBy activity = id (user req))) then
    (w, json 403 "Only the creator can update this activity")
  else
  let ttl := trim <$> newTitle b in
  if negb (updateValid Activity.validTitle ttl
           && updateValid Activity.validDescription (newDescription b)
           && updateValid Activity.validType (newType b)
           && updateValid Activity.validCategory (newCategory b)
           && updateValid Activity.validMood (newMood b)) then
    catch "Update activity error:" "Server error during activity update" w
  else
  let updatedActivity :=
    Activity.setFields
      (default (Activity.title activity) ttl)
      (default (Activity.description activity) (newDescription b))
      (default (Activity.type activity) (newType b))
      (default (Activity.category activity) (newCategory b))
      (default (Activity.mood activity) (newMood b)) activity in
  (setActivities (<[k := updatedActivity]> (activities w)) w,
   {| code := 200; message := "Activity updated successfully";
      body := ActivityBody k updatedActivity |})
  end.

Definition addReaction (env : Env) (req : Req) (k : ObjectId) (type : option string)
    (w : World) : World * Response :=
  if negb (errors_isEmpty req) then (w, json 400 "Validation failed") else
  let type := default "like" type in
  match activities w !! k with
  | None => (w, json 404 "Activity not found")
  | Some activity =>
  match relationships w !! Activity.relationship activity with
  | None => catch "Add reaction error:" "Server error adding reaction" w
  | Some relationship =>
  if negb (bool_decide (Relationship.initiator relationship = id (user req)))
     && negb (bool_decide (Relationship.partner relationship = id (user req))) then
    (w, json 403 "Access denied")
  else
  let activity := Activity.addReaction (now env) (id (user req)) type activity in
  if negb (enum Activity.reactionEnum type) then
    catch "Add reaction error:" "Server error adding reaction" w
  else
  (setActivities (<[k := activity]> (activities w)) w,
   {| code := 200; message := "Reaction added successfully";
      body := ReactionsBody (Activity.reactions activity) |})
  end end.

Definition addComment (env : Env) (req : Req) (k : ObjectId) (text : option string)
    (w : World) : World * Response :=
  if negb (errors_isEmpty req) then (w, json 400 "Validation failed") else
  if negb (truthyString text) || (String.length (trim (default "" text)) =? 0)%nat then
    (w, json 400 "Comment text is required")
  else
  match activities w !! k with
  | None => (w, json 404 "Activity not found")
  | Some activity =>
  match relationships w !! Activity.relationship activity with
  | None => catch "Add comment error:" "Server error adding comment" w
  | Some relationship =>
  if negb (bool_decide (Relationship.initiator relationship = id (user req)))
     && negb (bool_decide (Relationship.partner relationship = id (user req))) then
    (w, json 403 "Access denied")
  else
  let activity :=
    Activity.addComment (now env) (id (user req)) (trim (default "" text)) activity in
  if negb (maxlength 500 (trim (default "" text))) then
    catch "Add comment error:" "Server error adding comment" w
  else
  (setActivities (<[k := activity]> (activities w)) w,
   {| code := 200; message := "Comment added successfully";
      body := CommentsBody (Activity.comments activity) |})
  end end.

Definition deleteActivity (env : Env) (req : Req) (k : ObjectId)
    (w : World) : World * Response :=
  if negb (errors_isEmpty req) then (w, json 400 "Validation failed") else
  match activities w !! k with
  | None => (w, json 404 "Activity not found")
  | Some activity =>
  if negb (bool_decide (Activity.createdBy activity = id (user req))) then
    (w, json 403 "Only the creator can delete this activity")
  else
  let w := setActivities (delete k (activities w)) w in
  (* update relationship stats *)
  (setRelationships
     (alter (Relationship.incTotalActivities (-1)) (Activity.relationship activity)
        (relationships w)) w,
   json 200 "Activity deleted successfully")
  end.

End activityController.

(** ** controllers/certificateController.js: the routes over a stored
    certificate *)

Module certificateController.

Definition isRecipient (c : Certificate.doc) (userId : ObjectId) : bool :=
  existsb (λ r, bool_decide (Certificate.recipient r = userId)) (Certificate.recipients c).

Definition getCertificate (env : Env) (req : Req) (k : ObjectId)
    (w : World) : World * Response :=
  if negb (errors_isEmpty req) then (w, json 400 "Validation failed") else
  match certificates w !! k with
  | None => (w, json 404 "Certificate not found")
  | Some certificate =>
  if negb (isRecipient certificate (id (user req))) then (w, json 403 "Access denied")
  else if negb (Certificate.isValid (now env) certificate) then
    (w, json 400 "Certificate is no longer valid")
  else
  match Certificate.saveExisting (now env) (random env) k
          (Certificate.incrementView certificate) (certificates w) with
  | inl _ => catch "Get certificate error:" "Server error fetching certificate" w
  | inr store =>
      (setCertificates store w,
       {| code := 200; message := "";
          body := CertificateBody k (Certificate.incrementView certificate) |})
  end end.

(** The PDF itself is not modelled: the response of a download that gets
    through is 200 with the rendered document. *)
Definition downloadCertificate (env : Env) (req : Req) (k : ObjectId)
    (w : World) : World * Response :=
  if negb (errors_isEmpty req) then (w, json 400 "Validation failed") else
  match certificates w !! k with
  | None => (w, json 404 "Certificate not found")
  | Some certificate =>
  if negb (isRecipient certificate (id (user req))) then (w, json 403 "Access denied")
  else if negb (Certificate.isValid (now env) certificate) then
    (w, json 400 "Certificate is no longer valid")
  else
  let certificate :=
    Certificate.setCounters (Certificate.sharedOn certificate)
      (Certificate.sharingShareCount certificate) (Certificate.viewCount certificate)
      (Certificate.downloadCount certificate + 1)%Z
      (Certificate.shareCount certificate) certificate in
  let failed := catch "Download certificate error:" "Server error downloading certificate" in
  match Certificate.saveExisting (now env) (random env) k certificate (certificates w) with
  | inl _ => failed w
  | inr store =>
  let w := setCertificates store w in
  (* [certificate.relatedId.title], populated from the relationships *)
  match Certificate.relatedId certificate ≫= (λ r, relationships w !! r) with
  | None => failed w
  | Some _ => (w, json 200 "")
  end end end.

Definition shareCertificate (env : Env) (req : Req) (k : ObjectId)
    (platform : option string) (w : World) : World * Response :=
  if negb (errors_isEmpty req) then (w, json 400 "Validation failed") else
  match certificates w !! k with
  | None => (w, json 404 "Certificate not found")
  | Some certificate =>
  if negb (isRecipient certificate (id (user req))) then (w, json 403 "Access denied")
  else if negb (Certificate.isValid (now env) certificate) then
    (w, json 400 "Certificate is no longer valid")
  else
  let sharedOn :=
    if truthyString platform
       && negb (existsb (String.eqb (default "" platform)) (Certificate.sharedOn certificate))
    then Certificate.sharedOn certificate ++ [default "" platform]
    else Certificate.sharedOn certificate in
  let certificate :=
    Certificate.setCounters sharedOn
      (Certificate.sharingShareCount certificate + 1)%Z
      (Certificate.viewCount certificate) (Certificate.downloadCount certificate)
      (Certificate.shareCount certificate + 1)%Z certificate in
  match Certificate.saveExisting (now env) (random env) k certificate (certificates w) with
  | inl _ => catch "Share certificate error:" "Server error sharing certificate" w
  | inr store =>
      (setCertificates store w, json 200 "Certificate sharing recorded successfully")
  end end.

End certificateController.

(** ** The operations the HTTP layer exposes, and the states they reach *)

Inductive Op :=
| CreateRelationship (b : relationshipController.CreateBody)
| UpdateRelationship (k : ObjectId) (b : relationshipController.UpdateBody)
| AcceptRelationship (k : ObjectId)
| DeclineRelationship (k : ObjectId)
| DeleteRelationship (k : ObjectId)
| RequestBreakup (k : ObjectId)
| ConfirmBreakup (k : ObjectId)
| CancelBreakupRequest (k : ObjectId)
| CreateTerm (b : termController.CreateBody)
| UpdateTerm (k : ObjectId) (b : termController.UpdateBody)
| AgreeTerm (k : ObjectId) (signature : option string)
| ReportViolation (k : ObjectId) (description severity : option string)
| DeleteTerm (k : ObjectId)
| CreateMilestone (b : milestoneController.CreateBody)
| UpdateMilestone (k : ObjectId) (b : milestoneController.UpdateBody)
| CompleteMilestone (k : ObjectId)
| AddEvidence (k : ObjectId) (type url description : option string)
| DeleteMilestone (k : ObjectId)
| CreateActivity (b : activityController.CreateBody)
| UpdateActivity (k : ObjectId) (b : activityController.UpdateBody)
| AddReaction (k : ObjectId) (type : option string)
| AddComment (k : ObjectId) (text : option string)
| DeleteActivity (k : ObjectId)
| GetCertificate (k : ObjectId)
| DownloadCertificate (k : ObjectId)
| ShareCertificate (k : ObjectId) (platform : option string).

Definition handle (env : Env) (req : Req) (op : Op) (w : World) : World * Response :=
  match op with
  | CreateRelationship b => relationshipController.createRelationship env req b w
  | UpdateRelationship k b => relationshipController.updateRelationship env req k b w
  | AcceptRelationship k => relationshipController.acceptRelationship env req k w
  | DeclineRelationship k => relationshipController.declineRelationship env req k w
  | DeleteRelationship k => relationshipController.deleteRelationship env req k w
  | RequestBreakup k => relationshipController.requestBreakup env req k w
  | ConfirmBreakup k => relationshipController.confirmBreakup env req k w
  | CancelBreakupRequest k => relationshipController.cancelBreakupRequest env req k w
  | CreateTerm b => termController.createTerm env req b w
  | UpdateTerm k b => termController.updateTerm env req k b w
  | AgreeTerm k signature => termController.agreeTerm env req k signature w
  | ReportViolation k d s => termController.reportViolation env req k d s w
  | DeleteTerm k => termController.deleteTerm env req k w
  | CreateMilestone b => milestoneController.createMilestone env req b w
  | UpdateMilestone k b => milestoneController.updateMilestone env req k b w
  | CompleteMilestone k => milestoneController.completeMilestone env req k w
  | AddEvidence k t u d => milestoneController.addEvidence env req k t u d w
  | DeleteMilestone k => milestoneController.deleteMilestone env req k w
  | CreateActivity b => activityController.createActivity env req b w
  | UpdateActivity k b => activityController.updateActivity env req k b w
  | AddReaction k t => activityController.addReaction env req k t w
  | AddComment k t => activityController.addComment env req k t w
  | DeleteActivity k => activityController.deleteActivity env req k w
  | GetCertificate k => certificateController.getCertificate env req k w
  | DownloadCertificate k => certificateController.downloadCertificate env req k w
  | ShareCertificate k p => certificateController.shareCertificate env req k p w
  end.

(** The stores a sequence of requests can leave behind, from empty stores. *)
Inductive reachable : World → Prop :=
| reachable_empty : reachable emptyWorld
| reachable_step env req op w : reachable w → reachable (handle env req op w).1.

(** ** Predicates of the specification *)

(** At most one relationship document per unordered pair of parties. *)
Definition pairUnique (store : gmap ObjectId Relationship.doc) : Prop :=
  ∀ k1 k2 r1 r2,
    store !! k1 = Some r1 → store !! k2 = Some r2 →
    Relationship.between (Relationship.initiator r1) (Relationship.partner r1) r2 = true →
    k1 = k2.

(** [breakupRequestedBy] as the code keeps it: a party while the breakup is
    requested, kept on the ended relationship, unset in every other status. *)
Definition breakupConsistent (r : Relationship.doc) : Prop :=
  match Relationship.status r with
  | Relationship.requested_breakup =>
      ∃ u, Relationship.breakupRequestedBy r = Some u
           ∧ Relationship.includesUser r u = true
  | Relationship.ended => True
  | _ => Relationship.breakupRequestedBy r = None
  end.


Definition trustInRange (r : Relationship.doc) : Prop :=
  (0 ≤ Relationship.trustLevel (Relationship.stats r) ≤ 100)%Z.

(** The agreement state of a term: one entry per agreer, and the status is
    [agreed] exactly from the second agreer on. *)
Definition agreementConsistent (t : Term.doc) : Prop :=
  NoDup (Term.agreedUser <$> Term.agreedBy t)
  ∧ (Term.status t = Term.agreed ↔ 2 ≤ length (Term.agreedBy t)).

(** The users with an entry in [agreedBy], each once. *)
Definition agreers (t : Term.doc) : list ObjectId :=
  remove_dups (Term.agreedUser <$> Term.agreedBy t).

(** No two stored certificates share a [certificateNumber]. *)
Definition numbersDistinct (store : gmap ObjectId Certificate.doc) : Prop :=
  ∀ k1 k2 c1 c2,
    store !! k1 = Some c1 → store !! k2 = Some c2 →
    Certificate.certificateNumber c1 = Certificate.certificateNumber c2 →
    k1 = k2.

(** Issuance as the specification words it: the freshly generated number is
    checked against the existing numbers before it is accepted, and the
    generation is retried on a collision.  [draws] are the successive
    readings of the clock and of the random source. *)
Fixpoint issueWithRetry (draws : list (Z * string)) (k : ObjectId) (c : Certificate.doc)
    (store : gmap ObjectId Certificate.doc) : option (gmap ObjectId Certificate.doc) :=
  match draws with
  | [] => None
  | (now, random) :: draws' =>
      let c' := Certificate.setCertificateNumber
                  (Some (Certificate.generateNumber now random)) c in
      if Certificate.numberTaken None c' store
      then issueWithRetry draws' k c store
      else Some (<[k := c']> store)
  end.

(** ** Sample data *)

Definition userA : User := {| id := 101%positive; firstName := "Ada"; lastName := "Ames" |}.

Definition userB : User := {| id := 102%positive; firstName := "Ben"; lastName := "Boyd" |}.

Definition asUser (u : User) : Req := {| errors_isEmpty := true; user := u |}.

Definition directory (email : string) : option ObjectId :=
  if String.eqb email "ada@example.com" then Some (id userA)
  else if String.eqb email "ben@example.com" then Some (id userB)
  else None.

Definition sinkOk (t : Z) : Env :=
  {| now := t; random := "k3x9q"; User_findOne := directory; sinkUp := λ _, true |}.

Definition sinkDown (t : Z) : Env :=
  {| now := t; random := "k3x9q"; User_findOne := directory; sinkUp := λ _, false |}.

Definition friendship : relationshipController.CreateBody :=
  {| relationshipController.partnerEmail := "ben@example.com";
     relationshipController.title := "Friendship";
     relationshipController.type := Some "friend";
     relationshipController.description := None |}.

(** Ada proposes, Ben accepts: relationship 1 is active. *)
Definition activeWorld : World :=
  (handle (sinkOk 2000) (asUser userB) (AcceptRelationship 1%positive)
     (handle (sinkOk 1000) (asUser userA) (CreateRelationship friendship) emptyWorld).1).1.

(** Ada then requests the breakup and Ben confirms it. *)
Definition requestedWorld : World :=
  (handle (sinkOk 3000) (asUser userA) (RequestBreakup 1%positive) activeWorld).1.

Definition endedWorld : World :=
  (handle (sinkOk 4000) (asUser userB) (ConfirmBreakup 1%positive) requestedWorld).1.

Definition activity (trustChange : Z) : activityController.CreateBody :=
  {| activityController.relationshipId := 1%positive;
     activityController.title := "Argument";
     activityController.description := None;
     activityController.type := "conflict";
     activityController.category := None;
     activityController.mood := None;
     activityController.impact :=
       Some {| Activity.trustChange := Some trustChange;
               Activity.relationshipStrength := None |} |}.

(** Five activities take the trust level of relationship 1 from 50 to 5. *)
Definition lowTrustWorld : World :=
  fold_left
    (λ w trustChange,
       (handle (sinkOk 2500) (asUser userA) (CreateActivity (activity trustChange)) w).1)
    [-10; -10; -10; -10; -5]%Z activeWorld.

Definition trustMilestone : milestoneController.CreateBody :=
  {| milestoneController.relationshipId := 1%positive;
     milestoneController.title := "A year of trust";
     milestoneController.description := None;
     milestoneController.category := "trust_based";
     milestoneController.type := None;
     milestoneController.rewardsCertificate := true;
     milestoneController.difficulty := Some "hard" |}.

(** Ada creates milestone 2 on the active relationship 1. *)
Definition milestoneWorld : World :=
  (handle (sinkOk 2100) (asUser userA) (CreateMilestone trustMilestone) activeWorld).1.

(** Ada has proposed, Ben has not answered: relationship 1 is pending. *)
Definition pendingWorld : World :=
  (handle (sinkOk 1000) (asUser userA) (CreateRelationship friendship) emptyWorld).1.

Definition sampleCertificate : Certificate.doc :=
  Certificate.new 1700 (Some "relationship") (Some 1%positive)
    "Certificate of Friendship Relationship" "" "relationship" "gold"
    [id userA; id userB].

(** One certificate, issued at time 1700 with the random suffix "k3x9q". *)
Definition issuedStore : gmap ObjectId Certificate.doc :=
  match Certificate.save 1700 "k3x9q" 7%positive sampleCertificate ∅ with
  | inr store => store
  | inl _ => ∅
  end.

Definition houseRule : termController.CreateBody :=
  {| termController.relationshipId := 1%positive;
     termController.title := "Weekly call";
     termController.description := "We talk once a week.";
     termController.category := "communication";
     termController.priority := None;
     termController.expiresAt := None |}.

(** Ada proposes term 2 on the active relationship 1. *)
Definition termWorld : World :=
  (handle (sinkOk 2100) (asUser userA) (CreateTerm houseRule) activeWorld).1.


(** ** The steps of the stores and the invariant of the reachable states *)

(** The changes the controllers make to a stored relationship keep its
    parties and its consistency. *)
Definition docStep (r r' : Relationship.doc) : Prop :=
  Relationship.initiator r' = Relationship.initiator r
  ∧ Relationship.partner r' = Relationship.partner r
  ∧ (breakupConsistent r → breakupConsistent r')
  ∧ (trustInRange r → trustInRange r').

Inductive storeStep (store : gmap ObjectId Relationship.doc)
  : gmap ObjectId Relationship.doc → Prop :=
| storeStep_same : storeStep store store
| storeStep_update k r r' :
    store !! k = Some r → docStep r r' → storeStep store (<[k := r']> store)
| storeStep_delete k : storeStep store (delete k store)
| storeStep_create k r :
    breakupConsistent r → trustInRange r →
    (∀ k' r', store !! k' = Some r' →
       Relationship.between (Relationship.initiator r) (Relationship.partner r) r' = false) →
    storeStep store (<[k := r]> store).

(** What holds of every reachable state. *)
Definition worldInv (w : World) : Prop :=
  pairUnique (relationships w)
  ∧ map_Forall (λ _ r, breakupConsistent r ∧ trustInRange r) (relationships w)
  ∧ map_Forall (λ _ t, agreementConsistent t) (terms w)
  ∧ certificates w = ∅.


(** Identifiers are never reused, and whoever has agreed to a term is a party
    of its relationship. *)
Definition agreersInv (w : World) : Prop :=
  (∀ k r, relationships w !! k = Some r → (k < nextId w)%positive)
  ∧ (∀ k t, terms w !! k = Some t → (Term.relationship t < nextId w)%positive)
  ∧ (∀ k t r u, terms w !! k = Some t →
       relationships w !! Term.relationship t = Some r →
       u ∈ Term.agreedUser <$> Term.agreedBy t →
       Relationship.includesUser r u = true).


(** * Further definitions: steps, invariants and samples *)

(** ** The state machine of the lifecycle *)

(** The operations of the relationship controller. *)
Definition isLifecycle (op : Op) : bool :=
  match op with
  | CreateRelationship _ | UpdateRelationship _ _ | AcceptRelationship _
  | DeclineRelationship _ | DeleteRelationship _ | RequestBreakup _
  | ConfirmBreakup _ | CancelBreakupRequest _ => true
  | _ => false
  end.

(** The status changes the controllers make. *)
Inductive transition : Relationship.Status → Relationship.Status → Prop :=
| transition_accept : transition Relationship.pending Relationship.active
| transition_request : transition Relationship.active Relationship.requested_breakup
| transition_confirm : transition Relationship.requested_breakup Relationship.ended
| transition_cancel : transition Relationship.requested_breakup Relationship.active
| transition_archive : transition Relationship.active Relationship.archived.

(** [acceptedDate] and [endDate] as the controllers set them: the first
    when the invitation is accepted, the second when the relationship ends
    or is archived. *)
Definition datesConsistent (r : Relationship.doc) : Prop :=
  match Relationship.status r with
  | Relationship.pending =>
      Relationship.acceptedDate r = None ∧ Relationship.endDate r = None
  | Relationship.active | Relationship.requested_breakup =>
      Relationship.acceptedDate r ≠ None ∧ Relationship.endDate r = None
  | Relationship.ended | Relationship.archived =>
      Relationship.acceptedDate r ≠ None ∧ Relationship.endDate r ≠ None
  end.

(** What one request may do to a relationship that it keeps. *)
Definition keeps (op : Op) (r r' : Relationship.doc) : Prop :=
  Relationship.initiator r' = Relationship.initiator r
  ∧ Relationship.partner r' = Relationship.partner r
  ∧ Relationship.startDate r' = Relationship.startDate r
  ∧ Relationship.latestCertificate r' = Relationship.latestCertificate r
  ∧ (Relationship.status r' = Relationship.status r
     ∨ transition (Relationship.status r) (Relationship.status r'))
  ∧ (datesConsistent r → datesConsistent r')
  ∧ (Relationship.validate r = true → Relationship.validate r' = true)
  ∧ if isLifecycle op then Relationship.stats r' = Relationship.stats r
    else Relationship.setStats (Relationship.stats r) r' = r.

(** A relationship as [createRelationship] stores it. *)
Definition proposed (req : Req) (r : Relationship.doc) : Prop :=
  Relationship.status r = Relationship.pending
  ∧ Relationship.initiator r = id (user req)
  ∧ Relationship.partner r ≠ id (user req)
  ∧ Relationship.breakupRequestedBy r = None
  ∧ Relationship.acceptedDate r = None
  ∧ Relationship.endDate r = None
  ∧ Relationship.validate r = true
  ∧ Relationship.stats r
    = {| Relationship.trustLevel := 50;
         Relationship.lastInteraction := Relationship.startDate r;
         Relationship.totalActivities := 0;
         Relationship.milestonesAchieved := 0 |}.

(** What one request may do at one [_id] of the relationships: [before] and
    [after] are the documents stored under it before and after the request,
    [fresh] is the next [_id]. *)
Definition lifecycleStep (op : Op) (req : Req) (k fresh : ObjectId)
    (before after : option Relationship.doc) : Prop :=
  match before, after with
  | Some r, Some r' => keeps op r r'
  | None, Some r' => proposed req r' ∧ k = fresh
  | Some r, None => Relationship.status r ≠ Relationship.active ∧ isLifecycle op = true
  | None, None => True
  end.

(** A third user, party of no relationship of the samples. *)
Definition userC : User := {| id := 103%positive; firstName := "Cy"; lastName := "Cole" |}.

(** A sequence of requests, each with the environment it meets. *)
Definition run (requests : list (Env * Req * Op)) (w : World) : World :=
  fold_left (λ w '(env, req, op), (handle env req op w).1) requests w.

(** The relationship stored under [k] in the sample state [w]. *)
Definition stored (w : World) (k : ObjectId) : Relationship.doc :=
  default (Relationship.new 0 k k "" "" "" Relationship.pending) (relationships w !! k).

(** ** What one request may do to a term, a milestone, an activity *)

(** [before] and [after] are the documents stored under the [_id] [k]
    before and after the request of [req], [fresh] is the next [_id]. *)
Definition termStep (req : Req) (k fresh : ObjectId)
    (before after : option Term.doc) : Prop :=
  match before, after with
  | Some t, Some t' =>
      Term.relationship t' = Term.relationship t
      ∧ Term.createdBy t' = Term.createdBy t
      ∧ (∃ vs, Term.violations t' = Term.violations t ++ vs
               ∧ Forall (λ v, Term.reportedBy v = id (user req)) vs)
      ∧ (Term.status t = Term.agreed → Term.setViolations (Term.violations t) t' = t)
      ∧ (Term.createdBy t ≠ id (user req) →
         Term.setAgreement (Term.status t) (Term.agreedBy t)
           (Term.setViolations (Term.violations t) t') = t)
      ∧ (Term.status t' = Term.status t ∨ Term.status t' = Term.agreed
         ∨ Term.status t' = Term.modified ∧ Term.agreedBy t' = [])
      ∧ (Term.validate t = true → Term.validate t' = true)
  | None, Some t' =>
      k = fresh ∧ Term.createdBy t' = id (user req)
      ∧ Term.status t' = Term.proposed ∧ Term.agreedBy t' = []
      ∧ Term.violations t' = [] ∧ Term.validate t' = true
  | Some t, None => Term.createdBy t = id (user req) ∧ Term.status t ≠ Term.agreed
  | None, None => True
  end.

(** The completion of a milestone as [complete] records it. *)
Definition milestoneConsistent (m : Milestone.doc) : Prop :=
  (Milestone.status m = Milestone.pending ∧ Milestone.completedDate m = None
   ∨ Milestone.status m = Milestone.completed ∧ Milestone.completedDate m ≠ None
     ∧ Milestone.participants m ≠ [])
  ∧ NoDup (Milestone.participant <$> Milestone.participants m).

Definition milestoneStep (env : Env) (req : Req) (k fresh : ObjectId)
    (before after : option Milestone.doc) : Prop :=
  match before, after with
  | Some m, Some m' =>
      Milestone.relationship m' = Milestone.relationship m
      ∧ (∃ es, Milestone.evidence m' = Milestone.evidence m ++ es
               ∧ Forall (λ e, Milestone.uploadedBy e = id (user req)) es)
      ∧ (Milestone.status m = Milestone.completed →
         Milestone.setEvidence (Milestone.evidence m) m' = m)
      ∧ (Milestone.status m' = Milestone.status m
         ∨ Milestone.status m' = Milestone.completed
           ∧ Milestone.completedDate m' = Some (now env)
           ∧ id (user req) ∈ Milestone.participant <$> Milestone.participants m')
      ∧ (milestoneConsistent m → milestoneConsistent m')
      ∧ (Milestone.validate m = true → Milestone.validate m' = true)
  | None, Some m' =>
      k = fresh ∧ Milestone.status m' = Milestone.pending
      ∧ Milestone.completedDate m' = None
      ∧ Milestone.participants m' = [] ∧ Milestone.evidence m' = []
      ∧ Milestone.validate m' = true
  | Some m, None => Milestone.status m ≠ Milestone.completed
  | None, None => True
  end.

(** At most one reaction per user. *)
Definition activityConsistent (a : Activity.doc) : Prop :=
  NoDup (Activity.reactionUser <$> Activity.reactions a).

Definition activityStep (req : Req) (k fresh : ObjectId)
    (before after : option Activity.doc) : Prop :=
  match before, after with
  | Some a, Some a' =>
      Activity.relationship a' = Activity.relationship a
      ∧ Activity.createdBy a' = Activity.createdBy a
      ∧ (∃ cs, Activity.comments a' = Activity.comments a ++ cs
               ∧ Forall (λ c, Activity.commentUser c = id (user req)) cs)
      ∧ filter (λ r, Activity.reactionUser r ≠ id (user req)) (Activity.reactions a')
        = filter (λ r, Activity.reactionUser r ≠ id (user req)) (Activity.reactions a)
      ∧ (Activity.createdBy a ≠ id (user req) →
         Activity.setComments (Activity.comments a)
           (Activity.setReactions (Activity.reactions a) a') = a)
      ∧ (activityConsistent a → activityConsistent a')
      ∧ (Activity.validate a = true → Activity.validate a' = true)
  | None, Some a' =>
      k = fresh ∧ Activity.createdBy a' = id (user req)
      ∧ Activity.reactions a' = [] ∧ Activity.comments a' = []
      ∧ Activity.validate a' = true
  | Some a, None => Activity.createdBy a = id (user req)
  | None, None => True
  end.

(** The [_id]s of the stored terms, milestones and activities are below the
    next [_id]. *)
Definition freshDependents (w : World) : Prop :=
  (∀ k x, terms w !! k = Some x → (k < nextId w)%positive)
  ∧ (∀ k x, milestones w !! k = Some x → (k < nextId w)%positive)
  ∧ (∀ k x, activities w !! k = Some x → (k < nextId w)%positive).

(** Both parties have agreed to every term in status [agreed]. *)
Definition agreedByBoth (w : World) : Prop :=
  ∀ k t r u,
    terms w !! k = Some t → Term.status t = Term.agreed →
    relationships w !! Term.relationship t = Some r →
    Relationship.includesUser r u = true →
    Term.hasUserAgreed t u = true.

(** Ada and Ben both agree to term 2. *)
Definition agreedTermWorld : World :=
  (handle (sinkOk 2300) (asUser userB) (AgreeTerm 2%positive None)
     (handle (sinkOk 2200) (asUser userA) (AgreeTerm 2%positive None) termWorld).1).1.

Definition plainMilestone : milestoneController.CreateBody :=
  {| milestoneController.relationshipId := 1%positive;
     milestoneController.title := "First trip";
     milestoneController.description := None;
     milestoneController.category := "time_based";
     milestoneController.type := None;
     milestoneController.rewardsCertificate := false;
     milestoneController.difficulty := None |}.

(** Ada creates milestone 2 without a certificate, Ben completes it. *)
Definition completedWorld : World :=
  (handle (sinkOk 2200) (asUser userB) (CompleteMilestone 2%positive)
     (handle (sinkOk 2100) (asUser userA) (CreateMilestone plainMilestone) activeWorld).1).1.

(** Ada adds activity 2, Ben reacts to it and comments it. *)
Definition activityWorld : World :=
  (handle (sinkOk 2100) (asUser userA) (CreateActivity (activity 5)) activeWorld).1.

Definition commentedWorld : World :=
  (handle (sinkOk 2300) (asUser userB) (AddComment 2%positive (Some " Well done "))
     (handle (sinkOk 2200) (asUser userB) (AddReaction 2%positive (Some "love"))
        activityWorld).1).1.

(** The term, the milestone and the activity stored under [k] in a sample
    state. *)
Definition storedTerm (w : World) (k : ObjectId) : Term.doc :=
  default (Term.new k k "" "" "" "" None) (terms w !! k).

Definition storedMilestone (w : World) (k : ObjectId) : Milestone.doc :=
  default (Milestone.new k "" "" "" "" false "") (milestones w !! k).

Definition storedActivity (w : World) (k : ObjectId) : Activity.doc :=
  default (Activity.new k k "" None "" None None None) (activities w !! k).

(** What one request may do to a stored certificate: it stays stored, and
    nothing of it changes but the counters, the platforms it was shared on
    and, when it had none, its number. *)
Definition certificateStep (c c' : Certificate.doc) : Prop :=
  Certificate.setCounters (Certificate.sharedOn c) (Certificate.sharingShareCount c)
    (Certificate.viewCount c) (Certificate.downloadCount c) (Certificate.shareCount c)
    (Certificate.setCertificateNumber (Certificate.certificateNumber c) c') = c
  ∧ (truthyString (Certificate.certificateNumber c) = true →
     Certificate.certificateNumber c' = Certificate.certificateNumber c)
  ∧ (Certificate.viewCount c ≤ Certificate.viewCount c' ≤ Certificate.viewCount c + 1)%Z
  ∧ (Certificate.downloadCount c ≤ Certificate.downloadCount c'
     ≤ Certificate.downloadCount c + 1)%Z
  ∧ (Certificate.shareCount c ≤ Certificate.shareCount c' ≤ Certificate.shareCount c + 1)%Z
  ∧ (Certificate.sharingShareCount c' - Certificate.sharingShareCount c
     = Certificate.shareCount c' - Certificate.shareCount c)%Z
  ∧ (∃ new, Certificate.sharedOn c' = Certificate.sharedOn c ++ new
            ∧ (NoDup (Certificate.sharedOn c) → NoDup (Certificate.sharedOn c'))).

(** A certificate as [generateRelationshipCertificate] creates it, stored
    under [_id] 7, and a world that holds it. *)
Definition certificateWorld : World :=
  setCertificates issuedStore activeWorld.

(** ** controllers/notificationController.js, over the stored notifications *)

Module notificationController.

Inductive Status := unread | read | archived.

#[global] Instance Status_eq_dec : EqDecision Status.
Proof. solve_decision. Defined.

(** What the controller reads and writes of a stored notification. *)
Record Stored := {
  recipient : ObjectId;
  status : Status;
  readAt : option Z
}.

(** [notificationSchema.methods.markAsRead], up to its [save]. *)
Definition Notification_markAsRead (now : Z) (n : Stored) : Stored :=
  {| recipient := recipient n; status := read; readAt := Some now |}.

(** The filter [{recipient: userId, status: 'unread'}]. *)
Definition unreadOf (userId : ObjectId) (kn : ObjectId * Stored) : Prop :=
  recipient kn.2 = userId ∧ status kn.2 = unread.

#[global] Instance unreadOf_dec userId kn : Decision (unreadOf userId kn).
Proof. unfold unreadOf. apply _. Defined.

(** [notificationSchema.statics.getUnreadCount]:
    [countDocuments({recipient: userId, status: 'unread'})] *)
Definition Notification_getUnreadCount (userId : ObjectId)
    (store : gmap ObjectId Stored) : nat :=
  size (filter (unreadOf userId) store).

Definition getNotification (req : Req) (k : ObjectId) (store : gmap ObjectId Stored)
    : gmap ObjectId Stored * Response :=
  if negb (errors_isEmpty req) then (store, json 400 "Validation failed") else
  match store !! k with
  | None => (store, json 404 "Notification not found")
  | Some notification =>
  if negb (bool_decide (recipient notification = id (user req))) then
    (store, json 403 "Access denied")
  else (store, json 200 "")
  end.

Definition markAsRead (env : Env) (req : Req) (k : ObjectId)
    (store : gmap ObjectId Stored) : gmap ObjectId Stored * Response :=
  if negb (errors_isEmpty req) then (store, json 400 "Validation failed") else
  match store !! k with
  | None => (store, json 404 "Notification not found")
  | Some notification =>
  if negb (bool_decide (recipient notification = id (user req))) then
    (store, json 403 "Access denied")
  else
    (<[k := Notification_markAsRead (now env) notification]> store,
     json 200 "Notification marked as read")
  end.

(** [Notification.updateMany({recipient, status: 'unread'},
    {status: 'read', readAt: new Date()})]; the number is
    [result.modifiedCount]. *)
Definition markAllAsRead (env : Env) (req : Req) (store : gmap ObjectId Stored)
    : gmap ObjectId Stored * nat :=
  ((λ n, if decide (recipient n = id (user req) ∧ status n = unread)
         then {| recipient := recipient n; status := read; readAt := Some (now env) |}
         else n) <$> store,
   size (filter (unreadOf (id (user req))) store)).

Definition deleteNotification (req : Req) (k : ObjectId) (store : gmap ObjectId Stored)
    : gmap ObjectId Stored * Response :=
  if negb (errors_isEmpty req) then (store, json 400 "Validation failed") else
  match store !! k with
  | None => (store, json 404 "Notification not found")
  | Some notification =>
  if negb (bool_decide (recipient notification = id (user req))) then
    (store, json 403 "Access denied")
  else (delete k store, json 200 "Notification deleted successfully")
  end.

Definition getUnreadCount (req : Req) (store : gmap ObjectId Stored) : nat :=
  Notification_getUnreadCount (id (user req)) store.

End notificationController.

(** Three stored notifications: two unread ones for Ada, one for Ben. *)
Definition inbox : gmap ObjectId notificationController.Stored :=
  <[11%positive := {| notificationController.recipient := id userA;
                      notificationController.status := notificationController.unread;
                      notificationController.readAt := None |}]>
    (<[12%positive := {| notificationController.recipient := id userA;
                         notificationController.status := notificationController.unread;
                         notificationController.readAt := None |}]>
       (<[13%positive := {| notificationController.recipient := id userB;
                            notificationController.status := notificationController.unread;
                            notificationController.readAt := None |}]> ∅)).

(** ** The counters of a relationship against the stores *)

(** The activities of the relationship [k]. *)
Definition activityOf (k : ObjectId) (ka : ObjectId * Activity.doc) : Prop :=
  Activity.relationship ka.2 = k.

#[global] Instance activityOf_dec k ka : Decision (activityOf k ka).
Proof. unfold activityOf. apply _. Defined.

(** The completed milestones of the relationship [k]. *)
Definition completedOf (k : ObjectId) (km : ObjectId * Milestone.doc) : Prop :=
  Milestone.relationship km.2 = k ∧ Milestone.status km.2 = Milestone.completed.

#[global] Instance completedOf_dec k km : Decision (completedOf k km).
Proof. unfold completedOf. apply _. Defined.

(** [stats.totalActivities] and [stats.milestonesAchieved] count the stored
    activities and the completed milestones of the relationship, and no
    activity or milestone belongs to a relationship yet to be created. *)
Definition countersAgree (w : World) : Prop :=
  (∀ k r, relationships w !! k = Some r →
     Relationship.totalActivities (Relationship.stats r)
     = Z.of_nat (size (filter (activityOf k) (activities w)))
     ∧ Relationship.milestonesAchieved (Relationship.stats r)
       = Z.of_nat (size (filter (completedOf k) (milestones w))))
  ∧ (∀ i a, activities w !! i = Some a → (Activity.relationship a < nextId w)%positive)
  ∧ (∀ i m, milestones w !! i = Some m → (Milestone.relationship m < nextId w)%positive).

(** * Properties *)

(** ** [findOne] *)

Lemma findOne_Some {A} (f : A → bool) (m : gmap ObjectId A) k x :
  findOne f m = Some (k, x) → m !! k = Some x ∧ f x = true.
Proof.
  unfold findOne. intros H. apply find_some in H as [Hin Hf].
  apply list_elem_of_In, elem_of_map_to_list in Hin. done.
Qed.

Lemma findOne_None {A} (f : A → bool) (m : gmap ObjectId A) :
  findOne f m = None ↔ ∀ k x, m !! k = Some x → f x = false.
Proof.
  unfold findOne. split.
  - intros H k x Hk.
    apply (find_none _ _ H (k, x)), list_elem_of_In, elem_of_map_to_list, Hk.
  - intros H. destruct (find _ _) as [[k x]|] eqn:E; [|done].
    apply find_some in E as [Hin Hf].
    apply list_elem_of_In, elem_of_map_to_list in Hin.
    simpl in Hf. rewrite (H _ _ Hin) in Hf. done.
Qed.


Lemma between_sym a b r :
  Relationship.between a b r = Relationship.between b a r.
Proof. unfold Relationship.between. apply orb_comm. Qed.

Lemma sameKey_between r r' :
  Relationship.sameKey r r' = true →
  Relationship.between (Relationship.initiator r) (Relationship.partner r) r' = true.
Proof.
  unfold Relationship.sameKey, Relationship.between.
  intros [Hi Hp]%andb_prop.
  apply bool_decide_eq_true_1 in Hi. apply bool_decide_eq_true_1 in Hp.
  rewrite Hi, Hp.
  rewrite !(bool_decide_eq_true_2 (_ = _) eq_refl). done.
Qed.

(** The insert of a pair that no stored relationship joins gets through the
    unique index. *)
Lemma Relationship_insert_new k r store :
  Relationship.validate r = true →
  (∀ k' r', store !! k' = Some r' →
     Relationship.between (Relationship.initiator r) (Relationship.partner r) r' = false) →
  Relationship_insert k r store = Some (<[k := r]> store).
Proof.
  intros Hv Hnone. unfold Relationship_insert. rewrite Hv. simpl.
  destruct (findOne _ _) as [[k' r']|] eqn:E; [|done].
  apply findOne_Some in E as [Hk' Hs].
  apply sameKey_between in Hs. rewrite (Hnone _ _ Hk') in Hs. done.
Qed.

(** ** The four transitions of the happy path, one equation each *)

Lemma createRelationship_ok env a b (w : World) partner :
  User_findOne env (relationshipController.partnerEmail b) = Some partner →
  partner ≠ id a →
  (∀ k r, relationships w !! k = Some r → Relationship.between (id a) partner r = false) →
  let r := Relationship.new (now env) (id a) partner (relationshipController.title b)
             (default "acquaintance" (relationshipController.type b))
             (default "" (relationshipController.description b)) Relationship.pending in
  Relationship.validate r = true →
  let w1 := setRelationships (<[nextId w := r]> (relationships w)) (newId w).2 in
  ∀ n, n = relationshipController.notification partner (id a) "relationship_invite" true
             [("accept", "Accept"); ("decline", "Decline")] (nextId w) →
  relationshipController.createRelationship env (asUser a) b w =
    if sinkUp env n
    then (pushNotification n w1,
          {| code := 201; message := "Relationship invitation sent successfully";
             body := RelationshipBody (nextId w) r |})
    else catch "Create relationship error:" "Server error during relationship creation" w1.
Proof.
  intros Hfind Hne Hnone r Hv w1 n ->.
  unfold relationshipController.createRelationship. simpl.
  rewrite Hfind. rewrite bool_decide_eq_false_2 by done.
  destruct (findOne _ _) as [[k' r']|] eqn:E.
  { apply findOne_Some in E as [Hk' Hb]. rewrite (Hnone _ _ Hk') in Hb. done. }
  rewrite (Relationship_insert_new _ _ (relationships w)); [|done..].
  unfold Notification_create. fold r. simpl. fold w1.
  by destruct (sinkUp env _).
Qed.

Lemma acceptRelationship_ok env u k (w : World) r :
  relationships w !! k = Some r →
  Relationship.partner r = id u →
  Relationship.status r = Relationship.pending →
  let r' := Relationship.setAcceptedDate (Some (now env))
              (Relationship.setStatus Relationship.active r) in
  let w1 := setRelationships (<[k := r']> (relationships w)) w in
  ∀ n, n = relationshipController.notification (Relationship.initiator r) (id u)
             "relationship_accepted" false [] k →
  relationshipController.acceptRelationship env (asUser u) k w =
    if sinkUp env n
    then (pushNotification n w1,
          {| code := 200; message := "Relationship accepted successfully";
             body := RelationshipBody k r' |})
    else catch "Accept relationship error:" "Server error during relationship acceptance" w1.
Proof.
  intros Hk Hp Hs r' w1 n ->.
  unfold relationshipController.acceptRelationship. simpl.
  rewrite Hk, Hp, Hs. rewrite !bool_decide_eq_true_2 by done. simpl.
  unfold Notification_create. simpl. fold r' w1.
  by destruct (sinkUp env _).
Qed.

Lemma requestBreakup_ok env u k (w : World) r :
  relationships w !! k = Some r →
  Relationship.includesUser r (id u) = true →
  Relationship.status r = Relationship.active →
  let r' := Relationship.setBreakupRequestedBy (Some (id u))
              (Relationship.setStatus Relationship.requested_breakup r) in
  relationshipController.requestBreakup env (asUser u) k w =
    (Notification_create_background env "Error creating breakup request notification:"
       (relationshipController.notification (Relationship.getPartner r' (id u)) (id u)
          "breakup_request" true
          [("accept", "Confirm Breakup"); ("decline", "Cancel Request")] k)
       (setRelationships (<[k := r']> (relationships w)) w),
     {| code := 200; message := "Breakup request sent successfully";
        body := RelationshipBody k r' |}).
Proof.
  intros Hk Hi Hs r'.
  unfold relationshipController.requestBreakup. simpl.
  rewrite Hk, Hi, Hs. rewrite bool_decide_eq_true_2 by done. done.
Qed.

Lemma confirmBreakup_ok env u k (w : World) r requester :
  relationships w !! k = Some r →
  Relationship.includesUser r (id u) = true →
  Relationship.status r = Relationship.requested_breakup →
  Relationship.breakupRequestedBy r = Some requester →
  requester ≠ id u →
  let r' := Relationship.setEndDate (Some (now env))
              (Relationship.setStatus Relationship.ended r) in
  relationshipController.confirmBreakup env (asUser u) k w =
    (Notification_create_background env "Error creating breakup confirmed notification:"
       (relationshipController.notification requester (id u) "breakup_confirmed" false [] k)
       (setRelationships (<[k := r']> (relationships w)) w),
     {| code := 200; message := "Breakup confirmed successfully";
        body := RelationshipBody k r' |}).
Proof.
  intros Hk Hi Hs Hb Hne r'.
  unfold relationshipController.confirmBreakup. simpl.
  rewrite Hk, Hi, Hs, Hb. rewrite bool_decide_eq_true_2 by done.
  rewrite bool_decide_eq_false_2 by done. done.
Qed.

(** The notification attempt of a background create leaves the relationships
    alone. *)
Lemma relationships_background env tag n w :
  relationships (Notification_create_background env tag n w) = relationships w.
Proof.
  unfold Notification_create_background, Notification_create.
  by destruct (sinkUp env n).
Qed.

(** C1. Happy path: from stores in which no relationship joins the distinct
    users A and B, A's proposal to B yields a pending relationship, B's
    acceptance makes it active and sets [acceptedDate], A's breakup request
    makes it [requested_breakup] with [breakupRequestedBy = A], and B's
    confirmation ends it and sets [endDate]. *)
Theorem happy_path_lifecycle
    (w : World) (a b : User) (proposal : relationshipController.CreateBody)
    (e1 e2 e3 e4 : Env) :
  id a ≠ id b →
  User_findOne e1 (relationshipController.partnerEmail proposal) = Some (id b) →
  (∀ k r, relationships w !! k = Some r →
     Relationship.between (id a) (id b) r = false) →
  Relationship.validate
    (Relationship.new (now e1) (id a) (id b) (relationshipController.title proposal)
       (default "acquaintance" (relationshipController.type proposal))
       (default "" (relationshipController.description proposal))
       Relationship.pending) = true →
  (∀ n, sinkUp e1 n = true) →
  (∀ n, sinkUp e2 n = true) →
  let k := nextId w in
  let s1 := relationshipController.createRelationship e1 (asUser a) proposal w in
  let s2 := relationshipController.acceptRelationship e2 (asUser b) k s1.1 in
  let s3 := relationshipController.requestBreakup e3 (asUser a) k s2.1 in
  let s4 := relationshipController.confirmBreakup e4 (asUser b) k s3.1 in
  (code s1.2 = 201%Z
   ∧ ∃ r, relationships s1.1 !! k = Some r ∧ body s1.2 = RelationshipBody k r
          ∧ Relationship.initiator r = id a ∧ Relationship.partner r = id b
          ∧ Relationship.status r = Relationship.pending)
  ∧ (code s2.2 = 200%Z
     ∧ ∃ r, relationships s2.1 !! k = Some r ∧ body s2.2 = RelationshipBody k r
            ∧ Relationship.status r = Relationship.active
            ∧ Relationship.acceptedDate r = Some (now e2))
  ∧ (code s3.2 = 200%Z
     ∧ ∃ r, relationships s3.1 !! k = Some r ∧ body s3.2 = RelationshipBody k r
            ∧ Relationship.status r = Relationship.requested_breakup
            ∧ Relationship.breakupRequestedBy r = Some (id a))
  ∧ (code s4.2 = 200%Z
     ∧ ∃ r, relationships s4.1 !! k = Some r ∧ body s4.2 = RelationshipBody k r
            ∧ Relationship.status r = Relationship.ended
            ∧ Relationship.endDate r = Some (now e4)).
Proof.
  intros Hab Hfind Hnone Hvalid Hup1 Hup2 k s1 s2 s3 s4.
  pose proof (createRelationship_ok e1 a proposal w (id b) Hfind (not_eq_sym Hab)
                Hnone Hvalid _ eq_refl) as E1.
  rewrite Hup1 in E1. fold s1 in E1.
  set (r1 := Relationship.new _ _ _ _ _ _ _) in E1.
  assert (H1 : relationships s1.1 !! k = Some r1).
  { rewrite E1. simpl. apply lookup_insert_eq. }
  pose proof (acceptRelationship_ok e2 b k s1.1 r1 H1 eq_refl eq_refl _ eq_refl) as E2.
  rewrite Hup2 in E2. fold s2 in E2.
  set (r2 := Relationship.setAcceptedDate _ _) in E2.
  assert (H2 : relationships s2.1 !! k = Some r2).
  { rewrite E2. simpl. apply lookup_insert_eq. }
  assert (Hin2 : Relationship.includesUser r2 (id a) = true).
  { unfold Relationship.includesUser. simpl. by rewrite bool_decide_eq_true_2. }
  pose proof (requestBreakup_ok e3 a k s2.1 r2 H2 Hin2 eq_refl) as E3.
  fold s3 in E3. set (r3 := Relationship.setBreakupRequestedBy _ _) in E3.
  assert (H3 : relationships s3.1 !! k = Some r3).
  { rewrite E3. simpl. rewrite relationships_background. simpl. apply lookup_insert_eq. }
  assert (Hin3 : Relationship.includesUser r3 (id b) = true).
  { unfold Relationship.includesUser. simpl.
    rewrite (bool_decide_eq_true_2 (id b = id b)) by done. apply orb_true_r. }
  pose proof (confirmBreakup_ok e4 b k s3.1 r3 (id a) H3 Hin3 eq_refl eq_refl Hab) as E4.
  fold s4 in E4. set (r4 := Relationship.setEndDate _ _) in E4.
  repeat split.
  - by rewrite E1.
  - exists r1. split; [done|]. by rewrite E1.
  - by rewrite E2.
  - exists r2. split; [done|]. by rewrite E2.
  - by rewrite E3.
  - exists r3. split; [done|]. by rewrite E3.
  - by rewrite E4.
  - exists r4. split; [|by rewrite E4].
    rewrite E4. simpl. rewrite relationships_background. simpl. apply lookup_insert_eq.
Qed.

Lemma happy_path_lifecycle_witness :
  let s1 := relationshipController.createRelationship (sinkOk 1000) (asUser userA)
              friendship emptyWorld in
  let s2 := relationshipController.acceptRelationship (sinkOk 2000) (asUser userB)
              1%positive s1.1 in
  let s3 := relationshipController.requestBreakup (sinkOk 3000) (asUser userA)
              1%positive s2.1 in
  let s4 := relationshipController.confirmBreakup (sinkOk 4000) (asUser userB)
              1%positive s3.1 in
  code s1.2 = 201%Z ∧ code s2.2 = 200%Z ∧ code s3.2 = 200%Z ∧ code s4.2 = 200%Z.
Proof.
  destruct (happy_path_lifecycle emptyWorld userA userB friendship
              (sinkOk 1000) (sinkOk 2000) (sinkOk 3000) (sinkOk 4000))
    as ((H1 & _) & (H2 & _) & (H3 & _) & (H4 & _)).
  - vm_compute. congruence.
  - reflexivity.
  - intros k r H. vm_compute in H. discriminate.
  - vm_compute. reflexivity.
  - reflexivity.
  - reflexivity.
  - repeat split; assumption.
Defined.

(** C2. On a relationship in status [requested_breakup], [confirmBreakup]
    by the user recorded in [breakupRequestedBy] fails with 403 (Forbidden)
    or 400 (InvalidState), writes nothing, and the relationship stays
    [requested_breakup]: it is never moved to [ended]. *)
Theorem confirmBreakup_by_requester_fails
    (env : Env) (req : Req) (k : ObjectId) (w : World) (r : Relationship.doc) :
  relationships w !! k = Some r →
  Relationship.status r = Relationship.requested_breakup →
  Relationship.breakupRequestedBy r = Some (id (user req)) →
  let s := relationshipController.confirmBreakup env req k w in
  (code s.2 = 403%Z ∨ code s.2 = 400%Z)
  ∧ s.1 = w
  ∧ relationships s.1 !! k = Some r
  ∧ Relationship.status r ≠ Relationship.ended.
Proof.
  intros Hk Hs Hb s. subst s.
  assert (Relationship.status r ≠ Relationship.ended) by (by rewrite Hs).
  unfold relationshipController.confirmBreakup.
  destruct (errors_isEmpty req); simpl; [|by eauto 10].
  rewrite Hk.
  destruct (Relationship.includesUser r (id (user req))); simpl; [|by eauto 10].
  rewrite Hs, Hb. rewrite !bool_decide_eq_true_2 by done. simpl. by eauto 10.
Qed.

Lemma confirmBreakup_by_requester_fails_witness :
  (relationshipController.confirmBreakup (sinkOk 4000) (asUser userA) 1%positive
     requestedWorld).1 = requestedWorld.
Proof.
  refine (proj1 (proj2 (confirmBreakup_by_requester_fails (sinkOk 4000) (asUser userA)
            1%positive requestedWorld _ _ _ _))).
  - vm_compute. reflexivity.
  - reflexivity.
  - reflexivity.
Defined.



(** ** What a request can do to the relationships *)

Lemma storeStep_alter store k f :
  (∀ r, store !! k = Some r → docStep r (f r)) →
  storeStep store (alter f k store).
Proof.
  intros H. rewrite alter_alt.
  destruct (store !! k) as [r|] eqn:E; [|constructor].
  eapply storeStep_update; eauto.
Qed.

Lemma between_swap r1 r2 :
  Relationship.between (Relationship.initiator r1) (Relationship.partner r1) r2
  = Relationship.between (Relationship.initiator r2) (Relationship.partner r2) r1.
Proof.
  unfold Relationship.between.
  repeat case_bool_decide; simpl; try done; congruence.
Qed.

Lemma pairUnique_step store store' :
  storeStep store store' → pairUnique store → pairUnique store'.
Proof.
  intros Hstep Hu. destruct Hstep as [|k r r' Hk (Hi & Hp & _)|k|k r _ _ Hnew].
  - done.
  - intros k1 k2 r1 r2 H1 H2 Hb.
    assert (∀ j x, <[k := r']> store !! j = Some x →
              ∃ y, store !! j = Some y
                   ∧ Relationship.initiator x = Relationship.initiator y
                   ∧ Relationship.partner x = Relationship.partner y) as Hold.
    { intros j x Hj. destruct (decide (k = j)) as [->|Hne].
      - rewrite lookup_insert_eq in Hj. injection Hj as <-. eauto.
      - rewrite lookup_insert_ne in Hj by done. eauto. }
    destruct (Hold _ _ H1) as (y1 & Hy1 & Hi1 & Hp1).
    destruct (Hold _ _ H2) as (y2 & Hy2 & Hi2 & Hp2).
    apply (Hu k1 k2 y1 y2 Hy1 Hy2).
    revert Hb. unfold Relationship.between. by rewrite Hi1, Hp1, Hi2, Hp2.
  - intros k1 k2 r1 r2 H1 H2 Hb.
    apply lookup_delete_Some in H1 as [_ H1].
    apply lookup_delete_Some in H2 as [_ H2]. eauto.
  - intros k1 k2 r1 r2 H1 H2 Hb.
    destruct (decide (k1 = k)) as [->|Hne1], (decide (k2 = k)) as [->|Hne2]; [done|..].
    + rewrite lookup_insert_eq in H1. injection H1 as <-.
      rewrite lookup_insert_ne in H2 by done.
      rewrite (Hnew _ _ H2) in Hb. done.
    + rewrite lookup_insert_eq in H2. injection H2 as <-.
      rewrite lookup_insert_ne in H1 by done.
      rewrite between_swap, (Hnew _ _ H1) in Hb. done.
    + rewrite lookup_insert_ne in H1, H2 by done. eauto.
Qed.

Lemma consistent_step store store' :
  storeStep store store' →
  map_Forall (λ _ r, breakupConsistent r ∧ trustInRange r) store →
  map_Forall (λ _ r, breakupConsistent r ∧ trustInRange r) store'.
Proof.
  intros Hstep Hall. destruct Hstep as [|k r r' Hk (_ & _ & Hb & Ht)|k|k r Hb Ht _].
  - done.
  - apply map_Forall_insert_2; [|done].
    destruct (Hall _ _ Hk). auto.
  - by apply map_Forall_delete.
  - by apply map_Forall_insert_2.
Qed.

(** ** What a request can do to the terms and to the certificates *)

Lemma hasUserAgreed_false (t : Term.doc) u :
  Term.hasUserAgreed t u = false ↔ u ∉ Term.agreedUser <$> Term.agreedBy t.
Proof.
  unfold Term.hasUserAgreed. induction (Term.agreedBy t) as [|e l IH]; simpl.
  - split; [intros _; apply not_elem_of_nil | done].
  - rewrite orb_false_iff, IH, not_elem_of_cons, bool_decide_eq_false.
    intuition congruence.
Qed.

Lemma agreementConsistent_agree (t : Term.doc) (e : Term.Agreement) :
  agreementConsistent t →
  Term.hasUserAgreed t (Term.agreedUser e) = false →
  agreementConsistent
    (Term.setAgreement
       (if (2 <=? length (Term.agreedBy t ++ [e]))%nat then Term.agreed else Term.status t)
       (Term.agreedBy t ++ [e]) t).
Proof.
  intros [Hnd Hst] Hnew. apply hasUserAgreed_false in Hnew.
  split; cbn [Term.setAgreement Term.status Term.agreedBy].
  - rewrite fmap_app. apply NoDup_app. repeat split; [done| |apply NoDup_singleton].
    intros x Hx Hx'%list_elem_of_singleton. by subst.
  - destruct (2 <=? length (Term.agreedBy t ++ [e]))%nat eqn:E.
    + apply Nat.leb_le in E. split; done.
    + apply Nat.leb_gt in E. rewrite Hst. rewrite length_app in *. simpl in *. lia.
Qed.

Lemma agreementConsistent_reset (t : Term.doc) :
  agreementConsistent (Term.setAgreement Term.modified [] t).
Proof. split; simpl; [apply NoDup_nil_2 | split; [done | lia]]. Qed.

(** The certificate of [completeMilestone] never passes the validation of
    the schema: the literal it is built from has neither [relatedTo] nor
    [relatedId]. *)
Lemma Certificate_save_unrelated now random now' k ttl descr ty lvl users store :
  Certificate.save now random k
    (Certificate.new now' None None ttl descr ty lvl users) store
  = inl Certificate.ValidationError.
Proof. reflexivity. Qed.

#[local] Arguments Nat.leb : simpl never.
#[local] Arguments Nat.ltb : simpl never.

Ltac unfold_controllers :=
  unfold handle,
    relationshipController.createRelationship, relationshipController.updateRelationship,
    relationshipController.acceptRelationship, relationshipController.declineRelationship,
    relationshipController.deleteRelationship, relationshipController.requestBreakup,
    relationshipController.confirmBreakup, relationshipController.cancelBreakupRequest,
    termController.createTerm, termController.updateTerm, termController.agreeTerm,
    termController.reportViolation, termController.deleteTerm,
    milestoneController.createMilestone, milestoneController.updateMilestone,
    milestoneController.completeMilestone, milestoneController.addEvidence,
    milestoneController.deleteMilestone,
    activityController.createActivity, activityController.updateActivity,
    activityController.addReaction, activityController.addComment,
    activityController.deleteActivity,
    certificateController.getCertificate, certificateController.downloadCertificate,
    certificateController.shareCertificate,
    catch, Notification_create_background, Notification_create, newId.

(** Turn the guards a branch has passed into propositions. *)
Ltac guards :=
  repeat match goal with
  | H : negb _ = false |- _ => apply negb_false_iff in H
  | H : negb _ = true |- _ => apply negb_true_iff in H
  | H : bool_decide _ = true |- _ => apply bool_decide_eq_true_1 in H
  | H : bool_decide _ = false |- _ => apply bool_decide_eq_false_1 in H
  | H : _ && _ = true |- _ => apply andb_prop in H as [? ?]
  end.

Ltac controller_cases :=
  unfold_controllers; rewrite ?Certificate_save_unrelated;
  repeat case_match; simplify_eq/=; guards.

Ltac docStep_solve :=
  unfold docStep, breakupConsistent, trustInRange, Relationship.includesUser,
    activityController.clampTrust in *;
  simpl;
  repeat match goal with
  | H : Relationship.status _ = _ |- _ => rewrite H in *
  end;
  repeat split; try done; try lia; eauto.

Lemma storeStep_insert_new k r store g a b :
  Relationship_insert k r store = Some g →
  findOne (Relationship.between a b) store = None →
  Relationship.initiator r = a → Relationship.partner r = b →
  breakupConsistent r → trustInRange r →
  storeStep store g.
Proof.
  unfold Relationship_insert. intros Hins Hnone <- <- Hb Ht.
  repeat case_match; simplify_eq.
  apply storeStep_create; [done..|].
  by apply findOne_None.
Qed.

(** Every request changes the relationships by one [storeStep]. *)
Lemma handle_relationships env req op w :
  storeStep (relationships w) (relationships (handle env req op w).1).
Proof.
  destruct op.
  all: controller_cases.
  all: try apply storeStep_same.
  all: try apply storeStep_delete.
  all: rewrite ?alter_alter_eq.
  all: try (apply storeStep_alter; intros; docStep_solve; fail).
  all: try (eapply storeStep_update; [eassumption|]; docStep_solve; fail).
  all: eapply storeStep_insert_new; [eassumption..| | | |]; try done.
  all: unfold trustInRange; simpl; lia.
Qed.

(** Every request keeps the agreement state of every term consistent, and
    stores no certificate: the only [new Certificate] of the controllers is
    the one of [completeMilestone], which the schema rejects. *)
Lemma handle_terms_certificates env req op w :
  (map_Forall (λ _ t, agreementConsistent t) (terms w) →
   map_Forall (λ _ t, agreementConsistent t) (terms (handle env req op w).1))
  ∧ (certificates w = ∅ → certificates (handle env req op w).1 = ∅).
Proof.
  destruct op.
  all: controller_cases.
  all: split; [intros Hall | intros Hnone]; try done.

  all: try (rewrite Hnone, lookup_empty in *; done).
  all: try (by apply map_Forall_delete).
  all: apply map_Forall_insert_2; [|done].
  all: try match goal with
       | H : terms _ !! _ = Some _ |- _ => apply Hall in H
       end.
  all: try (by apply agreementConsistent_reset).
  all: try match goal with
       | Hc : agreementConsistent ?d, Hn : Term.hasUserAgreed ?d _ = false,
         Hl : (2 <=? length (Term.agreedBy ?d ++ [?e]))%nat = _ |- _ =>
           pose proof (agreementConsistent_agree d e Hc Hn) as Hnew;
           rewrite Hl in Hnew; exact Hnew
       end.
  all: try done.
  all: split; simpl; [apply NoDup_nil_2 | split; [done | lia]].
Qed.

Lemma reachable_inv w : reachable w → worldInv w.
Proof.
  induction 1 as [|env req op w _ (Hu & Hr & Ht & Hc)].
  - by repeat split.
  - pose proof (handle_relationships env req op w) as Hstep.
    destruct (handle_terms_certificates env req op w) as [Ht' Hc'].
    unfold worldInv. split_and!; eauto using pairUnique_step, consistent_step.
Qed.

(** ** Who can have agreed to a term *)

Lemma includesUser_parties r r' u :
  Relationship.initiator r' = Relationship.initiator r →
  Relationship.partner r' = Relationship.partner r →
  Relationship.includesUser r' u = Relationship.includesUser r u.
Proof. unfold Relationship.includesUser. by intros -> ->. Qed.

Ltac lookups :=
  repeat match goal with
  | H : <[_:=_]> _ !! _ = Some _ |- _ =>
      apply lookup_insert_Some in H as [[? ?]|[? H]]; simplify_eq
  | H : delete _ _ !! _ = Some _ |- _ => apply lookup_delete_Some in H as [? H]
  | H : alter _ _ _ !! _ = Some _ |- _ =>
      apply lookup_alter_Some in H as [(? & ? & ? & ?)|[? H]]; simplify_eq
  end.

Ltac fresh_keys F1 F2 :=
  repeat match goal with
  | H : relationships _ !! _ = Some _ |- _ => apply F1 in H
  | H : terms _ !! _ = Some _ |- _ => apply F2 in H
  end.

Lemma handle_agreers env req op w : agreersInv w → agreersInv (handle env req op w).1.
Proof.
  intros (F1 & F2 & P). destruct op.
  all: controller_cases.
  all: try (by split_and!).
  all: unfold Relationship_insert in *; repeat case_match; simplify_eq.
  all: unfold agreersInv; simpl; split_and!.
  all: try (intros k0 x0 Hk0; lookups; simpl; fresh_keys F1 F2; lia).
  all: intros k0 t0 r0 u0 Ht Hr Hu; lookups; simpl in *.
  all: try (by apply elem_of_nil in Hu).
  all: try (by eapply P; eauto).
  all: try (erewrite includesUser_parties; [eapply P; eauto | done | done]; fail).
  all: try (exfalso; fresh_keys F1 F2; lia).
  all: rewrite fmap_app, elem_of_app in Hu; destruct Hu as [Hu|Hu];
    [by eapply P; eauto|].
  all: apply list_elem_of_singleton in Hu; simplify_eq/=.
  all: unfold Relationship.includesUser; repeat case_bool_decide; done.
Qed.

Lemma reachable_agreers w : reachable w → agreersInv w.
Proof.
  induction 1 as [|env req op w _ IH].
  - by split_and!.
  - by apply handle_agreers.
Qed.

Lemma length_within_pair (l : list ObjectId) a b :
  NoDup l → (∀ x, x ∈ l → x = a ∨ x = b) → length l ≤ 2.
Proof.
  intros Hnd Hin.
  assert (l ⊆+ [a; b]) as Hsub.
  { apply NoDup_submseteq; [done|]. intros x Hx.
    destruct (Hin x Hx) as [->| ->]; set_solver. }
  by apply submseteq_length in Hsub.
Qed.






Lemma party_guard (r : Relationship.doc) u :
  Relationship.includesUser r u = true →
  negb (bool_decide (Relationship.initiator r = u))
  && negb (bool_decide (Relationship.partner r = u)) = false.
Proof.
  unfold Relationship.includesUser.
  intros [->| ->]%orb_prop; simpl; [done | apply andb_false_r].
Qed.


Lemma remove_dups_NoDup (l : list ObjectId) : NoDup l → remove_dups l = l.
Proof.
  induction 1 as [|x l Hx Hnd IH]; simpl; [done|].
  destruct (decide_rel (∈) x l); [done | by f_equal].
Qed.

Lemma agreers_length (t : Term.doc) :
  NoDup (Term.agreedUser <$> Term.agreedBy t) →
  length (agreers t) = length (Term.agreedBy t).
Proof.
  intros Hnd. unfold agreers.
  rewrite (remove_dups_NoDup _ Hnd). apply length_fmap.
Qed.

(** C5. For a term of a reachable state and a party U of its relationship:
    when U already has an entry in [agreedBy], [agreeTerm] by U answers 400
    "You have already agreed to this term" and changes nothing; otherwise it
    appends exactly one entry, for U, and afterwards the status of the term
    is [agreed] exactly when two distinct agreers are recorded (there are
    never more than two, and a status that is not [agreed] is the one the
    term had). *)
Theorem agreeTerm_once_per_party
    (env : Env) (req : Req) (k : ObjectId) (signature : option string)
    (w : World) (t : Term.doc) (r : Relationship.doc) :
  reachable w →
  errors_isEmpty req = true →
  terms w !! k = Some t →
  relationships w !! Term.relationship t = Some r →
  Relationship.includesUser r (id (user req)) = true →
  let s := termController.agreeTerm env req k signature w in
  if Term.hasUserAgreed t (id (user req)) then
    s.2 = json 400 "You have already agreed to this term" ∧ s.1 = w
  else
    ∃ e t', terms s.1 !! k = Some t'
            ∧ Term.agreedUser e = id (user req)
            ∧ Term.agreedBy t' = Term.agreedBy t ++ [e]
            ∧ (Term.status t' = Term.agreed ↔ length (agreers t') = 2)
            ∧ (Term.status t' ≠ Term.agreed → Term.status t' = Term.status t).
Proof.
  intros Hw Hv Hk Hr Hin s.
  assert (reachable s.1) as Hw' by apply (reachable_step env req (AgreeTerm k signature)), Hw.
  destruct (reachable_inv _ Hw') as (_ & _ & Ht' & _).
  destruct (reachable_agreers _ Hw') as (_ & _ & Hparties).
  revert Ht' Hparties. subst s.
  unfold termController.agreeTerm. rewrite Hv, Hk, Hr. simpl.
  rewrite (party_guard _ _ Hin).
  destruct (Term.hasUserAgreed t (id (user req))) eqn:Hagreed; [done|].
  set (e := Term.Build_Agreement (id (user req)) (now env) _).
  set (t' := Term.setAgreement _ _ t).
  set (s := match Notification_create env _ _ with Some _ => _ | None => _ end).
  assert (terms s.1 !! k = Some t' ∧ relationships s.1 = relationships w) as [Hk' Hrel].
  { unfold s, Notification_create, catch.
    destruct (sinkUp env _); simpl; by rewrite lookup_insert_eq. }
  intros Ht' Hparties.
  destruct (Ht' _ _ Hk') as [Hnd Hst].
  exists e, t'. split_and!; [done..| |].
  - rewrite agreers_length, Hst by done.
    enough (length (Term.agreedBy t') ≤ 2) by lia.
    rewrite <- (length_fmap Term.agreedUser).
    apply (length_within_pair _ (Relationship.initiator r) (Relationship.partner r));
      [done|].
    intros u Hu. specialize (Hparties k t' r u Hk').
    rewrite Hrel in Hparties. specialize (Hparties Hr Hu).
    unfold Relationship.includesUser in Hparties.
    apply orb_prop in Hparties as [H|H]; apply bool_decide_eq_true_1 in H; auto.
  - unfold t'. simpl. by case_match.
Qed.

Lemma reachable_lowTrustWorld : reachable lowTrustWorld.
Proof.
  unfold lowTrustWorld, activeWorld. cbn [fold_left].
  repeat apply reachable_step. apply reachable_empty.
Qed.

(** C6, as stated, fails: an activity with [impact.trustChange = -20] is
    rejected by the schema of the activity (min -10), the response is 500 and
    the trust level stays 5. *)
Lemma createActivity_minus20_rejected :
  Relationship.trustLevel ∘ Relationship.stats <$> relationships lowTrustWorld !! 1%positive
    = Some 5%Z
  ∧ let s := activityController.createActivity (sinkOk 2600) (asUser userA)
               (activity (-20)) lowTrustWorld in
    code s.2 = 500%Z
    ∧ Relationship.trustLevel ∘ Relationship.stats <$> relationships s.1 !! 1%positive
        = Some 5%Z
    ∧ Relationship.trustLevel ∘ Relationship.stats <$> relationships s.1 !! 1%positive
        ≠ Some 0%Z.
Proof. vm_compute. repeat split; congruence. Qed.

(** C6, amended. On an active relationship, [createActivity] by a party with
    a request that passes the schema (so [impact.trustChange] lies in
    -10..10) leaves the trust level at
    [max 0 (min 100 (trustLevel + trustChange))] for a non-zero change and
    untouched for none, hence within 0..100 when it was; a
    [trustChange] outside -10..10 is rejected with 500 and the relationship
    keeps its trust level. *)
Theorem createActivity_trust_clamped
    (env : Env) (req : Req) (b : activityController.CreateBody) (w : World)
    (r : Relationship.doc) :
  errors_isEmpty req = true →
  relationships w !! activityController.relationshipId b = Some r →
  Relationship.includesUser r (id (user req)) = true →
  Relationship.status r = Relationship.active →
  let a := Activity.new (activityController.relationshipId b) (id (user req))
             (activityController.title b) (activityController.description b)
             (activityController.type b) (activityController.category b)
             (activityController.mood b) (activityController.impact b) in
  let change := Activity.impactTrustChange a in
  let old := Relationship.trustLevel (Relationship.stats r) in
  let s := activityController.createActivity env req b w in
  (Activity.validate a = true →
     (-10 ≤ change ≤ 10)%Z
     ∧ ∃ r', relationships s.1 !! activityController.relationshipId b = Some r'
             ∧ Relationship.trustLevel (Relationship.stats r')
               = (if (change =? 0)%Z then old
                  else activityController.clampTrust old change)
             ∧ (trustInRange r →
                  Relationship.trustLevel (Relationship.stats r')
                  = activityController.clampTrust old change
                  ∧ trustInRange r'))
  ∧ (¬ (-10 ≤ change ≤ 10)%Z →
     code s.2 = 500%Z ∧ relationships s.1 = relationships w).
Proof.
  intros Hv Hk Hin Hs a change old s. subst s.
  unfold activityController.createActivity.
  rewrite Hv, Hk, Hin, Hs. rewrite bool_decide_eq_true_2 by done.
  simpl. fold a. split.
  - intros Hvalid. rewrite Hvalid. simpl.
    assert (-10 ≤ change ≤ 10)%Z as Hrange.
    { unfold Activity.validate, inRange in Hvalid. fold change in Hvalid.
      repeat (apply andb_prop in Hvalid as [Hvalid ?]). lia. }
    split; [done|].
    unfold Notification_create, catch.
    subst change a old. unfold trustInRange, activityController.clampTrust in *.
    simpl in *.
    destruct (activityController.impact b) as [[[tc|] rs]|]; simpl in *.
    + destruct (tc =? 0)%Z eqn:Etc; simpl.
      * destruct (truthyNumber rs), (sinkUp env _); simpl;
          rewrite lookup_alter_eq, Hk; simpl;
          (eexists; split; [done|]; simpl; split; [done|]);
          apply Z.eqb_eq in Etc; subst tc; lia.
      * destruct (sinkUp env _); simpl;
          rewrite !lookup_alter_eq, Hk; simpl;
          (eexists; split; [done|]; simpl; split; [done|]); lia.
    + destruct (truthyNumber rs), (sinkUp env _); simpl;
        rewrite lookup_alter_eq, Hk; simpl;
        (eexists; split; [done|]; simpl; split; [done|]); lia.
    + destruct (sinkUp env _); simpl;
        rewrite lookup_alter_eq, Hk; simpl;
        (eexists; split; [done|]; simpl; split; [done|]); lia.
  - intros Hout.
    assert (Activity.validate a = false) as ->.
    { unfold Activity.validate, inRange. fold change.
      destruct (-10 <=? change)%Z eqn:E1, (change <=? 10)%Z eqn:E2;
        rewrite ?andb_false_r, ?andb_false_l; simpl; try done; lia. }
    done.
Qed.

(** C4, on the code. [completeMilestone] on a milestone that is not
    completed and has [rewards.certificate], by a party: the milestone is
    saved as completed and [milestonesAchieved] is incremented by exactly 1,
    but the certificate is rejected by the validation of its schema, no
    certificate is stored and the response is 500. *)
Theorem completeMilestone_certificate_rejected
    (env : Env) (req : Req) (k : ObjectId) (w : World)
    (m : Milestone.doc) (r : Relationship.doc) :
  errors_isEmpty req = true →
  milestones w !! k = Some m →
  relationships w !! Milestone.relationship m = Some r →
  Relationship.includesUser r (id (user req)) = true →
  Milestone.status m ≠ Milestone.completed →
  Milestone.rewardsCertificate m = true →
  let s := milestoneController.completeMilestone env req k w in
  s.2 = json 500 "Server error during milestone completion"
  ∧ certificates s.1 = certificates w
  ∧ notifications s.1 = notifications w
  ∧ (Milestone.status <$> milestones s.1 !! k) = Some Milestone.completed
  ∧ (Relationship.milestonesAchieved ∘ Relationship.stats
       <$> relationships s.1 !! Milestone.relationship m)
    = Some (Relationship.milestonesAchieved (Relationship.stats r) + 1)%Z.
Proof.
  intros Hv Hk Hr Hin Hst Hcert s. subst s.
  assert (negb (bool_decide (Relationship.initiator r = id (user req)))
          && negb (bool_decide (Relationship.partner r = id (user req))) = false) as Hparty.
  { unfold Relationship.includesUser in Hin.
    apply orb_prop in Hin as [->| ->]; simpl; [done | apply andb_false_r]. }
  unfold milestoneController.completeMilestone.
  rewrite Hv, Hk, Hr. simpl. rewrite Hparty.
  rewrite bool_decide_eq_false_2 by done. rewrite Hcert. simpl.
  split_and!; try done.
  - by rewrite lookup_insert_eq.
  - by rewrite lookup_alter_eq, Hr.
Qed.

Lemma completeMilestone_certificate_rejected_witness :
  (milestoneController.completeMilestone (sinkOk 2200) (asUser userA) 2%positive
     milestoneWorld).2
  = json 500 "Server error during milestone completion".
Proof.
  refine (proj1 (completeMilestone_certificate_rejected (sinkOk 2200) (asUser userA)
            2%positive milestoneWorld _ _ _ _ _ _ _ _)).
  - reflexivity.
  - vm_compute. reflexivity.
  - vm_compute. reflexivity.
  - reflexivity.
  - simpl. discriminate.
  - reflexivity.
Defined.

(** On the code: no sequence of requests ever stores a certificate. *)
Lemma no_certificate_reachable w : reachable w → certificates w = ∅.
Proof. intros Hw. by destruct (reachable_inv w Hw) as (_ & _ & _ & ?). Qed.

(** C8, on the code. With the Notification Sink failing, no lifecycle
    operation rolls its transition back, and [requestBreakup] and
    [confirmBreakup] (which do not await the sink) still answer 200; but
    [createRelationship], [acceptRelationship], [declineRelationship] and
    [cancelBreakupRequest] await the sink inside their [try] and answer 500
    for a transition they have committed. *)
Theorem sink_failure_reported_by_awaiting_operations :
  (∀ env a b (w : World) partner,
     User_findOne env (relationshipController.partnerEmail b) = Some partner →
     partner ≠ id a →
     (∀ k r, relationships w !! k = Some r →
        Relationship.between (id a) partner r = false) →
     Relationship.validate
       (Relationship.new (now env) (id a) partner (relationshipController.title b)
          (default "acquaintance" (relationshipController.type b))
          (default "" (relationshipController.description b))
          Relationship.pending) = true →
     (∀ n, sinkUp env n = false) →
     let s := relationshipController.createRelationship env (asUser a) b w in
     code s.2 = 500%Z
     ∧ (Relationship.status <$> relationships s.1 !! nextId w)
       = Some Relationship.pending)
  ∧ (∀ env u k (w : World) r,
       relationships w !! k = Some r →
       Relationship.partner r = id u →
       Relationship.status r = Relationship.pending →
       (∀ n, sinkUp env n = false) →
       let s := relationshipController.acceptRelationship env (asUser u) k w in
       code s.2 = 500%Z
       ∧ (Relationship.status <$> relationships s.1 !! k) = Some Relationship.active)
  ∧ (∀ env u k (w : World) r,
       relationships w !! k = Some r →
       Relationship.partner r = id u →
       Relationship.status r = Relationship.pending →
       (∀ n, sinkUp env n = false) →
       let s := relationshipController.declineRelationship env (asUser u) k w in
       code s.2 = 500%Z ∧ relationships s.1 !! k = None)
  ∧ (∀ env u k (w : World) r,
       relationships w !! k = Some r →
       Relationship.includesUser r (id u) = true →
       Relationship.status r = Relationship.requested_breakup →
       Relationship.breakupRequestedBy r = Some (id u) →
       (∀ n, sinkUp env n = false) →
       let s := relationshipController.cancelBreakupRequest env (asUser u) k w in
       code s.2 = 500%Z
       ∧ (Relationship.status <$> relationships s.1 !! k) = Some Relationship.active)
  ∧ (∀ env u k (w : World) r,
       relationships w !! k = Some r →
       Relationship.includesUser r (id u) = true →
       Relationship.status r = Relationship.active →
       (∀ n, sinkUp env n = false) →
       let s := relationshipController.requestBreakup env (asUser u) k w in
       code s.2 = 200%Z
       ∧ (Relationship.status <$> relationships s.1 !! k)
         = Some Relationship.requested_breakup)
  ∧ (∀ env u k (w : World) r requester,
       relationships w !! k = Some r →
       Relationship.includesUser r (id u) = true →
       Relationship.status r = Relationship.requested_breakup →
       Relationship.breakupRequestedBy r = Some requester →
       requester ≠ id u →
       (∀ n, sinkUp env n = false) →
       let s := relationshipController.confirmBreakup env (asUser u) k w in
       code s.2 = 200%Z
       ∧ (Relationship.status <$> relationships s.1 !! k) = Some Relationship.ended).
Proof.
  split_and!.
  - intros env a b w partner Hfind Hne Hnone Hvalid Hdown s. subst s.
    rewrite (createRelationship_ok env a b w partner Hfind Hne Hnone Hvalid _ eq_refl).
    rewrite Hdown. simpl. by rewrite lookup_insert_eq.
  - intros env u k w r Hk Hp Hs Hdown s. subst s.
    rewrite (acceptRelationship_ok env u k w r Hk Hp Hs _ eq_refl).
    rewrite Hdown. simpl. by rewrite lookup_insert_eq.
  - intros env u k w r Hk Hp Hs Hdown s. subst s.
    unfold relationshipController.declineRelationship. simpl.
    rewrite Hk, Hp, Hs. rewrite !bool_decide_eq_true_2 by done. simpl.
    unfold Notification_create. rewrite Hdown. simpl. by rewrite lookup_delete_eq.
  - intros env u k w r Hk Hin Hs Hb Hdown s. subst s.
    unfold relationshipController.cancelBreakupRequest. simpl.
    rewrite Hk, Hin, Hs, Hb. rewrite !bool_decide_eq_true_2 by done. simpl.
    unfold Notification_create. rewrite Hdown. simpl. by rewrite lookup_insert_eq.
  - intros env u k w r Hk Hin Hs Hdown s. subst s.
    rewrite (requestBreakup_ok env u k w r Hk Hin Hs). simpl.
    rewrite relationships_background. simpl. by rewrite lookup_insert_eq.
  - intros env u k w r requester Hk Hin Hs Hb Hne Hdown s. subst s.
    rewrite (confirmBreakup_ok env u k w r requester Hk Hin Hs Hb Hne). simpl.
    rewrite relationships_background. simpl. by rewrite lookup_insert_eq.
Qed.

Lemma sink_failure_reported_by_awaiting_operations_witness :
  let s := relationshipController.acceptRelationship (sinkDown 2000) (asUser userB)
             1%positive pendingWorld in
  code s.2 = 500%Z
  ∧ (Relationship.status <$> relationships s.1 !! 1%positive) = Some Relationship.active.
Proof.
  refine (proj1 (proj2 sink_failure_reported_by_awaiting_operations) (sinkDown 2000)
            userB 1%positive pendingWorld _ _ _ _ _).
  - vm_compute. reflexivity.
  - reflexivity.
  - reflexivity.
  - reflexivity.
Defined.

Lemma preSave_number now random c :
  truthyString (Certificate.certificateNumber c) = true →
  Certificate.preSave now random c = c.
Proof. unfold Certificate.preSave. by intros ->. Qed.

Lemma preSave_truthy now random c :
  truthyString (Certificate.certificateNumber (Certificate.preSave now random c)) = true.
Proof.
  unfold Certificate.preSave.
  destruct (truthyString (Certificate.certificateNumber c)) eqn:E; [done|].
  reflexivity.
Qed.

Lemma numberTaken_false self c (store : gmap ObjectId Certificate.doc) :
  Certificate.numberTaken self c store = false ↔
  ∀ k d, store !! k = Some d → Some k ≠ self →
         Certificate.certificateNumber d ≠ Certificate.certificateNumber c.
Proof.
  unfold Certificate.numberTaken. rewrite bool_decide_eq_false.
  rewrite map_Exists_lookup. split.
  - intros H k d Hk Hs Hn. apply H. eauto.
  - intros H (k & d & Hk & Hs & Hn). by eapply H.
Qed.

(** C9, as stated, fails: the pre-save hook draws one number and never
    checks it; when it collides the unique index rejects the save, where the
    issuance of the specification would have retried and succeeded. *)
Lemma certificate_number_not_retried :
  ¬ (∀ now random draws k c store,
       Certificate.validate c = true →
       Certificate.certificateNumber c = None →
       match Certificate.save now random k c store with
       | inr store' => Some store'
       | inl _ => None
       end = issueWithRetry ((now, random) :: draws) k c store).
Proof.
  intros H.
  specialize (H 1700%Z "k3x9q" [(1701%Z, "p0q1r")] 8%positive sampleCertificate
                issuedStore eq_refl eq_refl).
  vm_compute in H. discriminate.
Qed.


Lemma saveExisting_inr now random k c store store' :
  Certificate.saveExisting now random k c store = inr store' →
  store' = <[k := Certificate.preSave now random c]> store
  ∧ Certificate.numberTaken (Some k) (Certificate.preSave now random c) store = false.
Proof.
  unfold Certificate.saveExisting.
  destruct (Certificate.numberTaken _ _ _); [done|]. by intros [= <-].
Qed.

#[local] Arguments Certificate.saveExisting : simpl never.

(** A request never changes the number of a stored certificate. *)
Lemma handle_keeps_number env req op (w : World) k c :
  certificates w !! k = Some c →
  truthyString (Certificate.certificateNumber c) = true →
  ∃ c', certificates (handle env req op w).1 !! k = Some c'
        ∧ Certificate.certificateNumber c' = Certificate.certificateNumber c.
Proof.
  intros Hk Hn. destruct op.
  all: unfold_controllers; rewrite ?Certificate_save_unrelated.
  all: repeat case_match; simplify_eq/=; eauto.
  all: match goal with
       | H : Certificate.saveExisting _ _ _ _ _ = inr _ |- _ =>
           apply saveExisting_inr in H as [-> _]
       end.
  all: match goal with
       | |- ∃ _, <[?k' := _]> _ !! _ = _ ∧ _ =>
           destruct (decide (k' = k)) as [->|];
             [rewrite lookup_insert_eq | rewrite lookup_insert_ne by done; eauto]
       end.
  all: simplify_eq; eexists; split; [done|].
  all: rewrite preSave_number; done.
Qed.

Lemma save_inr now random k c store store' :
  Certificate.save now random k c store = inr store' →
  Certificate.validate c = true
  ∧ store' = <[k := Certificate.preSave now random c]> store
  ∧ Certificate.numberTaken None (Certificate.preSave now random c) store = false.
Proof.
  unfold Certificate.save.
  destruct (Certificate.validate c); [|done]. simpl.
  destruct (Certificate.numberTaken _ _ _); [done|]. by intros [= <-].
Qed.

Lemma numbersDistinct_insert (store : gmap ObjectId Certificate.doc) k c :
  (∀ k' d, store !! k' = Some d → k' ≠ k →
     Certificate.certificateNumber d ≠ Certificate.certificateNumber c) →
  numbersDistinct store → numbersDistinct (<[k := c]> store).
Proof.
  intros Hnew Hd k1 k2 c1 c2 H1 H2 Hn.
  destruct (decide (k1 = k)) as [->|Hne1], (decide (k2 = k)) as [->|Hne2]; [done|..].
  - rewrite lookup_insert_eq in H1. injection H1 as <-.
    rewrite lookup_insert_ne in H2 by done. by destruct (Hnew _ _ H2 Hne2).
  - rewrite lookup_insert_eq in H2. injection H2 as <-.
    rewrite lookup_insert_ne in H1 by done. by destruct (Hnew _ _ H1 Hne1).
  - rewrite lookup_insert_ne in H1, H2 by done. eauto.
Qed.

(** Every request keeps the numbers of the stored certificates distinct. *)
Lemma handle_numbersDistinct env req op (w : World) :
  numbersDistinct (certificates w) →
  numbersDistinct (certificates (handle env req op w).1).
Proof.
  intros Hd. destruct op.
  all: unfold_controllers; rewrite ?Certificate_save_unrelated.
  all: repeat case_match; simplify_eq/=; eauto.
  all: match goal with
       | H : Certificate.saveExisting _ _ _ _ _ = inr _ |- _ =>
           apply saveExisting_inr in H as [-> Hfree]
       end.
  all: apply numbersDistinct_insert; [|done].
  all: intros k' d' Hk' Hne; eapply numberTaken_false; eauto; congruence.
Qed.

(** C9, amended. A saved certificate without a number gets the number the
    pre-save hook generates from the clock and the random source, once,
    without a collision check or a retry; the unique index accepts the save
    only when no stored certificate has the number, and rejects it with a
    duplicate-key error otherwise; so the stored certificates keep pairwise
    distinct numbers, and no request changes the number of a stored
    certificate. *)
Theorem certificate_number_unique_by_index :
  (∀ now random k c store store',
     Certificate.save now random k c store = inr store' →
     ∃ c', store' = <[k := c']> store
           ∧ (truthyString (Certificate.certificateNumber c) = false →
              Certificate.certificateNumber c'
              = Some (Certificate.generateNumber now random))
           ∧ (∀ k' d, store !! k' = Some d →
                Certificate.certificateNumber d ≠ Certificate.certificateNumber c')
           ∧ (numbersDistinct store → numbersDistinct store'))
  ∧ (∀ now random k c (store : gmap ObjectId Certificate.doc) k' d,
       Certificate.validate c = true →
       store !! k' = Some d →
       Certificate.certificateNumber d
       = Certificate.certificateNumber (Certificate.preSave now random c) →
       Certificate.save now random k c store = inl Certificate.DuplicateKey)
  ∧ (∀ env req op (w : World),
       numbersDistinct (certificates w) →
       numbersDistinct (certificates (handle env req op w).1))
  ∧ (∀ env req op (w : World) k c,
       certificates w !! k = Some c →
       truthyString (Certificate.certificateNumber c) = true →
       ∃ c', certificates (handle env req op w).1 !! k = Some c'
             ∧ Certificate.certificateNumber c' = Certificate.certificateNumber c).
Proof.
  split_and!.
  - intros now random k c store store' (_ & -> & Hfree)%save_inr.
    rewrite numberTaken_false in Hfree.
    exists (Certificate.preSave now random c). split_and!.
    + done.
    + unfold Certificate.preSave. by intros ->.
    + intros k' d Hk'. by apply (Hfree k' d).
    + apply numbersDistinct_insert. intros k' d Hk' _. by apply (Hfree k' d).
  - intros now random k c store k' d Hv Hk' Hn.
    unfold Certificate.save. rewrite Hv. simpl.
    destruct (Certificate.numberTaken _ _ _) eqn:E; [done|].
    rewrite numberTaken_false in E. by destruct (E k' d Hk').
  - apply handle_numbersDistinct.
  - apply handle_keeps_number.
Qed.

Lemma certificate_number_unique_by_index_witness :
  Certificate.save 1700 "k3x9q" 8%positive sampleCertificate issuedStore
  = inl Certificate.DuplicateKey.
Proof.
  refine (proj1 (proj2 certificate_number_unique_by_index) 1700%Z "k3x9q" 8%positive
            sampleCertificate issuedStore 7%positive _ _ _ _).
  - reflexivity.
  - vm_compute. reflexivity.
  - reflexivity.
Defined.

#[local] Arguments enum : simpl never.
#[local] Arguments trim : simpl never.
#[local] Arguments maxlength : simpl never.
#[local] Arguments required : simpl never.



Lemma reachable_termWorld : reachable termWorld.
Proof.
  unfold termWorld, activeWorld. repeat apply reachable_step. apply reachable_empty.
Qed.

Lemma agreeTerm_once_per_party_witness :
  ∃ e t', terms (termController.agreeTerm (sinkOk 2200) (asUser userB) 2%positive None
                   termWorld).1 !! 2%positive = Some t'
          ∧ Term.agreedUser e = id userB
          ∧ Term.agreedBy t' = [e]
          ∧ (Term.status t' = Term.agreed ↔ length (agreers t') = 2)
          ∧ (Term.status t' ≠ Term.agreed → Term.status t' = Term.proposed).
Proof.
  refine (agreeTerm_once_per_party (sinkOk 2200) (asUser userB) 2%positive None termWorld
            (Term.new 1%positive (id userA) "Weekly call" "We talk once a week."
               "communication" "medium" None) _ reachable_termWorld _ _ _ _).
  - reflexivity.
  - vm_compute. reflexivity.
  - vm_compute. reflexivity.
  - reflexivity.
Defined.

Lemma createActivity_trust_clamped_witness :
  ∃ r', relationships (activityController.createActivity (sinkOk 2600) (asUser userA)
                         (activity (-10)) lowTrustWorld).1 !! 1%positive = Some r'
        ∧ Relationship.trustLevel (Relationship.stats r') = 0%Z.
Proof.
  destruct (createActivity_trust_clamped (sinkOk 2600) (asUser userA) (activity (-10))
              lowTrustWorld
              (default (Relationship.new 0 1%positive 1%positive "" "" "" Relationship.pending)
                 (relationships lowTrustWorld !! 1%positive))
              eq_refl) as [Hin _].
  - vm_compute. reflexivity.
  - reflexivity.
  - reflexivity.
  - destruct (Hin eq_refl) as (_ & r' & Hr' & Htrust & _).
    exists r'. split; [exact Hr' | exact Htrust].
Defined.

(** * Further properties of the controllers *)

(** ** Guards *)

(** X1.  A request that failed the validation of its route is answered 400 by
    every controller, before any store is read or written. *)
Theorem validation_failure_changes_nothing (env : Env) (req : Req) (op : Op) (w : World) :
  errors_isEmpty req = false →
  handle env req op w = (w, json 400 "Validation failed").
Proof.
  intros Hv. destruct op; unfold_controllers; by rewrite Hv.
Qed.

Lemma validation_failure_changes_nothing_witness :
  handle (sinkOk 5000) {| errors_isEmpty := false; user := userB |}
    (ConfirmBreakup 1%positive) requestedWorld
  = (requestedWorld, json 400 "Validation failed").
Proof.
  apply validation_failure_changes_nothing. reflexivity.
Defined.

(** X2.  A user who is not a party of the relationship is answered 403 by every
    operation on the relationship, on its terms, milestones and activities
    that checks membership, and nothing is written. *)
Theorem outsider_is_denied (env : Env) (req : Req) (w : World) (k : ObjectId)
    (r : Relationship.doc) :
  errors_isEmpty req = true →
  relationships w !! k = Some r →
  Relationship.includesUser r (id (user req)) = false →
  (∀ b, relationshipController.updateRelationship env req k b w
        = (w, json 403 "Access denied"))
  ∧ relationshipController.deleteRelationship env req k w = (w, json 403 "Access denied")
  ∧ relationshipController.requestBreakup env req k w = (w, json 403 "Access denied")
  ∧ relationshipController.confirmBreakup env req k w = (w, json 403 "Access denied")
  ∧ relationshipController.cancelBreakupRequest env req k w
    = (w, json 403 "Not authorized to cancel this request")
  ∧ relationshipController.acceptRelationship env req k w
    = (w, json 403 "Only the invited partner can accept this relationship")
  ∧ relationshipController.declineRelationship env req k w
    = (w, json 403 "Only the invited partner can decline this relationship")
  ∧ (∀ b, termController.relationshipId b = k →
       termController.createTerm env req b w = (w, json 403 "Access denied"))
  ∧ (∀ b, milestoneController.relationshipId b = k →
       milestoneController.createMilestone env req b w = (w, json 403 "Access denied"))
  ∧ (∀ b, activityController.relationshipId b = k →
       activityController.createActivity env req b w = (w, json 403 "Access denied"))
  ∧ (∀ kt t signature description severity,
       terms w !! kt = Some t → Term.relationship t = k →
       termController.agreeTerm env req kt signature w = (w, json 403 "Access denied")
       ∧ termController.reportViolation env req kt description severity w
         = (w, json 403 "Access denied"))
  ∧ (∀ km m b type url description,
       milestones w !! km = Some m → Milestone.relationship m = k →
       milestoneController.updateMilestone env req km b w = (w, json 403 "Access denied")
       ∧ milestoneController.completeMilestone env req km w = (w, json 403 "Access denied")
       ∧ milestoneController.addEvidence env req km type url description w
         = (w, json 403 "Access denied")
       ∧ milestoneController.deleteMilestone env req km w = (w, json 403 "Access denied"))
  ∧ (∀ ka a type text,
       activities w !! ka = Some a → Activity.relationship a = k →
       activityController.addReaction env req ka type w = (w, json 403 "Access denied")
       ∧ (truthyString text = true → trim (default "" text) ≠ "" →
          activityController.addComment env req ka text w
          = (w, json 403 "Access denied"))).
Proof.
  intros Hv Hk Hout.
  assert (negb (bool_decide (Relationship.initiator r = id (user req)))
          && negb (bool_decide (Relationship.partner r = id (user req))) = true) as Hguard.
  { unfold Relationship.includesUser in Hout.
    apply orb_false_iff in Hout as [-> ->]. done. }
  assert (bool_decide (Relationship.partner r = id (user req)) = false) as Hp.
  { unfold Relationship.includesUser in Hout. by apply orb_false_iff in Hout as [_ ->]. }
  split_and!.
  - intros b. unfold relationshipController.updateRelationship. by rewrite Hv, Hk, Hout.
  - unfold relationshipController.deleteRelationship. by rewrite Hv, Hk, Hout.
  - unfold relationshipController.requestBreakup. by rewrite Hv, Hk, Hout.
  - unfold relationshipController.confirmBreakup. by rewrite Hv, Hk, Hout.
  - unfold relationshipController.cancelBreakupRequest. by rewrite Hv, Hk, Hout.
  - unfold relationshipController.acceptRelationship. by rewrite Hv, Hk, Hp.
  - unfold relationshipController.declineRelationship. by rewrite Hv, Hk, Hp.
  - intros b <-. unfold termController.createTerm. by rewrite Hv, Hk, Hout.
  - intros b <-. unfold milestoneController.createMilestone. by rewrite Hv, Hk, Hout.
  - intros b <-. unfold activityController.createActivity. by rewrite Hv, Hk, Hout.
  - intros kt t signature description severity Ht <-. split.
    + unfold termController.agreeTerm. by rewrite Hv, Ht, Hk, Hguard.
    + unfold termController.reportViolation. by rewrite Hv, Ht, Hk, Hguard.
  - intros km m b type url description Hm <-. split_and!.
    + unfold milestoneController.updateMilestone. by rewrite Hv, Hm, Hk, Hguard.
    + unfold milestoneController.completeMilestone. by rewrite Hv, Hm, Hk, Hguard.
    + unfold milestoneController.addEvidence. by rewrite Hv, Hm, Hk, Hguard.
    + unfold milestoneController.deleteMilestone. by rewrite Hv, Hm, Hk, Hguard.
  - intros ka a type text Ha <-. split.
    + unfold activityController.addReaction. by rewrite Hv, Ha, Hk, Hguard.
    + intros Htext Hblank. unfold activityController.addComment.
      rewrite Hv, Htext. simpl.
      assert ((String.length (trim (default "" text)) =? 0)%nat = false) as ->.
      { destruct (trim (default "" text)); done. }
      by rewrite Ha, Hk, Hguard.
Qed.

Lemma outsider_is_denied_witness :
  relationshipController.requestBreakup (sinkOk 5000) (asUser userC) 1%positive activeWorld
  = (activeWorld, json 403 "Access denied").
Proof.
  refine (proj1 (proj2 (proj2 (outsider_is_denied (sinkOk 5000) (asUser userC) activeWorld
                                 1%positive (stored activeWorld 1%positive) _ _ _)))).
  - reflexivity.
  - vm_compute. reflexivity.
  - vm_compute. reflexivity.
Defined.

(** ** Tactics for the lookups after a request *)

Ltac goal_decide :=
  match goal with
  | |- context [@decide ?P ?dec] => destruct (@decide P dec); simplify_eq
  end.

Ltac known_lookup :=
  repeat match goal with
  | H : relationships ?w !! ?k = Some _ |- context [relationships ?w !! ?k] =>
      rewrite !H
  end.

(** ** The state machine of the lifecycle *)

Lemma setStats_same r : Relationship.setStats (Relationship.stats r) r = r.
Proof. by destruct r. Qed.

Lemma lifecycleStep_same op req k fresh o :
  lifecycleStep op req k fresh o o.
Proof.
  destruct o as [r|]; simpl; [|done].
  unfold keeps. split_and!; auto. case_match; [done | apply setStats_same].
Qed.

Lemma handle_lifecycle env req op (w : World) k :
  (∀ k r, relationships w !! k = Some r → (k < nextId w)%positive) →
  (nextId w ≤ nextId (handle env req op w).1)%positive
  ∧ lifecycleStep op req k (nextId w)
      (relationships w !! k) (relationships (handle env req op w).1 !! k).
Proof.
  intros Hfresh. destruct op.
  all: controller_cases.
  all: (split; [lia|]).
  all: try apply lifecycleStep_same.
  all: unfold Relationship_insert in *; repeat case_match; simplify_eq.
  all: rewrite ?alter_alter_eq.
  all: rewrite ?lookup_insert, ?lookup_delete, ?lookup_alter; goal_decide;
    try apply lifecycleStep_same.
  all: known_lookup.
  all: try (destruct (relationships w !! nextId w) as [r0|] eqn:Hn;
    [apply Hfresh in Hn; lia|]).
  all: try (destruct (relationships w !! _) as [r0|] eqn:Hn;
    [|apply lifecycleStep_same]).
  all: simpl; unfold keeps, proposed; simpl.
  all: try (split_and!; try done; eauto using transition).
  all: try match goal with
    | H : Relationship.status ?d = _ |- context [Relationship.status ?d] =>
        rewrite H; try done; eauto using transition
    end.
  all: try by destruct d.
  all: try by destruct d0.
  all: try by destruct r0.
  all: try (unfold datesConsistent; simpl;
    repeat match goal with
    | H : Relationship.status _ = _ |- _ => rewrite H
    end; intros [? ?]; split; congruence).
  all: guards; try done.
  all: try (intros Hvalid; unfold Relationship.validate in *; simpl;
    repeat match goal with
    | |- context [default _ ?o] => destruct o; simpl in *
    end; guards; rewrite ?andb_true_iff; split_and?; done).
  destruct (relationships w !! Activity.relationship d) as [r0|]; simpl; [|done].
  unfold keeps; simpl. split_and!; try done; auto. by destruct r0.
Qed.

Lemma reachable_fresh w k r :
  reachable w → relationships w !! k = Some r → (k < nextId w)%positive.
Proof. intros Hw. destruct (reachable_agreers w Hw) as (F & _). apply F. Qed.

Lemma reachable_lifecycle env req op w k :
  reachable w →
  (nextId w ≤ nextId (handle env req op w).1)%positive
  ∧ lifecycleStep op req k (nextId w)
      (relationships w !! k) (relationships (handle env req op w).1 !! k).
Proof. intros Hw. apply handle_lifecycle. intros ? ?. by apply reachable_fresh. Qed.

Lemma reachable_run requests w : reachable w → reachable (run requests w).
Proof.
  revert w. induction requests as [|[[env req] op] requests IH]; intros w Hw; [done|].
  apply IH. by apply reachable_step.
Qed.

Lemma reachable_pendingWorld : reachable pendingWorld.
Proof. apply reachable_step, reachable_empty. Qed.

Lemma reachable_activeWorld : reachable activeWorld.
Proof. unfold activeWorld. apply reachable_step, reachable_step, reachable_empty. Qed.

Lemma reachable_requestedWorld : reachable requestedWorld.
Proof. apply reachable_step, reachable_activeWorld. Qed.

Lemma reachable_endedWorld : reachable endedWorld.
Proof. apply reachable_step, reachable_requestedWorld. Qed.

(** X3.  One request moves the status of a stored relationship along one of
    the five transitions of the controllers or leaves it, and never changes
    the parties or the start date. *)
Theorem status_changes_along_transitions env req op w k r r' :
  reachable w →
  relationships w !! k = Some r →
  relationships (handle env req op w).1 !! k = Some r' →
  Relationship.initiator r' = Relationship.initiator r
  ∧ Relationship.partner r' = Relationship.partner r
  ∧ Relationship.startDate r' = Relationship.startDate r
  ∧ (Relationship.status r' = Relationship.status r
     ∨ transition (Relationship.status r) (Relationship.status r')).
Proof.
  intros Hw Hk Hk'. destruct (reachable_lifecycle env req op w k Hw) as [_ Hstep].
  rewrite Hk, Hk' in Hstep. destruct Hstep as (? & ? & ? & ? & ? & _). done.
Qed.

Lemma status_changes_along_transitions_witness :
  Relationship.initiator (stored requestedWorld 1%positive) = Relationship.initiator (stored activeWorld 1%positive)
  ∧ Relationship.partner (stored requestedWorld 1%positive) = Relationship.partner (stored activeWorld 1%positive)
  ∧ Relationship.startDate (stored requestedWorld 1%positive)
    = Relationship.startDate (stored activeWorld 1%positive)
  ∧ (Relationship.status (stored requestedWorld 1%positive) = Relationship.status (stored activeWorld 1%positive)
     ∨ transition (Relationship.status (stored activeWorld 1%positive))
         (Relationship.status (stored requestedWorld 1%positive))).
Proof.
  refine (status_changes_along_transitions (sinkOk 3000) (asUser userA)
            (RequestBreakup 1%positive) activeWorld 1%positive
            (stored activeWorld 1%positive) (stored requestedWorld 1%positive)
            reachable_activeWorld _ _).
  - vm_compute. reflexivity.
  - vm_compute. reflexivity.
Defined.

(** X4.  A relationship enters the store only as the pending proposal of
    the requester to somebody else, under an [_id] never used before. *)
Theorem relationship_enters_as_pending_proposal env req op w k r' :
  reachable w →
  relationships w !! k = None →
  relationships (handle env req op w).1 !! k = Some r' →
  k = nextId w
  ∧ Relationship.status r' = Relationship.pending
  ∧ Relationship.initiator r' = id (user req)
  ∧ Relationship.partner r' ≠ id (user req)
  ∧ Relationship.stats r'
    = {| Relationship.trustLevel := 50;
         Relationship.lastInteraction := Relationship.startDate r';
         Relationship.totalActivities := 0;
         Relationship.milestonesAchieved := 0 |}.
Proof.
  intros Hw Hk Hk'. destruct (reachable_lifecycle env req op w k Hw) as [_ Hstep].
  rewrite Hk, Hk' in Hstep. destruct Hstep as ((? & ? & ? & ? & ? & ? & ? & ?) & ?). done.
Qed.

Lemma relationship_enters_as_pending_proposal_witness :
  1%positive = nextId emptyWorld
  ∧ Relationship.status (stored pendingWorld 1%positive) = Relationship.pending
  ∧ Relationship.initiator (stored pendingWorld 1%positive) = id (user (asUser userA))
  ∧ Relationship.partner (stored pendingWorld 1%positive) ≠ id (user (asUser userA))
  ∧ Relationship.stats (stored pendingWorld 1%positive)
    = {| Relationship.trustLevel := 50;
         Relationship.lastInteraction := Relationship.startDate (stored pendingWorld 1%positive);
         Relationship.totalActivities := 0;
         Relationship.milestonesAchieved := 0 |}.
Proof.
  refine (relationship_enters_as_pending_proposal (sinkOk 1000) (asUser userA)
            (CreateRelationship friendship) emptyWorld 1%positive
            (stored pendingWorld 1%positive) reachable_empty _ _).
  - vm_compute. reflexivity.
  - vm_compute. reflexivity.
Defined.

(** X5.  No single request removes an active relationship: whatever the
    request, it is still stored afterwards, active, in a requested breakup
    or archived. *)
Theorem active_relationship_is_never_removed env req op w k r :
  reachable w →
  relationships w !! k = Some r →
  Relationship.status r = Relationship.active →
  ∃ r', relationships (handle env req op w).1 !! k = Some r'
        ∧ (Relationship.status r' = Relationship.active
           ∨ Relationship.status r' = Relationship.requested_breakup
           ∨ Relationship.status r' = Relationship.archived).
Proof.
  intros Hw Hk Hs. destruct (reachable_lifecycle env req op w k Hw) as [_ Hstep].
  rewrite Hk in Hstep.
  destruct (relationships (handle env req op w).1 !! k) as [r'|]; simpl in Hstep.
  - exists r'. split; [done|]. destruct Hstep as (_ & _ & _ & _ & [Hs'|Ht] & _).
    + left. congruence.
    + rewrite Hs in Ht. inversion Ht; auto.
  - by destruct Hstep as [? _].
Qed.

Lemma active_relationship_is_never_removed_witness :
  ∃ r', relationships
          (handle (sinkOk 3000) (asUser userA) (DeleteRelationship 1%positive)
             activeWorld).1 !! 1%positive = Some r'
        ∧ (Relationship.status r' = Relationship.active
           ∨ Relationship.status r' = Relationship.requested_breakup
           ∨ Relationship.status r' = Relationship.archived).
Proof.
  refine (active_relationship_is_never_removed (sinkOk 3000) (asUser userA)
            (DeleteRelationship 1%positive) activeWorld 1%positive
            (stored activeWorld 1%positive) reachable_activeWorld _ _).
  - vm_compute. reflexivity.
  - vm_compute. reflexivity.
Defined.

(** X6.  The requests of the relationship controller never touch the
    statistics of a relationship, and the requests of the other controllers
    touch nothing but its statistics and never remove it. *)
Theorem statistics_and_lifecycle_are_separate env req op w k r :
  reachable w →
  relationships w !! k = Some r →
  if isLifecycle op then
    ∀ r', relationships (handle env req op w).1 !! k = Some r' →
          Relationship.stats r' = Relationship.stats r
  else
    ∃ r', relationships (handle env req op w).1 !! k = Some r'
          ∧ Relationship.setStats (Relationship.stats r) r' = r.
Proof.
  intros Hw Hk. destruct (reachable_lifecycle env req op w k Hw) as [_ Hstep].
  rewrite Hk in Hstep.
  destruct (relationships (handle env req op w).1 !! k) as [r'|]; simpl in Hstep.
  - destruct Hstep as (_ & _ & _ & _ & _ & _ & _ & Hstats).
    destruct (isLifecycle op); [by intros ? [= <-] | by exists r'].
  - destruct Hstep as [_ ->]. done.
Qed.

Lemma statistics_and_lifecycle_are_separate_witness :
  ∃ r', relationships
          (handle (sinkOk 2500) (asUser userA) (CreateActivity (activity (-10)))
             activeWorld).1 !! 1%positive = Some r'
        ∧ Relationship.setStats (Relationship.stats (stored activeWorld 1%positive)) r'
          = stored activeWorld 1%positive.
Proof.
  refine (statistics_and_lifecycle_are_separate (sinkOk 2500) (asUser userA)
            (CreateActivity (activity (-10))) activeWorld 1%positive
            (stored activeWorld 1%positive) reachable_activeWorld _).
  vm_compute. reflexivity.
Defined.

Lemma reachable_relationship w k r :
  reachable w →
  relationships w !! k = Some r →
  Relationship.initiator r ≠ Relationship.partner r
  ∧ datesConsistent r
  ∧ Relationship.validate r = true.
Proof.
  intros Hw. revert k r. induction Hw as [|env req op w Hw IH]; intros k r' Hk'.
  - simpl in Hk'. by rewrite lookup_empty in Hk'.
  - destruct (reachable_lifecycle env req op w k Hw) as [_ Hstep].
    rewrite Hk' in Hstep.
    destruct (relationships w !! k) as [r|] eqn:Hk; simpl in Hstep.
    + destruct (IH k r Hk) as (Hne & Hd & Hv).
      destruct Hstep as (Hi & Hp & _ & _ & _ & Hd' & Hv' & _).
      rewrite Hi, Hp. auto.
    + destruct Hstep as ((Hs & Hi & Hp & _ & Ha & He & Hv & _) & _). split_and!.
      * congruence.
      * unfold datesConsistent. by rewrite Hs.
      * done.
Qed.

(** X7.  In every reachable state the two parties of a relationship are
    different users, [acceptedDate] is set exactly from the acceptance on
    and [endDate] exactly on ended and archived relationships, the document
    passes the validators of its schema and its trust level is within 0
    and 100. *)
Theorem parties_differ_and_dates_follow_status w k r :
  reachable w →
  relationships w !! k = Some r →
  Relationship.initiator r ≠ Relationship.partner r
  ∧ datesConsistent r
  ∧ Relationship.validate r = true
  ∧ (0 ≤ Relationship.trustLevel (Relationship.stats r) ≤ 100)%Z.
Proof.
  intros Hw Hk. destruct (reachable_relationship w k r Hw Hk) as (? & ? & ?).
  destruct (reachable_inv w Hw) as (_ & Hall & _). destruct (Hall k r Hk) as [_ ?].
  done.
Qed.

Lemma parties_differ_and_dates_follow_status_witness :
  Relationship.initiator (stored endedWorld 1%positive)
  ≠ Relationship.partner (stored endedWorld 1%positive)
  ∧ datesConsistent (stored endedWorld 1%positive)
  ∧ Relationship.validate (stored endedWorld 1%positive) = true
  ∧ (0 ≤ Relationship.trustLevel (Relationship.stats (stored endedWorld 1%positive))
     ≤ 100)%Z.
Proof.
  refine (parties_differ_and_dates_follow_status endedWorld 1%positive
            (stored endedWorld 1%positive) reachable_endedWorld _).
  vm_compute. reflexivity.
Defined.

(** X8.  An ended or archived relationship stays as it is through every
    sequence of requests: as long as it is stored, its status and its
    parties are the same, and its [_id] is never given to another
    relationship. *)
Theorem ended_and_archived_are_terminal requests w k r :
  reachable w →
  relationships w !! k = Some r →
  Relationship.status r = Relationship.ended
  ∨ Relationship.status r = Relationship.archived →
  match relationships (run requests w) !! k with
  | Some r' =>
      Relationship.status r' = Relationship.status r
      ∧ Relationship.initiator r' = Relationship.initiator r
      ∧ Relationship.partner r' = Relationship.partner r
  | None => True
  end.
Proof.
  intros Hw Hk Hs.
  assert (match relationships w !! k with
          | Some r' =>
              Relationship.status r' = Relationship.status r
              ∧ Relationship.initiator r' = Relationship.initiator r
              ∧ Relationship.partner r' = Relationship.partner r
          | None => (k < nextId w)%positive
          end) as Hinv by (by rewrite Hk).
  clear Hk. revert w Hw Hinv.
  induction requests as [|[[env req] op] requests IH]; intros w Hw Hinv.
  - simpl. by destruct (relationships w !! k).
  - simpl. apply IH; [by apply reachable_step|].
    destruct (reachable_lifecycle env req op w k Hw) as [Hid Hstep].
    destruct (relationships w !! k) as [r0|] eqn:Hk0;
      destruct (relationships (handle env req op w).1 !! k) as [r1|]; simpl in Hstep.
    + destruct Hinv as (Hs0 & Hi0 & Hp0).
      destruct Hstep as (Hi & Hp & _ & _ & [Hs1|Ht] & _).
      * split_and!; congruence.
      * rewrite Hs0 in Ht. destruct Hs as [Hs|Hs]; rewrite Hs in Ht; inversion Ht.
    + apply reachable_fresh in Hk0; [lia|done].
    + destruct Hstep as [_ ->]. lia.
    + lia.
Qed.

Lemma ended_and_archived_are_terminal_witness :
  match relationships
          (run [(sinkOk 5000, asUser userA, CancelBreakupRequest 1%positive);
                (sinkOk 5100, asUser userB, AcceptRelationship 1%positive);
                (sinkOk 5200, asUser userA, CreateRelationship friendship)]
             endedWorld) !! 1%positive with
  | Some r' =>
      Relationship.status r' = Relationship.status (stored endedWorld 1%positive)
      ∧ Relationship.initiator r' = Relationship.initiator (stored endedWorld 1%positive)
      ∧ Relationship.partner r' = Relationship.partner (stored endedWorld 1%positive)
  | None => True
  end.
Proof.
  refine (ended_and_archived_are_terminal
            [(sinkOk 5000, asUser userA, CancelBreakupRequest 1%positive);
             (sinkOk 5100, asUser userB, AcceptRelationship 1%positive);
             (sinkOk 5200, asUser userA, CreateRelationship friendship)]
            endedWorld 1%positive (stored endedWorld 1%positive)
            reachable_endedWorld _ _).
  - vm_compute. reflexivity.
  - left. vm_compute. reflexivity.
Defined.

(** ** The breakup and the removal of a relationship *)

(** X9.  While a breakup is requested each party has exactly one of the two
    answers: canceling is refused with 403 to everyone but the requester,
    and confirming is refused with 400 to the requester alone. *)
Theorem breakup_is_canceled_by_one_party_and_confirmed_by_the_other
    env req w k r requester :
  errors_isEmpty req = true →
  relationships w !! k = Some r →
  Relationship.includesUser r (id (user req)) = true →
  Relationship.status r = Relationship.requested_breakup →
  Relationship.breakupRequestedBy r = Some requester →
  (code (relationshipController.cancelBreakupRequest env req k w).2 = 403%Z
   ↔ id (user req) ≠ requester)
  ∧ (code (relationshipController.confirmBreakup env req k w).2 = 400%Z
     ↔ id (user req) = requester)
  ∧ (id (user req) ≠ requester →
     relationshipController.cancelBreakupRequest env req k w
     = (w, json 403 "Only the initiator can cancel the breakup request")).
Proof.
  intros Hv Hk Hin Hs Hq.
  unfold relationshipController.cancelBreakupRequest, relationshipController.confirmBreakup.
  rewrite Hv, Hk, Hin, Hs, Hq. simpl.
  rewrite ?(bool_decide_eq_true_2 (_ = _) eq_refl). simpl.
  unfold Notification_create_background, Notification_create.
  destruct (decide (requester = id (user req))) as [->|Hne].
  - rewrite ?(bool_decide_eq_true_2 (_ = _) eq_refl). simpl.
    split_and!; try done; try destruct (sinkUp env _); simpl.
    all: split; intros; first [done | congruence].
  - rewrite !(bool_decide_eq_false_2 _ Hne). simpl.
    split_and!; try done; try destruct (sinkUp env _); simpl.
    all: split; intros; first [done | congruence].
Qed.

Lemma breakup_is_canceled_by_one_party_and_confirmed_by_the_other_witness :
  relationshipController.cancelBreakupRequest (sinkOk 3500) (asUser userB) 1%positive
    requestedWorld
  = (requestedWorld, json 403 "Only the initiator can cancel the breakup request").
Proof.
  refine (proj2 (proj2 (breakup_is_canceled_by_one_party_and_confirmed_by_the_other
                          (sinkOk 3500) (asUser userB) requestedWorld 1%positive
                          (stored requestedWorld 1%positive) (id userA) _ _ _ _ _)) _).
  - reflexivity.
  - vm_compute. reflexivity.
  - vm_compute. reflexivity.
  - vm_compute. reflexivity.
  - vm_compute. reflexivity.
  - vm_compute. congruence.
Defined.

(** X10.  Requesting a breakup and canceling the request gives back the
    relationships exactly as they were, whether or not the Notification Sink
    takes the two notifications; the other stores are not touched. *)
Theorem request_then_cancel_restores_the_relationship env1 env2 req w k r :
  errors_isEmpty req = true →
  relationships w !! k = Some r →
  Relationship.includesUser r (id (user req)) = true →
  Relationship.status r = Relationship.active →
  Relationship.breakupRequestedBy r = None →
  let w' :=
    (relationshipController.cancelBreakupRequest env2 req k
       (relationshipController.requestBreakup env1 req k w).1).1 in
  relationships w' = relationships w
  ∧ terms w' = terms w ∧ milestones w' = milestones w
  ∧ activities w' = activities w ∧ certificates w' = certificates w.
Proof.
  intros Hv Hk Hin Hs Hq.
  unfold relationshipController.requestBreakup. rewrite Hv, Hk, Hin, Hs. simpl.
  assert (Relationship.setBreakupRequestedBy None
            (Relationship.setStatus Relationship.active
               (Relationship.setBreakupRequestedBy (Some (id (user req)))
                  (Relationship.setStatus Relationship.requested_breakup r))) = r) as Hback.
  { destruct r; simpl in *; by subst. }
  unfold relationshipController.cancelBreakupRequest,
    Notification_create_background, Notification_create.
  destruct (sinkUp env1 _); simpl.
  all: rewrite Hv, lookup_insert_eq; simpl.
  all: unfold Relationship.includesUser in *; simpl; rewrite Hin; simpl.
  all: rewrite ?(bool_decide_eq_true_2 (_ = _) eq_refl); simpl.
  all: rewrite Hback, insert_insert_eq, (insert_id _ _ _ Hk).
  all: destruct (sinkUp env2 _); simpl; done.
Qed.

Lemma request_then_cancel_restores_the_relationship_witness :
  relationships
    (relationshipController.cancelBreakupRequest (sinkDown 3100) (asUser userA) 1%positive
       (relationshipController.requestBreakup (sinkOk 3000) (asUser userA) 1%positive
          activeWorld).1).1
  = relationships activeWorld.
Proof.
  refine (proj1 (request_then_cancel_restores_the_relationship (sinkOk 3000) (sinkDown 3100)
                   (asUser userA) activeWorld 1%positive (stored activeWorld 1%positive)
                   _ _ _ _ _)).
  - reflexivity.
  - vm_compute. reflexivity.
  - vm_compute. reflexivity.
  - vm_compute. reflexivity.
  - vm_compute. reflexivity.
Defined.

(** X11.  Deleting archives an active relationship and removes any other
    one, so two deletions in a row by a party always leave nothing under
    the [_id]. *)
Theorem delete_archives_first_and_removes_then env1 env2 req w k r :
  errors_isEmpty req = true →
  relationships w !! k = Some r →
  Relationship.includesUser r (id (user req)) = true →
  let w1 := (relationshipController.deleteRelationship env1 req k w).1 in
  relationships w1 !! k
  = (if bool_decide (Relationship.status r = Relationship.active)
     then Some (Relationship.setEndDate (Some (now env1))
                  (Relationship.setStatus Relationship.archived r))
     else None)
  ∧ relationships (relationshipController.deleteRelationship env2 req k w1).1 !! k = None.
Proof.
  intros Hv Hk Hin w1. subst w1.
  assert (relationshipController.deleteRelationship env1 req k w
          = if bool_decide (Relationship.status r = Relationship.active)
            then (setRelationships
                    (<[k := Relationship.setEndDate (Some (now env1))
                              (Relationship.setStatus Relationship.archived r)]>
                       (relationships w)) w,
                  json 200 "Relationship archived successfully")
            else (setRelationships (delete k (relationships w)) w,
                  json 200 "Relationship deleted successfully")) as ->.
  { unfold relationshipController.deleteRelationship. by rewrite Hv, Hk, Hin. }
  unfold relationshipController.deleteRelationship. rewrite Hv. simpl.
  case_bool_decide as Hs; simpl.
  - rewrite lookup_insert_eq. split; [done|].
    unfold Relationship.includesUser in *. simpl. rewrite Hin. simpl.
    apply lookup_delete_eq.
  - rewrite lookup_delete_eq. split; [done|]. simpl. apply lookup_delete_eq.
Qed.

Lemma delete_archives_first_and_removes_then_witness :
  relationships
    (relationshipController.deleteRelationship (sinkOk 6100) (asUser userB) 1%positive
       (relationshipController.deleteRelationship (sinkOk 6000) (asUser userB) 1%positive
          activeWorld).1).1 !! 1%positive
  = None.
Proof.
  refine (proj2 (delete_archives_first_and_removes_then (sinkOk 6000) (sinkOk 6100)
                   (asUser userB) activeWorld 1%positive (stored activeWorld 1%positive)
                   _ _ _)).
  - reflexivity.
  - vm_compute. reflexivity.
  - vm_compute. reflexivity.
Defined.

(** ** The steps of the terms, the milestones and the activities *)

Lemma termStep_same req k fresh o : termStep req k fresh o o.
Proof.
  destruct o as [t|]; simpl; [|done].
  split_and!; auto; try by destruct t.
  exists []. by rewrite app_nil_r.
Qed.

Lemma milestoneStep_same env req k fresh o : milestoneStep env req k fresh o o.
Proof.
  destruct o as [m|]; simpl; [|done].
  split_and!; auto; try by destruct m.
  exists []. by rewrite app_nil_r.
Qed.

Lemma activityStep_same req k fresh o : activityStep req k fresh o o.
Proof.
  destruct o as [a|]; simpl; [|done].
  split_and!; auto; try by destruct a.
  exists []. by rewrite app_nil_r.
Qed.

(** A step at one [_id] of a store is a step of the store at every [_id]. *)
Section store_steps.
Context {A : Type} (P : ObjectId → option A → option A → Prop).
Hypothesis P_same : ∀ k o, P k o o.

Lemma step_insert (store : gmap ObjectId A) k x x' k0 :
  store !! k = Some x → P k (Some x) (Some x') →
  P k0 (store !! k0) (<[k := x']> store !! k0).
Proof.
  intros Hk Hstep. destruct (decide (k = k0)) as [<-|Hne].
  - by rewrite lookup_insert_eq, Hk.
  - by rewrite lookup_insert_ne.
Qed.

Lemma step_create (store : gmap ObjectId A) k x' k0 :
  store !! k = None → P k None (Some x') →
  P k0 (store !! k0) (<[k := x']> store !! k0).
Proof.
  intros Hk Hstep. destruct (decide (k = k0)) as [<-|Hne].
  - by rewrite lookup_insert_eq, Hk.
  - by rewrite lookup_insert_ne.
Qed.

Lemma step_delete (store : gmap ObjectId A) k x k0 :
  store !! k = Some x → P k (Some x) None →
  P k0 (store !! k0) (delete k store !! k0).
Proof.
  intros Hk Hstep. destruct (decide (k = k0)) as [<-|Hne].
  - by rewrite lookup_delete_eq, Hk.
  - by rewrite lookup_delete_ne.
Qed.
End store_steps.

Lemma fresh_None {A} (store : gmap ObjectId A) (n : ObjectId) :
  (∀ k x, store !! k = Some x → (k < n)%positive) → store !! n = None.
Proof.
  intros F. destruct (store !! n) as [x|] eqn:Hn; [|done]. apply F in Hn. lia.
Qed.

Lemma guard_party (r : Relationship.doc) u :
  negb (bool_decide (Relationship.initiator r = u))
  && negb (bool_decide (Relationship.partner r = u)) = false →
  Relationship.includesUser r u = true.
Proof.
  unfold Relationship.includesUser.
  destruct (bool_decide (Relationship.initiator r = u)); [done|].
  by destruct (bool_decide (Relationship.partner r = u)).
Qed.

Lemma forallb_snoc {A} (f : A → bool) l x :
  forallb f l = true → f x = true → forallb f (l ++ [x]) = true.
Proof. intros Hl Hx. rewrite forallb_app, Hl. simpl. by rewrite Hx. Qed.

Lemma forallb_filter_true {A} (f : A → bool) (P : A → Prop) `{∀ x, Decision (P x)} l :
  forallb f l = true → forallb f (filter P l) = true.
Proof.
  induction l as [|x l IH]; simpl; [done|].
  intros [Hx Hl]%andb_prop. rewrite filter_cons.
  destruct (decide (P x)); simpl; [rewrite Hx|]; auto.
Qed.

(** [complete] enters the user among the participants, each once. *)
Lemma complete_participant now u m :
  u ∈ Milestone.participant <$> Milestone.participants (Milestone.complete now u m).
Proof.
  unfold Milestone.complete. simpl.
  destruct (find _ (Milestone.participants m)) as [p|] eqn:Hfind.
  - apply find_some in Hfind as [Hin Hp]. apply bool_decide_eq_true_1 in Hp.
    apply list_elem_of_fmap. exists p. split; [done|]. by apply list_elem_of_In.
  - rewrite fmap_app. apply elem_of_app. right. simpl. apply list_elem_of_here.
Qed.

Lemma complete_consistent now u m :
  milestoneConsistent m → milestoneConsistent (Milestone.complete now u m).
Proof.
  intros [_ Hnd]. pose proof (complete_participant now u m) as Hin.
  unfold Milestone.complete, milestoneConsistent in *. simpl in *.
  destruct (find _ (Milestone.participants m)) as [p|] eqn:Hfind.
  - split; [right; split_and!; [done..|]|done].
    intros Hnil. rewrite Hnil in Hin. by apply elem_of_nil in Hin.
  - split; [right; split_and!; [done..|]|].
    + by destruct (Milestone.participants m).
    + rewrite fmap_app. apply NoDup_app. split_and!; [done| |apply NoDup_singleton].
      intros x Hx Hx'%list_elem_of_singleton. subst x.
      apply list_elem_of_fmap in Hx as (p & Hp & Hp').
      apply list_elem_of_In in Hp'.
      pose proof (find_none _ _ Hfind p Hp') as Hno. simpl in Hno.
      apply bool_decide_eq_false_1 in Hno. done.
Qed.

Lemma required_length s : (String.length s =? 0)%nat = false → required s = true.
Proof. by destruct s. Qed.

(** [addReaction] leaves the reactions of the others, and one of the user. *)
Lemma addReaction_others now u ty a :
  filter (λ r, Activity.reactionUser r ≠ u)
    (Activity.reactions (Activity.addReaction now u ty a))
  = filter (λ r, Activity.reactionUser r ≠ u) (Activity.reactions a).
Proof.
  unfold Activity.addReaction. simpl. rewrite filter_app. simpl.
  rewrite filter_cons. simpl. destruct (decide (u ≠ u)); [done|].
  rewrite filter_nil, app_nil_r.
  induction (Activity.reactions a) as [|r l IH]; [done|].
  rewrite !filter_cons. destruct (decide (Activity.reactionUser r ≠ u)); simpl.
  - rewrite filter_cons. destruct (decide (Activity.reactionUser r ≠ u)); [|done].
    by rewrite IH.
  - done.
Qed.

Lemma addReaction_consistent now u ty a :
  activityConsistent a → activityConsistent (Activity.addReaction now u ty a).
Proof.
  unfold activityConsistent, Activity.addReaction. simpl. intros Hnd.
  rewrite fmap_app. apply NoDup_app. split_and!.
  - induction (Activity.reactions a) as [|r l IH]; [apply NoDup_nil_2|].
    simpl in Hnd. apply NoDup_cons in Hnd as [Hr Hl]. rewrite filter_cons.
    destruct (decide (Activity.reactionUser r ≠ u)); [|auto].
    simpl. apply NoDup_cons. split; [|auto].
    intros (r' & Hr' & Hin)%list_elem_of_fmap. apply list_elem_of_filter in Hin as [_ Hin].
    apply Hr. apply list_elem_of_fmap. by exists r'.
  - intros x (r & -> & Hin)%list_elem_of_fmap Hx%list_elem_of_singleton.
    apply list_elem_of_filter in Hin as [Hne _]. done.
  - apply NoDup_singleton.
Qed.

Lemma addReaction_valid now u ty a :
  enum Activity.reactionEnum ty = true →
  Activity.validate a = true →
  Activity.validate (Activity.addReaction now u ty a) = true.
Proof.
  unfold Activity.validate, Activity.addReaction. simpl. intros Hty Hvalid.
  repeat (apply andb_prop in Hvalid as [Hvalid ?]).
  rewrite !andb_true_iff. split_and!; try done; try (by apply andb_true_iff).
  apply forallb_snoc; [by apply forallb_filter_true | done].
Qed.

Lemma addComment_valid now u s a :
  (String.length s =? 0)%nat = false →
  maxlength 500 s = true →
  Activity.validate a = true →
  Activity.validate (Activity.addComment now u s a) = true.
Proof.
  unfold Activity.validate, Activity.addComment. simpl. intros Hs Hlen Hvalid.
  repeat (apply andb_prop in Hvalid as [Hvalid ?]).
  rewrite !andb_true_iff. split_and!; try done; try (by apply andb_true_iff).
  apply forallb_snoc; [done|]. unfold Activity.validComment. simpl.
  by rewrite (required_length _ Hs), Hlen.
Qed.

Ltac store_step :=
  match goal with
  | H : ?store !! ?k = Some ?x |- termStep ?req _ ?n _ (<[?k := ?x']> ?store !! ?k0) =>
      apply (step_insert (λ k, termStep req k n) (λ k o, termStep_same req k n o)
               store k x x' k0 H)
  | H : ?store !! ?k = Some ?x |- termStep ?req _ ?n _ (delete ?k ?store !! ?k0) =>
      apply (step_delete (λ k, termStep req k n) (λ k o, termStep_same req k n o)
               store k x k0 H)
  | |- termStep ?req _ ?n _ (<[?n := ?x']> ?store !! ?k0) =>
      apply (step_create (λ k, termStep req k n) (λ k o, termStep_same req k n o)
               store n x' k0); [by apply fresh_None|]
  | H : ?store !! ?k = Some ?x
    |- milestoneStep ?env ?req _ ?n _ (<[?k := ?x']> ?store !! ?k0) =>
      apply (step_insert (λ k, milestoneStep env req k n)
               (λ k o, milestoneStep_same env req k n o) store k x x' k0 H)
  | H : ?store !! ?k = Some ?x
    |- milestoneStep ?env ?req _ ?n _ (delete ?k ?store !! ?k0) =>
      apply (step_delete (λ k, milestoneStep env req k n)
               (λ k o, milestoneStep_same env req k n o) store k x k0 H)
  | |- milestoneStep ?env ?req _ ?n _ (<[?n := ?x']> ?store !! ?k0) =>
      apply (step_create (λ k, milestoneStep env req k n)
               (λ k o, milestoneStep_same env req k n o) store n x' k0);
      [by apply fresh_None|]
  | H : ?store !! ?k = Some ?x |- activityStep ?req _ ?n _ (<[?k := ?x']> ?store !! ?k0) =>
      apply (step_insert (λ k, activityStep req k n) (λ k o, activityStep_same req k n o)
               store k x x' k0 H)
  | H : ?store !! ?k = Some ?x |- activityStep ?req _ ?n _ (delete ?k ?store !! ?k0) =>
      apply (step_delete (λ k, activityStep req k n) (λ k o, activityStep_same req k n o)
               store k x k0 H)
  | |- activityStep ?req _ ?n _ (<[?n := ?x']> ?store !! ?k0) =>
      apply (step_create (λ k, activityStep req k n) (λ k o, activityStep_same req k n o)
               store n x' k0); [by apply fresh_None|]
  end.

Lemma handle_dependents env req op w :
  freshDependents w →
  agreedByBoth w →
  freshDependents (handle env req op w).1
  ∧ ∀ k,
      termStep req k (nextId w) (terms w !! k) (terms (handle env req op w).1 !! k)
      ∧ milestoneStep env req k (nextId w)
          (milestones w !! k) (milestones (handle env req op w).1 !! k)
      ∧ activityStep req k (nextId w)
          (activities w !! k) (activities (handle env req op w).1 !! k).
Proof.
  intros (F1 & F2 & F3) Hboth. destruct op.
  all: controller_cases.
  all: split; [unfold freshDependents; simpl; split_and!; intros k0 x0 Hk0; lookups;
                 fresh_keys F1 F1;
                 repeat match goal with
                 | H : activities _ !! _ = Some _ |- _ => apply F3 in H
                 | H : milestones _ !! _ = Some _ |- _ => apply F2 in H
                 end; lia
              | intros k0; split_and!;
                  try apply termStep_same; try apply milestoneStep_same;
                  try apply activityStep_same].
  all: store_step; simpl.
  all: split_and?; try done.
  all: try (by exists []; rewrite app_nil_r).
  all: try (by eexists [_]; split; [|repeat constructor]).
  all: try (by intros ?; destruct d).
  all: try (first [by left | by (right; left) | by (right; right)]).
  all: try (intros Hag; exfalso;
    match goal with
    | Ht : terms ?w !! ?k = Some ?d,
      Hr : relationships ?w !! Term.relationship ?d = Some ?r,
      Hn : Term.hasUserAgreed ?d ?u = false |- _ =>
        assert (Relationship.includesUser r u = true) as Hin
          by (unfold Relationship.includesUser; apply orb_true_iff;
              first [left; by apply bool_decide_eq_true_2
                    | right; by apply bool_decide_eq_true_2]);
        rewrite (Hboth k d r u Ht Hag Hr Hin) in Hn; done
    end).
  all: try (right; split_and!; [done..|]; apply complete_participant).
  all: try apply complete_consistent.
  all: try apply addReaction_others.
  all: try apply addReaction_consistent.
  all: try (intros Hvalid;
    unfold Term.validate, Milestone.validate, Activity.validate in *; simpl;
    repeat match goal with
    | |- context [default _ ?o] => destruct o; simpl in *
    end; guards; rewrite ?forallb_app; simpl;
    rewrite ?andb_true_iff; split_and?; done).
  - by apply addReaction_valid.
  - apply orb_false_iff in H0 as [_ H0]. by apply addComment_valid.
Qed.

(** ** What holds of the terms, the milestones and the activities *)

Lemma both_of_two (l : list ObjectId) a b u :
  NoDup l → 2 ≤ length l → (∀ x, x ∈ l → x = a ∨ x = b) → u = a ∨ u = b → u ∈ l.
Proof.
  intros Hnd Hlen Hin Hu.
  destruct l as [|x [|y l]]; simpl in Hlen; [lia..|].
  apply NoDup_cons in Hnd as [Hxy _]. rewrite not_elem_of_cons in Hxy.
  destruct Hxy as [Hxy _].
  assert (x = a ∨ x = b) as Hx by (apply Hin; rewrite !elem_of_cons; auto).
  assert (y = a ∨ y = b) as Hy by (apply Hin; rewrite !elem_of_cons; auto).
  destruct Hx, Hy, Hu; subst; try done; rewrite !elem_of_cons; auto.
Qed.

Lemma includesUser_iff r u :
  Relationship.includesUser r u = true
  ↔ Relationship.initiator r = u ∨ Relationship.partner r = u.
Proof.
  unfold Relationship.includesUser.
  rewrite orb_true_iff, !bool_decide_eq_true. done.
Qed.

Lemma reachable_agreedByBoth w : reachable w → agreedByBoth w.
Proof.
  intros Hw k t r u Ht Hs Hr Hu.
  destruct (reachable_inv w Hw) as (_ & _ & Hcons & _).
  destruct (reachable_agreers w Hw) as (_ & _ & P).
  destruct (Hcons k t Ht) as [Hnd Hagreed].
  destruct (Term.hasUserAgreed t u) eqn:Hno; [done|].
  apply hasUserAgreed_false in Hno. destruct Hno.
  apply (both_of_two _ (Relationship.initiator r) (Relationship.partner r)).
  - done.
  - rewrite length_fmap. by apply Hagreed.
  - intros x Hx. pose proof (P k t r x Ht Hr Hx) as Hp.
    apply includesUser_iff in Hp. destruct Hp; auto.
  - apply includesUser_iff in Hu. destruct Hu; auto.
Qed.

Lemma reachable_freshDependents w : reachable w → freshDependents w.
Proof.
  induction 1 as [|env req op w Hw IH].
  - split_and!; intros k x Hk; simpl in Hk; by rewrite lookup_empty in Hk.
  - by apply handle_dependents, reachable_agreedByBoth.
Qed.

Lemma reachable_dependents env req op w k :
  reachable w →
  termStep req k (nextId w) (terms w !! k) (terms (handle env req op w).1 !! k)
  ∧ milestoneStep env req k (nextId w)
      (milestones w !! k) (milestones (handle env req op w).1 !! k)
  ∧ activityStep req k (nextId w)
      (activities w !! k) (activities (handle env req op w).1 !! k).
Proof.
  intros Hw.
  by apply handle_dependents; [apply reachable_freshDependents
                              | apply reachable_agreedByBoth].
Qed.

(** X12.  A term that both parties have agreed to stays stored and agreed
    through every sequence of requests: nothing of it changes any more but
    the list of reported violations. *)
Theorem agreed_terms_are_frozen requests w k t :
  reachable w →
  terms w !! k = Some t →
  Term.status t = Term.agreed →
  ∃ t', terms (run requests w) !! k = Some t'
        ∧ Term.setViolations (Term.violations t) t' = t.
Proof.
  intros Hw Hk Hs.
  assert (∃ t', terms w !! k = Some t'
                ∧ Term.setViolations (Term.violations t) t' = t) as Hinv.
  { exists t. split; [done|]. by destruct t. }
  clear Hk. revert w Hw Hinv.
  induction requests as [|[[env req] op] requests IH]; intros w Hw Hinv; [done|].
  simpl. apply IH; [by apply reachable_step|].
  destruct Hinv as (t1 & Hk1 & Ht1).
  assert (Term.status t1 = Term.agreed) as Hs1 by (by rewrite <- Hs, <- Ht1).
  destruct (reachable_dependents env req op w k Hw) as (Hstep & _ & _).
  rewrite Hk1 in Hstep.
  destruct (terms (handle env req op w).1 !! k) as [t2|]; simpl in Hstep.
  - exists t2. split; [done|]. destruct Hstep as (_ & _ & _ & Hfrozen & _).
    rewrite <- Ht1 at 2. rewrite <- (Hfrozen Hs1). by destruct t2.
  - by destruct Hstep as [_ ?].
Qed.

Lemma agreed_terms_are_frozen_witness :
  ∃ t', terms
          (run [(sinkOk 2400, asUser userA,
                 UpdateTerm 2%positive
                   {| termController.newTitle := Some "Daily call";
                      termController.newDescription := None;
                      termController.newCategory := None;
                      termController.newPriority := None;
                      termController.newExpiresAt := None |});
                (sinkOk 2500, asUser userB, ReportViolation 2%positive None None);
                (sinkOk 2600, asUser userA, DeleteTerm 2%positive)]
             agreedTermWorld) !! 2%positive = Some t'
        ∧ Term.setViolations (Term.violations (storedTerm agreedTermWorld 2%positive)) t'
          = storedTerm agreedTermWorld 2%positive.
Proof.
  refine (agreed_terms_are_frozen
            [(sinkOk 2400, asUser userA,
              UpdateTerm 2%positive
                {| termController.newTitle := Some "Daily call";
                   termController.newDescription := None;
                   termController.newCategory := None;
                   termController.newPriority := None;
                   termController.newExpiresAt := None |});
             (sinkOk 2500, asUser userB, ReportViolation 2%positive None None);
             (sinkOk 2600, asUser userA, DeleteTerm 2%positive)]
            agreedTermWorld 2%positive (storedTerm agreedTermWorld 2%positive) _ _ _).
  - unfold agreedTermWorld. apply reachable_step, reachable_step, reachable_termWorld.
  - vm_compute. reflexivity.
  - vm_compute. reflexivity.
Defined.



(** X14.  Every document that the requests leave in the stores of the
    terms, the milestones and the activities passes the validators of its
    schema. *)
Theorem stored_documents_pass_their_schema w :
  reachable w →
  map_Forall (λ _ t, Term.validate t = true) (terms w)
  ∧ map_Forall (λ _ m, Milestone.validate m = true) (milestones w)
  ∧ map_Forall (λ _ a, Activity.validate a = true) (activities w).
Proof.
  induction 1 as [|env req op w Hw (IHt & IHm & IHa)].
  - split_and!; apply map_Forall_empty.
  - split_and!; intros k x' Hk';
      destruct (reachable_dependents env req op w k Hw) as (Ht & Hm & Ha).
    + rewrite Hk' in Ht. destruct (terms w !! k) as [x|] eqn:Hk; simpl in Ht.
      * destruct Ht as (_ & _ & _ & _ & _ & _ & Hv). apply Hv. by apply (IHt k).
      * by destruct Ht as (_ & _ & _ & _ & _ & ?).
    + rewrite Hk' in Hm. destruct (milestones w !! k) as [x|] eqn:Hk; simpl in Hm.
      * destruct Hm as (_ & _ & _ & _ & _ & Hv). apply Hv. by apply (IHm k).
      * by destruct Hm as (_ & _ & _ & _ & _ & ?).
    + rewrite Hk' in Ha. destruct (activities w !! k) as [x|] eqn:Hk; simpl in Ha.
      * destruct Ha as (_ & _ & _ & _ & _ & _ & Hv). apply Hv. by apply (IHa k).
      * by destruct Ha as (_ & _ & _ & _ & ?).
Qed.

Lemma stored_documents_pass_their_schema_witness :
  map_Forall (λ _ t, Term.validate t = true) (terms commentedWorld)
  ∧ map_Forall (λ _ m, Milestone.validate m = true) (milestones commentedWorld)
  ∧ map_Forall (λ _ a, Activity.validate a = true) (activities commentedWorld).
Proof.
  apply stored_documents_pass_their_schema.
  unfold commentedWorld, activityWorld.
  apply reachable_step, reachable_step, reachable_step, reachable_activeWorld.
Defined.

(** X15.  In every reachable state a milestone is pending or completed,
    completed exactly when it has its completion date, with one entry per
    participant; an activity has at most one reaction per user; and a term
    is proposed, modified or agreed. *)
Theorem dependents_are_consistent w :
  reachable w →
  map_Forall (λ _ t, Term.status t = Term.proposed ∨ Term.status t = Term.modified
                     ∨ Term.status t = Term.agreed) (terms w)
  ∧ map_Forall (λ _ m, milestoneConsistent m) (milestones w)
  ∧ map_Forall (λ _ a, activityConsistent a) (activities w).
Proof.
  induction 1 as [|env req op w Hw (IHt & IHm & IHa)].
  - split_and!; apply map_Forall_empty.
  - split_and!; intros k x' Hk';
      destruct (reachable_dependents env req op w k Hw) as (Ht & Hm & Ha).
    + rewrite Hk' in Ht. destruct (terms w !! k) as [x|] eqn:Hk; simpl in Ht.
      * destruct Ht as (_ & _ & _ & _ & _ & [->|[->| [-> _]]] & _); auto.
        by apply (IHt k).
      * destruct Ht as (_ & _ & -> & _). auto.
    + rewrite Hk' in Hm. destruct (milestones w !! k) as [x|] eqn:Hk; simpl in Hm.
      * destruct Hm as (_ & _ & _ & _ & Hc & _). apply Hc. by apply (IHm k).
      * destruct Hm as (_ & Hs & Hd & Hp & _). unfold milestoneConsistent.
        rewrite Hp. split; [by left | apply NoDup_nil_2].
    + rewrite Hk' in Ha. destruct (activities w !! k) as [x|] eqn:Hk; simpl in Ha.
      * destruct Ha as (_ & _ & _ & _ & _ & Hc & _). apply Hc. by apply (IHa k).
      * destruct Ha as (_ & _ & Hr & _). unfold activityConsistent.
        rewrite Hr. apply NoDup_nil_2.
Qed.

Lemma dependents_are_consistent_witness :
  map_Forall (λ _ t, Term.status t = Term.proposed ∨ Term.status t = Term.modified
                     ∨ Term.status t = Term.agreed) (terms completedWorld)
  ∧ map_Forall (λ _ m, milestoneConsistent m) (milestones completedWorld)
  ∧ map_Forall (λ _ a, activityConsistent a) (activities completedWorld).
Proof.
  apply dependents_are_consistent.
  unfold completedWorld. apply reachable_step, reachable_step, reachable_activeWorld.
Defined.

(** X16.  The histories are append-only and signed: one request adds
    violations, evidence and comments only at the end of the lists and only
    in the name of its user, and it leaves the reactions of everybody
    else. *)
Theorem histories_grow_in_the_name_of_the_requester env req op w k :
  reachable w →
  (∀ t t', terms w !! k = Some t → terms (handle env req op w).1 !! k = Some t' →
     ∃ vs, Term.violations t' = Term.violations t ++ vs
           ∧ Forall (λ v, Term.reportedBy v = id (user req)) vs)
  ∧ (∀ m m', milestones w !! k = Some m →
       milestones (handle env req op w).1 !! k = Some m' →
       ∃ es, Milestone.evidence m' = Milestone.evidence m ++ es
             ∧ Forall (λ e, Milestone.uploadedBy e = id (user req)) es)
  ∧ (∀ a a', activities w !! k = Some a →
       activities (handle env req op w).1 !! k = Some a' →
       (∃ cs, Activity.comments a' = Activity.comments a ++ cs
              ∧ Forall (λ c, Activity.commentUser c = id (user req)) cs)
       ∧ filter (λ r, Activity.reactionUser r ≠ id (user req)) (Activity.reactions a')
         = filter (λ r, Activity.reactionUser r ≠ id (user req)) (Activity.reactions a)).
Proof.
  intros Hw. destruct (reachable_dependents env req op w k Hw) as (Ht & Hm & Ha).
  split_and!.
  - intros t t' Hk Hk'. rewrite Hk, Hk' in Ht. by destruct Ht as (_ & _ & ? & _).
  - intros m m' Hk Hk'. rewrite Hk, Hk' in Hm. by destruct Hm as (_ & ? & _).
  - intros a a' Hk Hk'. rewrite Hk, Hk' in Ha. by destruct Ha as (_ & _ & ? & ? & _).
Qed.

Lemma histories_grow_in_the_name_of_the_requester_witness :
  ∃ cs, Activity.comments (storedActivity commentedWorld 2%positive)
        = Activity.comments
            (storedActivity
               (handle (sinkOk 2200) (asUser userB) (AddReaction 2%positive (Some "love"))
                  activityWorld).1 2%positive) ++ cs
        ∧ Forall (λ c, Activity.commentUser c = id (user (asUser userB))) cs.
Proof.
  refine (proj1 (proj2 (proj2 (histories_grow_in_the_name_of_the_requester
                                 (sinkOk 2300) (asUser userB)
                                 (AddComment 2%positive (Some " Well done "))
                                 (handle (sinkOk 2200) (asUser userB)
                                    (AddReaction 2%positive (Some "love")) activityWorld).1
                                 2%positive _)) _ _ _ _)).
  - unfold activityWorld. apply reachable_step, reachable_step, reachable_activeWorld.
  - vm_compute. reflexivity.
  - vm_compute. reflexivity.
Defined.

(** X17.  Only the creator edits or deletes: after the request of anybody
    else a term is still stored and differs at most in its agreement and
    its violations, and an activity is still stored and differs at most in
    its reactions and its comments. *)
Theorem only_the_creator_edits_or_deletes env req op w k :
  reachable w →
  (∀ t, terms w !! k = Some t → Term.createdBy t ≠ id (user req) →
     ∃ t', terms (handle env req op w).1 !! k = Some t'
           ∧ Term.setAgreement (Term.status t) (Term.agreedBy t)
               (Term.setViolations (Term.violations t) t') = t)
  ∧ (∀ a, activities w !! k = Some a → Activity.createdBy a ≠ id (user req) →
       ∃ a', activities (handle env req op w).1 !! k = Some a'
             ∧ Activity.setComments (Activity.comments a)
                 (Activity.setReactions (Activity.reactions a) a') = a).
Proof.
  intros Hw. destruct (reachable_dependents env req op w k Hw) as (Ht & _ & Ha).
  split.
  - intros t Hk Hne. rewrite Hk in Ht.
    destruct (terms (handle env req op w).1 !! k) as [t'|]; simpl in Ht.
    + exists t'. split; [done|]. destruct Ht as (_ & _ & _ & _ & Hother & _). auto.
    + by destruct Ht as [? _].
  - intros a Hk Hne. rewrite Hk in Ha.
    destruct (activities (handle env req op w).1 !! k) as [a'|]; simpl in Ha.
    + exists a'. split; [done|]. destruct Ha as (_ & _ & _ & _ & Hother & _). auto.
    + done.
Qed.

Lemma only_the_creator_edits_or_deletes_witness :
  ∃ a', activities
          (handle (sinkOk 2600) (asUser userB) (DeleteActivity 2%positive)
             commentedWorld).1 !! 2%positive = Some a'
        ∧ Activity.setComments (Activity.comments (storedActivity commentedWorld 2%positive))
            (Activity.setReactions
               (Activity.reactions (storedActivity commentedWorld 2%positive)) a')
          = storedActivity commentedWorld 2%positive.
Proof.
  refine (proj2 (only_the_creator_edits_or_deletes (sinkOk 2600) (asUser userB)
                   (DeleteActivity 2%positive) commentedWorld 2%positive _)
            (storedActivity commentedWorld 2%positive) _ _).
  - unfold commentedWorld, activityWorld.
    apply reachable_step, reachable_step, reachable_step, reachable_activeWorld.
  - vm_compute. reflexivity.
  - vm_compute. congruence.
Defined.

(** ** Terms: reset and agreement *)

(** X18.  An update of a term that gets through resets the agreement
    exactly when it carries one of the allowed keys: then the term is
    [modified] with nobody's agreement, otherwise it is stored unchanged. *)
Theorem updateTerm_resets_the_agreement env req w k b t :
  terms w !! k = Some t →
  code (termController.updateTerm env req k b w).2 = 200%Z →
  ∃ t', terms (termController.updateTerm env req k b w).1 !! k = Some t'
        ∧ if (0 <? given (termController.newTitle b)
                   + given (termController.newDescription b)
                   + given (termController.newCategory b)
                   + given (termController.newPriority b)
                   + given (termController.newExpiresAt b))%nat
          then Term.status t' = Term.modified ∧ Term.agreedBy t' = []
          else t' = t.
Proof.
  intros Hk. unfold termController.updateTerm, catch. rewrite Hk.
  repeat case_match; simpl; try done; intros _; rewrite lookup_insert_eq.
  all: eexists; split; [done|]; simpl; try done.
  all: destruct b as [[?|] [?|] [?|] [?|] [?|]]; simpl in *; try done.
  all: by destruct t.
Qed.

Lemma updateTerm_resets_the_agreement_witness :
  ∃ t', terms
          (termController.updateTerm (sinkOk 2250) (asUser userA) 2%positive
             {| termController.newTitle := None;
                termController.newDescription := None;
                termController.newCategory := None;
                termController.newPriority := Some "high";
                termController.newExpiresAt := None |}
             (handle (sinkOk 2200) (asUser userB) (AgreeTerm 2%positive None)
                termWorld).1).1 !! 2%positive = Some t'
        ∧ Term.status t' = Term.modified ∧ Term.agreedBy t' = [].
Proof.
  refine (updateTerm_resets_the_agreement (sinkOk 2250) (asUser userA)
            (handle (sinkOk 2200) (asUser userB) (AgreeTerm 2%positive None) termWorld).1
            2%positive
            {| termController.newTitle := None;
               termController.newDescription := None;
               termController.newCategory := None;
               termController.newPriority := Some "high";
               termController.newExpiresAt := None |}
            (storedTerm
               (handle (sinkOk 2200) (asUser userB) (AgreeTerm 2%positive None)
                  termWorld).1 2%positive) _ _).
  - vm_compute. reflexivity.
  - vm_compute. reflexivity.
Defined.

(** X19.  When nobody has agreed yet, the agreement of one party leaves the
    status as it is and the agreement of the other party makes the term
    [agreed], whether or not the Notification Sink takes the
    notifications. *)
Theorem both_agreements_make_the_term_agreed env1 env2 req1 req2 sig1 sig2 w k t r :
  errors_isEmpty req1 = true →
  errors_isEmpty req2 = true →
  terms w !! k = Some t →
  relationships w !! Term.relationship t = Some r →
  Relationship.includesUser r (id (user req1)) = true →
  Relationship.includesUser r (id (user req2)) = true →
  id (user req1) ≠ id (user req2) →
  Term.agreedBy t = [] →
  let w1 := (termController.agreeTerm env1 req1 k sig1 w).1 in
  let w2 := (termController.agreeTerm env2 req2 k sig2 w1).1 in
  (∃ t1, terms w1 !! k = Some t1
         ∧ Term.status t1 = Term.status t
         ∧ Term.agreedUser <$> Term.agreedBy t1 = [id (user req1)])
  ∧ (∃ t2, terms w2 !! k = Some t2
           ∧ Term.status t2 = Term.agreed
           ∧ Term.agreedUser <$> Term.agreedBy t2 = [id (user req1); id (user req2)]).
Proof.
  intros Hv1 Hv2 Hk Hr Hin1 Hin2 Hne Hnil w1 w2.
  set (e1 := {| Term.agreedUser := id (user req1); Term.agreedAt := now env1;
                Term.signature :=
                  if truthyString sig1 then default "" sig1
                  else firstName (user req1) +:+ " " +:+ lastName (user req1) |}).
  set (t1 := Term.setAgreement (Term.status t) [e1] t).
  assert (terms w1 = <[k := t1]> (terms w) ∧ relationships w1 = relationships w)
    as [Ht1 Hr1].
  { subst w1. unfold termController.agreeTerm, catch, Notification_create.
    rewrite Hv1, Hk, Hr. simpl. rewrite (party_guard _ _ Hin1).
    unfold Term.hasUserAgreed. rewrite Hnil. simpl.
    destruct (2 <=? 1)%nat eqn:E; [apply Nat.leb_le in E; lia|].
    destruct (sinkUp env1 _); simpl; done. }
  split.
  - exists t1. rewrite Ht1, lookup_insert_eq. done.
  - subst w2. unfold termController.agreeTerm, catch, Notification_create.
    rewrite Hv2, Ht1, lookup_insert_eq. simpl. rewrite Hr1, Hr. simpl.
    rewrite (party_guard _ _ Hin2).
    unfold Term.hasUserAgreed. simpl.
    rewrite (bool_decide_eq_false_2 _ Hne). simpl.
    destruct (2 <=? 2)%nat eqn:E; [|apply Nat.leb_gt in E; lia].
    destruct (sinkUp env2 _); simpl; rewrite lookup_insert_eq; eexists; done.
Qed.

Lemma both_agreements_make_the_term_agreed_witness :
  ∃ t2, terms agreedTermWorld !! 2%positive = Some t2
        ∧ Term.status t2 = Term.agreed
        ∧ Term.agreedUser <$> Term.agreedBy t2
          = [id (user (asUser userA)); id (user (asUser userB))].
Proof.
  refine (proj2 (both_agreements_make_the_term_agreed (sinkOk 2200) (sinkOk 2300)
                   (asUser userA) (asUser userB) None None termWorld 2%positive
                   (storedTerm termWorld 2%positive) (stored termWorld 1%positive)
                   _ _ _ _ _ _ _ _)).
  - reflexivity.
  - reflexivity.
  - vm_compute. reflexivity.
  - vm_compute. reflexivity.
  - vm_compute. reflexivity.
  - vm_compute. reflexivity.
  - vm_compute. congruence.
  - vm_compute. reflexivity.
Defined.

(** ** Milestones: one completion *)

Lemma completeMilestone_stores env req w k m r :
  errors_isEmpty req = true →
  milestones w !! k = Some m →
  relationships w !! Milestone.relationship m = Some r →
  Relationship.includesUser r (id (user req)) = true →
  Milestone.status m ≠ Milestone.completed →
  let w1 := (milestoneController.completeMilestone env req k w).1 in
  milestones w1 = <[k := Milestone.complete (now env) (id (user req)) m]> (milestones w)
  ∧ relationships w1
    = alter (Relationship.incMilestonesAchieved 1) (Milestone.relationship m)
        (relationships w).
Proof.
  intros Hv Hk Hr Hin Hs.
  unfold milestoneController.completeMilestone, catch, Notification_create, newId.
  rewrite Hv, Hk, Hr. simpl. rewrite (party_guard _ _ Hin).
  rewrite (bool_decide_eq_false_2 _ Hs). simpl.
  repeat case_match; simplify_eq/=; done.
Qed.

(** X20.  A milestone is completed once: the completion by a party counts
    one achieved milestone on the relationship, whatever becomes of the
    certificate and of the notifications, and every further completion is
    refused with 400 and writes nothing. *)
Theorem a_milestone_is_completed_once env1 env2 req1 req2 w k m r :
  errors_isEmpty req1 = true →
  errors_isEmpty req2 = true →
  milestones w !! k = Some m →
  relationships w !! Milestone.relationship m = Some r →
  Relationship.includesUser r (id (user req1)) = true →
  Relationship.includesUser r (id (user req2)) = true →
  Milestone.status m ≠ Milestone.completed →
  let w1 := (milestoneController.completeMilestone env1 req1 k w).1 in
  relationships w1 !! Milestone.relationship m
  = Some (Relationship.incMilestonesAchieved 1 r)
  ∧ milestoneController.completeMilestone env2 req2 k w1
    = (w1, json 400 "Milestone is already completed").
Proof.
  intros Hv1 Hv2 Hk Hr Hin1 Hin2 Hs w1.
  destruct (completeMilestone_stores env1 req1 w k m r Hv1 Hk Hr Hin1 Hs) as [Hm1 Hr1].
  fold w1 in Hm1, Hr1. split.
  - by rewrite Hr1, lookup_alter_eq, Hr.
  - unfold milestoneController.completeMilestone.
    rewrite Hv2, Hm1, lookup_insert_eq. simpl.
    rewrite Hr1, lookup_alter_eq, Hr. simpl.
    by rewrite (party_guard _ _ Hin2).
Qed.

Lemma a_milestone_is_completed_once_witness :
  milestoneController.completeMilestone (sinkOk 2300) (asUser userA) 2%positive
    completedWorld
  = (completedWorld, json 400 "Milestone is already completed").
Proof.
  refine (proj2 (a_milestone_is_completed_once (sinkOk 2200) (sinkOk 2300)
                   (asUser userB) (asUser userA)
                   (handle (sinkOk 2100) (asUser userA) (CreateMilestone plainMilestone)
                      activeWorld).1
                   2%positive
                   (storedMilestone
                      (handle (sinkOk 2100) (asUser userA) (CreateMilestone plainMilestone)
                         activeWorld).1 2%positive)
                   (stored activeWorld 1%positive) _ _ _ _ _ _ _)).
  - reflexivity.
  - reflexivity.
  - vm_compute. reflexivity.
  - vm_compute. reflexivity.
  - vm_compute. reflexivity.
  - vm_compute. reflexivity.
  - vm_compute. congruence.
Defined.

(** ** Certificates *)

Lemma certificateStep_same c : certificateStep c c.
Proof.
  unfold certificateStep. split_and!; try lia; try done; [by destruct c|].
  exists []. by rewrite app_nil_r.
Qed.

Lemma certificateStep_preSave now random c c1 :
  Certificate.certificateNumber c1 = Certificate.certificateNumber c →
  certificateStep c c1 → certificateStep c (Certificate.preSave now random c1).
Proof.
  intros Hn Hstep. unfold Certificate.preSave.
  destruct (truthyString (Certificate.certificateNumber c1)) eqn:E; [done|].
  destruct Hstep as (Hsame & Hnum & Hv & Hd & Hs & Hss & Hon).
  unfold certificateStep. simpl. split_and!; try done; try lia.
  intros Ht. rewrite <- Hn, E in Ht. done.
Qed.

(** Every request keeps a stored certificate. *)
Lemma handle_certificates env req op w k c :
  certificates w !! k = Some c →
  ∃ c', certificates (handle env req op w).1 !! k = Some c' ∧ certificateStep c c'.
Proof.
  intros Hk. destruct op.
  all: unfold_controllers; rewrite ?Certificate_save_unrelated.
  all: repeat case_match; simplify_eq/=; eauto using certificateStep_same.
  all: match goal with
       | H : Certificate.saveExisting _ _ _ _ _ = inr _ |- _ =>
           apply saveExisting_inr in H as [-> _]
       end.
  all: match goal with
       | |- ∃ _, <[?k' := _]> _ !! _ = _ ∧ _ =>
           destruct (decide (k' = k)) as [->|];
             [rewrite lookup_insert_eq
             | rewrite lookup_insert_ne by done; eauto using certificateStep_same]
       end.
  all: simplify_eq; eexists; split; [done|].
  all: apply certificateStep_preSave; [done|].
  all: unfold certificateStep, Certificate.incrementView; simpl.
  all: split_and!; try lia; try done; try (by destruct c).
  all: try (by exists []; rewrite app_nil_r).
  all: eexists; split; [done|]; intros Hnd.
  all: apply NoDup_app; split_and!; [done| |apply NoDup_singleton].
  all: intros x Hx Hx'%list_elem_of_singleton; subst x.
  all: match goal with
       | H : _ && negb (existsb _ _) = true |- _ =>
           apply andb_prop in H as [_ H]; apply negb_true_iff in H;
           apply not_true_iff_false in H; apply H, existsb_exists
       end.
  all: eexists; split; [by apply list_elem_of_In | apply String.eqb_refl].
Qed.

(** X21.  No request removes or revokes a stored certificate or changes
    what it certifies: a request changes at most its counters, each by at
    most one and never downwards, the platforms it was shared on, which
    stay without duplicates, and its number when it has none. *)
Theorem certificates_are_only_counted env req op w k c :
  certificates w !! k = Some c →
  ∃ c', certificates (handle env req op w).1 !! k = Some c'
        ∧ Certificate.recipients c' = Certificate.recipients c
        ∧ Certificate.isRevoked c' = Certificate.isRevoked c
        ∧ Certificate.validUntil c' = Certificate.validUntil c
        ∧ Certificate.title c' = Certificate.title c
        ∧ Certificate.level c' = Certificate.level c
        ∧ (truthyString (Certificate.certificateNumber c) = true →
           Certificate.certificateNumber c' = Certificate.certificateNumber c)
        ∧ (Certificate.viewCount c ≤ Certificate.viewCount c'
           ≤ Certificate.viewCount c + 1)%Z
        ∧ (Certificate.downloadCount c ≤ Certificate.downloadCount c'
           ≤ Certificate.downloadCount c + 1)%Z
        ∧ (Certificate.shareCount c ≤ Certificate.shareCount c'
           ≤ Certificate.shareCount c + 1)%Z
        ∧ (NoDup (Certificate.sharedOn c) → NoDup (Certificate.sharedOn c')).
Proof.
  intros Hk. destruct (handle_certificates env req op w k c Hk) as (c' & Hk' & Hstep).
  exists c'. split; [done|].
  destruct Hstep as (Hsame & Hnum & Hv & Hd & Hs & _ & (new & _ & Hnd)).
  split_and!; try done; try lia.
  - exact (f_equal Certificate.recipients Hsame).
  - exact (f_equal Certificate.isRevoked Hsame).
  - exact (f_equal Certificate.validUntil Hsame).
  - exact (f_equal Certificate.title Hsame).
  - exact (f_equal Certificate.level Hsame).
Qed.

Lemma certificates_are_only_counted_witness :
  ∃ c', certificates
          (handle (sinkOk 5000) (asUser userA) (ShareCertificate 7%positive (Some "x"))
             certificateWorld).1 !! 7%positive = Some c'
        ∧ Certificate.recipients c' = Certificate.recipients sampleCertificate
        ∧ Certificate.isRevoked c' = false.
Proof.
  destruct (certificates_are_only_counted (sinkOk 5000) (asUser userA)
              (ShareCertificate 7%positive (Some "x")) certificateWorld 7%positive
              (Certificate.preSave 1700 "k3x9q" sampleCertificate))
    as (c' & Hk' & Hr & Hrev & _).
  - vm_compute. reflexivity.
  - exists c'. split; [exact Hk'|]. split; [exact Hr | exact Hrev].
Defined.

(** A certificate that is not valid at one time is not valid later. *)
Lemma isValid_later now now' c :
  Certificate.isValid now c = false → (now ≤ now')%Z → Certificate.isValid now' c = false.
Proof.
  unfold Certificate.isValid. destruct (Certificate.isRevoked c); [done|].
  destruct (Certificate.validUntil c) as [until|]; [|done].
  destruct (until <? now)%Z eqn:E; [|done]. intros _ Hle.
  apply Z.ltb_lt in E. assert ((until <? now')%Z = true) as -> by (apply Z.ltb_lt; lia).
  done.
Qed.

Lemma invalid_is_refused env req w k c platform :
  certificates w !! k = Some c →
  Certificate.isValid (now env) c = false →
  let refused (out : World * Response) :=
    out.1 = w ∧ (code out.2 = 400%Z ∨ code out.2 = 403%Z) in
  refused (certificateController.getCertificate env req k w)
  ∧ refused (certificateController.downloadCertificate env req k w)
  ∧ refused (certificateController.shareCertificate env req k platform w).
Proof.
  intros Hk Hinvalid.
  unfold certificateController.getCertificate, certificateController.downloadCertificate,
    certificateController.shareCertificate.
  rewrite Hk, Hinvalid. simpl.
  destruct (errors_isEmpty req), (certificateController.isRecipient c (id (user req)));
    simpl; auto.
Qed.

(** X22.  Expiry is final: a certificate that is not valid at the time of
    one request is served by none of the three routes at any later time;
    they answer 400 or 403 and write nothing, so its counters stay. *)
Theorem invalid_certificate_is_never_served_again env env' req w k c platform :
  certificates w !! k = Some c →
  Certificate.isValid (now env) c = false →
  (now env ≤ now env')%Z →
  let refused (out : World * Response) :=
    out.1 = w ∧ (code out.2 = 400%Z ∨ code out.2 = 403%Z) in
  refused (certificateController.getCertificate env' req k w)
  ∧ refused (certificateController.downloadCertificate env' req k w)
  ∧ refused (certificateController.shareCertificate env' req k platform w).
Proof.
  intros Hk Hinvalid Hle. apply (invalid_is_refused env' req w k c platform Hk).
  by eapply isValid_later.
Qed.

Lemma invalid_certificate_is_never_served_again_witness :
  (certificateController.getCertificate (sinkOk 9000) (asUser userA) 7%positive
     (setCertificates
        (<[7%positive := Certificate.revoke 8000 "issued in error"
                           (Certificate.preSave 1700 "k3x9q" sampleCertificate)]> ∅)
        activeWorld)).1
  = setCertificates
      (<[7%positive := Certificate.revoke 8000 "issued in error"
                         (Certificate.preSave 1700 "k3x9q" sampleCertificate)]> ∅)
      activeWorld.
Proof.
  refine (proj1 (proj1 (invalid_certificate_is_never_served_again (sinkOk 8500)
                          (sinkOk 9000) (asUser userA)
                          (setCertificates
                             (<[7%positive := Certificate.revoke 8000 "issued in error"
                                  (Certificate.preSave 1700 "k3x9q" sampleCertificate)]> ∅)
                             activeWorld)
                          7%positive
                          (Certificate.revoke 8000 "issued in error"
                             (Certificate.preSave 1700 "k3x9q" sampleCertificate))
                          None _ _ _))).
  - vm_compute. reflexivity.
  - vm_compute. reflexivity.
  - vm_compute. congruence.
Defined.

(** X23.  [revoke] is final as well: a revoked certificate is valid at no
    time, whatever its expiry date, and the three routes refuse it. *)
Theorem revoked_certificate_is_refused env req w k c t reason platform :
  certificates w !! k = Some (Certificate.revoke t reason c) →
  (∀ t', Certificate.isValid t' (Certificate.revoke t reason c) = false)
  ∧ (certificateController.getCertificate env req k w).1 = w
  ∧ (certificateController.downloadCertificate env req k w).1 = w
  ∧ (certificateController.shareCertificate env req k platform w).1 = w.
Proof.
  intros Hk. split; [done|].
  destruct (invalid_is_refused env req w k _ platform Hk eq_refl)
    as ([? _] & [? _] & [? _]).
  done.
Qed.

Lemma revoked_certificate_is_refused_witness :
  (certificateController.shareCertificate (sinkOk 9000) (asUser userB) 7%positive
     (Some "x")
     (setCertificates
        (<[7%positive := Certificate.revoke 8000 "issued in error" sampleCertificate]> ∅)
        activeWorld)).1
  = setCertificates
      (<[7%positive := Certificate.revoke 8000 "issued in error" sampleCertificate]> ∅)
      activeWorld.
Proof.
  refine (proj2 (proj2 (proj2 (revoked_certificate_is_refused (sinkOk 9000) (asUser userB)
                                 (setCertificates
                                    (<[7%positive := Certificate.revoke 8000
                                         "issued in error" sampleCertificate]> ∅)
                                    activeWorld)
                                 7%positive sampleCertificate 8000 "issued in error"
                                 (Some "x") _)))).
  vm_compute. reflexivity.
Defined.

(** ** The two parties *)

(** X24.  [getPartner] of a party is the other party: it is a party again,
    and when the two parties differ it is not the user and applying it
    twice gives the user back. *)
Theorem getPartner_is_the_other_party r u :
  Relationship.includesUser r u = true →
  Relationship.includesUser r (Relationship.getPartner r u) = true
  ∧ (Relationship.initiator r ≠ Relationship.partner r →
     Relationship.getPartner r u ≠ u
     ∧ Relationship.getPartner r (Relationship.getPartner r u) = u).
Proof.
  unfold Relationship.includesUser, Relationship.getPartner.
  intros Hin. repeat case_bool_decide; simplify_eq/=; try done.
  all: split; [rewrite ?bool_decide_eq_true_2 by done; by rewrite ?orb_true_r|].
  all: intros Hne; split; try done; by rewrite ?bool_decide_eq_true_2 by done.
Qed.

Lemma getPartner_is_the_other_party_witness :
  Relationship.getPartner (stored activeWorld 1%positive) (id userB) ≠ id userB
  ∧ Relationship.getPartner (stored activeWorld 1%positive)
      (Relationship.getPartner (stored activeWorld 1%positive) (id userB))
    = id userB.
Proof.
  refine (proj2 (getPartner_is_the_other_party (stored activeWorld 1%positive) (id userB) _)
            _).
  - vm_compute. reflexivity.
  - vm_compute. congruence.
Defined.

(** ** The notifications and the log of a request *)

Lemma getPartner_other r u :
  Relationship.initiator r ≠ Relationship.partner r →
  Relationship.includesUser r u = true →
  Relationship.getPartner r u ≠ u.
Proof.
  unfold Relationship.includesUser, Relationship.getPartner.
  intros Hne Hin. repeat case_bool_decide; simplify_eq/=; congruence.
Qed.

Lemma handle_notifications env req op w :
  (∀ k r, relationships w !! k = Some r →
     Relationship.initiator r ≠ Relationship.partner r) →
  ∃ ns ls,
    notifications (handle env req op w).1 = notifications w ++ ns
    ∧ logs (handle env req op w).1 = logs w ++ ls
    ∧ length ns ≤ 1 ∧ length ls ≤ 1
    ∧ (code (handle env req op w).2 = 500%Z → ns = [] ∧ length ls = 1)
    ∧ Forall (λ n, Notification.sender n = id (user req)
                   ∧ Notification.recipient n ≠ id (user req)) ns.
Proof.
  intros Hparties. destruct op.
  all: controller_cases.
  all: try (exists [], []; rewrite !app_nil_r; split_and!; simpl; try done; lia).
  all: try (eexists [], [_]; rewrite ?app_nil_r; split_and!; simpl; try done; lia).
  all: repeat match goal with
       | H : relationships _ !! _ = Some _ |- _ => apply Hparties in H
       end.
  all: try (eexists [_], []; rewrite ?app_nil_r; split_and!; simpl; try done; try lia;
            apply Forall_singleton; simpl; split; [done|];
            first [ done | congruence | by apply getPartner_other ]).
Qed.

(** X25.  Every notification that the requests have left in the
    Notification Sink is addressed to somebody else than its sender. *)
Theorem notifications_go_to_the_other_party w :
  reachable w →
  Forall (λ n, Notification.recipient n ≠ Notification.sender n) (notifications w).
Proof.
  induction 1 as [|env req op w Hw IH]; [apply Forall_nil_2|].
  destruct (handle_notifications env req op w) as (ns & ls & -> & _ & _ & _ & _ & Hns).
  { intros k r Hk. by destruct (reachable_relationship w k r Hw Hk). }
  apply Forall_app. split; [done|].
  eapply Forall_impl; [exact Hns|]. intros n [-> Hne]. done.
Qed.

Lemma notifications_go_to_the_other_party_witness :
  Forall (λ n, Notification.recipient n ≠ Notification.sender n)
    (notifications commentedWorld).
Proof.
  apply notifications_go_to_the_other_party.
  unfold commentedWorld, activityWorld.
  apply reachable_step, reachable_step, reachable_step, reachable_activeWorld.
Defined.

(** X26.  One request sends at most one notification, in the name of its
    user, and writes at most one line to the log; an answer 500 always
    comes with its line in the log and without a notification. *)
Theorem a_request_notifies_once_and_logs_its_failure env req op w :
  reachable w →
  ∃ ns ls,
    notifications (handle env req op w).1 = notifications w ++ ns
    ∧ logs (handle env req op w).1 = logs w ++ ls
    ∧ length ns ≤ 1 ∧ length ls ≤ 1
    ∧ (code (handle env req op w).2 = 500%Z → ns = [] ∧ length ls = 1)
    ∧ Forall (λ n, Notification.sender n = id (user req)) ns.
Proof.
  intros Hw.
  destruct (handle_notifications env req op w)
    as (ns & ls & Hns & Hls & Hn & Hl & H500 & Hsender).
  { intros k r Hk. by destruct (reachable_relationship w k r Hw Hk). }
  exists ns, ls. split_and!; try done.
  eapply Forall_impl; [exact Hsender|]. by intros n [? _].
Qed.

Lemma a_request_notifies_once_and_logs_its_failure_witness :
  ∃ ns ls,
    notifications
      (handle (sinkDown 2100) (asUser userA) (CreateTerm houseRule) activeWorld).1
    = notifications activeWorld ++ ns
    ∧ logs (handle (sinkDown 2100) (asUser userA) (CreateTerm houseRule) activeWorld).1
      = logs activeWorld ++ ls
    ∧ length ns ≤ 1 ∧ length ls ≤ 1
    ∧ (code (handle (sinkDown 2100) (asUser userA) (CreateTerm houseRule) activeWorld).2
       = 500%Z → ns = [] ∧ length ls = 1)
    ∧ Forall (λ n, Notification.sender n = id (user (asUser userA))) ns.
Proof.
  exact (a_request_notifies_once_and_logs_its_failure (sinkDown 2100) (asUser userA)
           (CreateTerm houseRule) activeWorld reachable_activeWorld).
Defined.

(** ** Activities: the counters of the relationship *)

Lemma createActivity_stores env req w b r :
  errors_isEmpty req = true →
  relationships w !! activityController.relationshipId b = Some r →
  Relationship.includesUser r (id (user req)) = true →
  Relationship.status r = Relationship.active →
  Activity.validate
    (Activity.new (activityController.relationshipId b) (id (user req))
       (activityController.title b) (activityController.description b)
       (activityController.type b) (activityController.category b)
       (activityController.mood b) (activityController.impact b)) = true →
  let w1 := (activityController.createActivity env req b w).1 in
  activities w1
  = <[nextId w := Activity.new (activityController.relationshipId b) (id (user req))
                    (activityController.title b) (activityController.description b)
                    (activityController.type b) (activityController.category b)
                    (activityController.mood b) (activityController.impact b)]>
      (activities w)
  ∧ relationships w1 !! activityController.relationshipId b
    = Some
        ((if truthyNumber (activityController.impact b ≫= Activity.trustChange)
          then Relationship.setTrustLevel
                 (activityController.clampTrust
                    (Relationship.trustLevel (Relationship.stats r))
                    (default 0%Z (activityController.impact b ≫= Activity.trustChange)))
          else λ r, r)
           (Relationship.setLastInteraction (now env)
              (Relationship.incTotalActivities 1 r))).
Proof.
  intros Hv Hk Hin Hs Hvalid.
  unfold activityController.createActivity, catch, Notification_create, newId.
  rewrite Hv, Hk, Hin, Hs, Hvalid. simpl.
  destruct (activityController.impact b) as [[tc rs]|]; simpl.
  - destruct (truthyNumber tc), (truthyNumber rs), (sinkUp env _); simpl.
    all: by rewrite ?lookup_alter_eq, Hk.
  - destruct (sinkUp env _); simpl; by rewrite lookup_alter_eq, Hk.
Qed.

(** X27.  Deleting an activity takes back its count and nothing else: after
    an activity is created and deleted again it is gone and the relationship
    counts as many activities as before, but the trust level keeps the
    change the activity brought and the last interaction its date. *)
Theorem deleting_an_activity_keeps_its_trust_change env1 env2 req w b r :
  errors_isEmpty req = true →
  relationships w !! activityController.relationshipId b = Some r →
  Relationship.includesUser r (id (user req)) = true →
  Relationship.status r = Relationship.active →
  Activity.validate
    (Activity.new (activityController.relationshipId b) (id (user req))
       (activityController.title b) (activityController.description b)
       (activityController.type b) (activityController.category b)
       (activityController.mood b) (activityController.impact b)) = true →
  let w1 := (activityController.createActivity env1 req b w).1 in
  let w2 := (activityController.deleteActivity env2 req (nextId w) w1).1 in
  activities w1 !! nextId w ≠ None
  ∧ activities w2 !! nextId w = None
  ∧ ∃ r2, relationships w2 !! activityController.relationshipId b = Some r2
          ∧ Relationship.totalActivities (Relationship.stats r2)
            = Relationship.totalActivities (Relationship.stats r)
          ∧ Relationship.lastInteraction (Relationship.stats r2) = now env1
          ∧ Relationship.trustLevel (Relationship.stats r2)
            = if truthyNumber (activityController.impact b ≫= Activity.trustChange)
              then activityController.clampTrust
                     (Relationship.trustLevel (Relationship.stats r))
                     (default 0%Z (activityController.impact b ≫= Activity.trustChange))
              else Relationship.trustLevel (Relationship.stats r).
Proof.
  intros Hv Hk Hin Hs Hvalid w1 w2.
  destruct (createActivity_stores env1 req w b r Hv Hk Hin Hs Hvalid) as [Ha Hr].
  fold w1 in Ha, Hr. subst w2.
  unfold activityController.deleteActivity.
  rewrite Hv, Ha, lookup_insert_eq. simpl.
  rewrite (bool_decide_eq_true_2 (_ = _) eq_refl). simpl.
  rewrite lookup_delete_eq, lookup_alter_eq, Hr. simpl.
  split_and!; [done..|]. eexists. split; [done|].
  destruct (truthyNumber _); simpl; split_and!; try done; lia.
Qed.

Lemma deleting_an_activity_keeps_its_trust_change_witness :
  ∃ r2, relationships
          (activityController.deleteActivity (sinkOk 2600) (asUser userA)
             (nextId activeWorld)
             (activityController.createActivity (sinkOk 2100) (asUser userA)
                (activity 5) activeWorld).1).1 !! 1%positive = Some r2
        ∧ Relationship.totalActivities (Relationship.stats r2)
          = Relationship.totalActivities (Relationship.stats (stored activeWorld 1%positive))
        ∧ Relationship.lastInteraction (Relationship.stats r2) = 2100%Z
        ∧ Relationship.trustLevel (Relationship.stats r2) = 55%Z.
Proof.
  refine (proj2 (proj2 (deleting_an_activity_keeps_its_trust_change (sinkOk 2100)
                          (sinkOk 2600) (asUser userA) activeWorld (activity 5)
                          (stored activeWorld 1%positive) _ _ _ _ _))).
  - reflexivity.
  - vm_compute. reflexivity.
  - vm_compute. reflexivity.
  - vm_compute. reflexivity.
  - vm_compute. reflexivity.
Defined.

(** ** The notification controller *)

Lemma unread_after_markAll env req u
    (store : gmap ObjectId notificationController.Stored) :
  filter (notificationController.unreadOf u)
    (notificationController.markAllAsRead env req store).1
  = (if decide (u = id (user req)) then ∅
     else filter (notificationController.unreadOf u) store).
Proof.
  unfold notificationController.markAllAsRead. simpl. apply map_eq. intros k.
  rewrite map_lookup_filter, lookup_fmap.
  destruct (decide (u = id (user req))) as [->|Hne].
  - rewrite lookup_empty. destruct (store !! k) as [n|]; simpl; [|done].
    case_decide as Hn; simpl.
    + rewrite option_guard_False; [done|].
      unfold notificationController.unreadOf. simpl. by intros [_ ?].
    + by rewrite option_guard_False.
  - rewrite map_lookup_filter. destruct (store !! k) as [n|]; simpl; [|done].
    case_decide as Hn; simpl; [|done].
    destruct Hn as [Hr _].
    rewrite !option_guard_False; [done|..];
      unfold notificationController.unreadOf; simpl; intros [? _]; congruence.
Qed.

(** X28.  Marking all as read leaves the user without an unread
    notification and the unread notifications of everybody else as they
    are. *)
Theorem markAllAsRead_empties_the_own_inbox_only env req u store :
  notificationController.Notification_getUnreadCount u
    (notificationController.markAllAsRead env req store).1
  = if decide (u = id (user req)) then 0
    else notificationController.Notification_getUnreadCount u store.
Proof.
  unfold notificationController.Notification_getUnreadCount.
  rewrite unread_after_markAll. by case_decide.
Qed.

(** X29.  A notification is read, marked and deleted by its recipient
    only: anybody else is answered 403 and the stored notifications stay
    as they are; the recipient's [markAsRead] takes exactly this
    notification out of the unread ones. *)
Theorem notifications_belong_to_their_recipient env req k store n :
  errors_isEmpty req = true →
  store !! k = Some n →
  (notificationController.recipient n ≠ id (user req) →
   notificationController.getNotification req k store = (store, json 403 "Access denied")
   ∧ notificationController.markAsRead env req k store = (store, json 403 "Access denied")
   ∧ notificationController.deleteNotification req k store
     = (store, json 403 "Access denied"))
  ∧ (notificationController.recipient n = id (user req) →
     notificationController.Notification_getUnreadCount (id (user req))
       (notificationController.markAsRead env req k store).1
     = notificationController.Notification_getUnreadCount (id (user req)) store
       - (if decide (notificationController.status n = notificationController.unread)
          then 1 else 0)).
Proof.
  intros Hv Hk. split.
  - intros Hne.
    unfold notificationController.getNotification, notificationController.markAsRead,
      notificationController.deleteNotification.
    by rewrite Hv, Hk, (bool_decide_eq_false_2 _ Hne).
  - intros Hr. unfold notificationController.markAsRead.
    rewrite Hv, Hk, (bool_decide_eq_true_2 _ Hr). simpl.
    unfold notificationController.Notification_getUnreadCount.
    rewrite map_filter_insert_False
      by (unfold notificationController.unreadOf; simpl; by intros [_ ?]).
    rewrite map_filter_delete.
    case_decide as Hs.
    + rewrite map_size_delete_Some; [lia|]. exists n.
      apply map_lookup_filter_Some_2; [done|]. by split.
    + rewrite delete_id; [lia|]. apply map_lookup_filter_None_2. right.
      intros n' Hk' [_ Hs']. by simplify_eq.
Qed.

Lemma notifications_belong_to_their_recipient_witness :
  notificationController.deleteNotification (asUser userB) 11%positive inbox
  = (inbox, json 403 "Access denied").
Proof.
  refine (proj2 (proj2 (proj1 (notifications_belong_to_their_recipient (sinkOk 7000)
                                 (asUser userB) 11%positive inbox
                                 {| notificationController.recipient := id userA;
                                    notificationController.status :=
                                      notificationController.unread;
                                    notificationController.readAt := None |} _ _) _))).
  - reflexivity.
  - vm_compute. reflexivity.
  - vm_compute. congruence.
Defined.

(** ** The counters of a relationship *)

Section counting.
Context {A : Type} (P : ObjectId * A → Prop) `{∀ x, Decision (P x)}.

Lemma count_insert_new (store : gmap ObjectId A) i x :
  store !! i = None →
  size (filter P (<[i := x]> store))
  = size (filter P store) + (if decide (P (i, x)) then 1 else 0).
Proof.
  intros Hi. case_decide as HP.
  - rewrite map_filter_insert_True by done.
    rewrite map_size_insert_None; [lia|]. by apply map_lookup_filter_None_2; left.
  - rewrite map_filter_insert_not' by (done || (intros y Hy; congruence)). lia.
Qed.

Lemma count_delete (store : gmap ObjectId A) i x :
  store !! i = Some x →
  size (filter P (delete i store))
  = size (filter P store) - (if decide (P (i, x)) then 1 else 0).
Proof.
  intros Hi. rewrite map_filter_delete. case_decide as HP.
  - rewrite map_size_delete_Some; [lia|]. exists x. by apply map_lookup_filter_Some_2.
  - rewrite delete_id; [lia|]. apply map_lookup_filter_None_2. right.
    intros y Hy. by simplify_eq.
Qed.

Lemma count_positive (store : gmap ObjectId A) i x :
  store !! i = Some x → P (i, x) → 0 < size (filter P store).
Proof.
  intros Hi HP. apply Nat.neq_0_lt_0, (map_size_ne_0_lookup_2 _ i). exists x.
  by apply map_lookup_filter_Some_2.
Qed.

Lemma count_insert (store : gmap ObjectId A) i x x' :
  store !! i = Some x →
  size (filter P (<[i := x']> store))
  = size (filter P store) - (if decide (P (i, x)) then 1 else 0)
    + (if decide (P (i, x')) then 1 else 0).
Proof.
  intros Hi. rewrite <- insert_delete_eq.
  rewrite count_insert_new by apply lookup_delete_eq.
  by rewrite (count_delete _ _ x).
Qed.

Lemma count_zero (store : gmap ObjectId A) :
  (∀ i x, store !! i = Some x → ¬ P (i, x)) → size (filter P store) = 0.
Proof.
  intros Hnone. apply map_size_empty_iff, map_empty. intros i.
  apply map_lookup_filter_None_2. right. intros x Hi. by apply Hnone.
Qed.
End counting.

Ltac count_stores :=
  repeat match goal with
  | H : ?store !! ?i = Some ?x |- context [filter ?P (<[?i := ?x']> ?store)] =>
      rewrite (count_insert P store i x x' H)
  | |- context [filter ?P (<[?i := ?x']> ?store)] =>
      rewrite (count_insert_new P store i x') by (by apply fresh_None)
  | H : ?store !! ?i = Some ?x |- context [filter ?P (delete ?i ?store)] =>
      rewrite (count_delete P store i x H)
  end.

Ltac count_known Hagree :=
  repeat match goal with
  | H : relationships _ !! _ = Some _ |- _ => apply Hagree in H as [? ?]
  end.

Ltac count_cases :=
  unfold activityOf, completedOf in *; simpl in *;
  repeat case_decide; simplify_eq/=;
  repeat match goal with
  | H : _ ∧ _ |- _ => destruct H
  end.

Lemma handle_counters env req op w :
  (∀ k r, relationships w !! k = Some r → (k < nextId w)%positive) →
  freshDependents w →
  countersAgree w →
  countersAgree (handle env req op w).1.
Proof.
  intros Hfr (_ & F2 & F3) (Hagree & Ha & Hm). destruct op.
  all: controller_cases.
  all: try (by split_and!).
  all: unfold Relationship_insert in *; repeat case_match; simplify_eq.
  all: unfold countersAgree; simpl; split_and!.
  all: try (intros i0 x0 Hi0; lookups; simpl;
            repeat match goal with
            | H : activities _ !! _ = Some _ |- _ => apply Ha in H
            | H : milestones _ !! _ = Some _ |- _ => apply Hm in H
            | H : relationships _ !! _ = Some _ |- _ => apply Hfr in H
            end; lia).
  all: intros k0 r0 Hk0; lookups; simpl.
  all: count_stores.
  all: repeat match goal with
       | H : relationships _ !! _ = Some _ |- _ => apply Hagree in H as [? ?]
       end.
  all: try match goal with
       | |- context [filter (activityOf (nextId ?w0)) _] =>
           rewrite (count_zero (activityOf (nextId w0)))
             by (intros i x Hi Hp; apply Ha in Hi; unfold activityOf in Hp;
                 simpl in Hp; lia);
           rewrite (count_zero (completedOf (nextId w0)))
             by (intros i x Hi [Hp _]; apply Hm in Hi; simpl in Hp; lia)
       end.
  all: repeat match goal with
       | H : ?store !! ?i = Some ?x |- context [decide (?P (?i, ?x))] =>
           let HP := fresh "HP" in
           destruct (decide (P (i, x))) as [HP|HP];
             [pose proof (count_positive P store i x H HP)|]
       end.
  all: repeat case_decide.
  all: unfold activityOf, completedOf in *; simpl in *.
  all: try (split; lia).
  all: try (exfalso; intuition congruence).
Qed.

Lemma reachable_counters w : reachable w → countersAgree w.
Proof.
  induction 1 as [|env req op w Hw IH].
  - split_and!; intros k x Hk; simpl in Hk; by rewrite lookup_empty in Hk.
  - apply handle_counters; [|by apply reachable_freshDependents|done].
    intros k r. by apply reachable_fresh.
Qed.

(** X30.  The counters of a relationship agree with the stores in every
    reachable state: [stats.totalActivities] is the number of stored
    activities of the relationship and [stats.milestonesAchieved] the
    number of its completed milestones. *)
Theorem counters_agree_with_the_stores w k r :
  reachable w →
  relationships w !! k = Some r →
  Relationship.totalActivities (Relationship.stats r)
  = Z.of_nat (size (filter (activityOf k) (activities w)))
  ∧ Relationship.milestonesAchieved (Relationship.stats r)
    = Z.of_nat (size (filter (completedOf k) (milestones w))).
Proof. intros Hw Hk. destruct (reachable_counters w Hw) as (Hagree & _). by apply Hagree. Qed.

Lemma counters_agree_with_the_stores_witness :
  Relationship.totalActivities (Relationship.stats (stored completedWorld 1%positive))
  = Z.of_nat (size (filter (activityOf 1%positive) (activities completedWorld)))
  ∧ Relationship.milestonesAchieved (Relationship.stats (stored completedWorld 1%positive))
    = Z.of_nat (size (filter (completedOf 1%positive) (milestones completedWorld))).
Proof.
  refine (counters_agree_with_the_stores completedWorld 1%positive
            (stored completedWorld 1%positive) _ _).
  - unfold completedWorld. apply reachable_step, reachable_step, reachable_activeWorld.
  - vm_compute. reflexivity.
Defined.
